(** * caravel/data/__init__.py: the sample-data loaders

    A shallow embedding of the loader module: the records it upserts, the
    session and cluster calls it issues, the literal slice and layout
    configuration of every loader, and the properties of the resulting
    storage. *)

From Stdlib Require Import ZArith Ascii.
From stdpp Require Import gmap strings list fin_maps sorting pretty.

Set Default Proof Using "Type".
Set Warnings "-register-all,-clear-no-such-hyp".

(** ** JSON values and dictionaries *)

Inductive json :=
| JNull
| JBool (b : bool)
| JInt (z : Z)
| JStr (s : string)
| JList (l : list json)
| JObj (l : list (string * json)).

(** A Python [dict] with string keys. *)
Abbreviation dict := (gmap string json).

(** A literal [{k1: v1, ...}]; in a Python literal a later duplicate key
    wins, hence the left fold. *)
Definition dict_of (l : list (string * json)) : dict :=
  fold_left (λ d kv, <[kv.1 := kv.2]> d) l ∅.

Definition strs (l : list string) : json := JList (JStr <$> l).

(** [str(n)] of a non-negative integer. *)
Definition str (n : nat) : string := pretty n.

(** Order of the keys under [sort_keys=True]: code points, which for the
    byte strings here is [String.leb]. *)
Definition key_le (a b : string * json) : Prop := String.leb a.1 b.1 = true.

#[global] Instance key_le_dec a b : Decision (key_le a b).
Proof. unfold key_le. apply _. Defined.

(** [json.dumps(p, indent=4, sort_keys=True)]: the blob is kept as the JSON
    object it denotes, its members in the order they are written. *)
Definition json_dumps_sorted (p : dict) : json :=
  JObj (merge_sort key_le (map_to_list p)).

(** [json.dumps(l, indent=4)] of a list of dictionaries; without
    [sort_keys] the member order is the dictionary's own. *)
Definition json_dumps_list (l : list dict) : json :=
  JList ((λ d, JObj (map_to_list d)) <$> l).

Definition obj_members (j : json) : list (string * json) :=
  match j with JObj l => l | _ => [] end.

Definition list_items (j : json) : list json :=
  match j with JList l => l | _ => [] end.

Definition obj_keys (j : json) : list string := (obj_members j).*1.

Fixpoint assoc_get (k : string) (l : list (string * json)) : option json :=
  match l with
  | [] => None
  | (k', v) :: l' => if decide (k' = k) then Some v else assoc_get k l'
  end.

Definition obj_get (k : string) (j : json) : option json :=
  assoc_get k (obj_members j).

(** ** Data frames *)

(** A cell of a data frame: a parsed JSON value, or a date/time value
    (nanoseconds since the epoch) produced by a conversion. *)
Inductive cell :=
| Raw (v : json)
| Timestamp (ns : Z).

(** Columns in order, each with its values. *)
Abbreviation DataFrame := (list (string * list cell)).

(** Column types of [sqlalchemy] used as [dtype] hints. *)
Inductive sqltype :=
| String_ (n : nat)
| DateTime
| Date
| Float.

Fixpoint replace_char (a b : ascii) (s : string) : string :=
  match s with
  | EmptyString => EmptyString
  | String c s' => String (if decide (c = a) then b else c) (replace_char a b s')
  end.

(** [pdf.col]: the first column of that name. *)
Fixpoint df_get (c : string) (df : DataFrame) : option (list cell) :=
  match df with
  | [] => None
  | (c', v) :: df' => if decide (c' = c) then Some v else df_get c df'
  end.

(** [pdf.col = v] for a column that exists. *)
Fixpoint df_set (c : string) (v : list cell) (df : DataFrame) : DataFrame :=
  match df with
  | [] => []
  | (c', v') :: df' =>
      if decide (c' = c) then (c', v) :: df' else (c', v') :: df_set c v df'
  end.

(** [df[c] = v]: replaces the column, or appends a new one. *)
Definition df_assign (c : string) (v : list cell) (df : DataFrame) : DataFrame :=
  match df_get c df with
  | Some _ => df_set c v df
  | None => df ++ [(c, v)]
  end.

Definition df_len (df : DataFrame) : nat :=
  match df with
  | [] => 0
  | (_, v) :: _ => length v
  end.

(** ** Failures and external calls *)

Inductive failure :=
| HttpStatus (code : nat)
| IOError
| ValueError
| StorageError
| AttributeError (name : string)
| IndexError.

#[global] Instance failure_eq_dec : EqDecision failure.
Proof. solve_decision. Defined.

(** The calls that leave the module: files, pandas, the relational store,
    the search cluster, the session and the metadata layer; and the two
    Python operations of the module that can raise. *)
Inductive op :=
| GzipJsonLoads
| PdReadJson
| PdReadCsv
| ReadFile
| PdToDatetime
| ToSql
| EsIndicesDelete
| EsBulk
| SessionQuery
| SessionCommit
| FetchMetadata
| RefreshFields
| GenerateMetrics
| GetAttr
| GetItem.

#[global] Instance op_eq_dec : EqDecision op.
Proof. solve_decision. Defined.

(** ** The models

    The shortcuts of the module: [DB], [TBL], [Slice], [Dash]; the classes
    themselves live in [caravel.models].  A record that is not persisted yet
    has no [id]; a column that was never assigned is [None]. *)

Module DB.
Record t := mk {
  id : option nat;
  database_name : string;
  sqlalchemy_uri : json }.
Definition set_id i (r : t) := mk i (database_name r) (sqlalchemy_uri r).
Definition set_sqlalchemy_uri u (r : t) := mk (id r) (database_name r) u.
End DB.

Module ElasticsearchCluster.
Record t := mk {
  id : option nat;
  cluster_name : string;
  urls : json }.
Definition set_id i (r : t) := mk i (cluster_name r) (urls r).
Definition set_urls u (r : t) := mk (id r) (cluster_name r) u.
End ElasticsearchCluster.

Module TBL.
Record t := mk {
  id : option nat;
  table_name : string;
  main_dttm_col : option string;
  is_featured : option bool;
  database : option nat;
  description : option string }.
Definition set_id i (r : t) :=
  mk i (table_name r) (main_dttm_col r) (is_featured r) (database r) (description r).
Definition set_main_dttm_col c (r : t) :=
  mk (id r) (table_name r) (Some c) (is_featured r) (database r) (description r).
Definition set_is_featured b (r : t) :=
  mk (id r) (table_name r) (main_dttm_col r) (Some b) (database r) (description r).
Definition set_database d (r : t) :=
  mk (id r) (table_name r) (main_dttm_col r) (is_featured r) d (description r).
Definition set_description d (r : t) :=
  mk (id r) (table_name r) (main_dttm_col r) (is_featured r) (database r) (Some d).
End TBL.

Module ElasticsearchDatasource.
Record t := mk {
  id : option nat;
  datasource_name : string;
  main_dttm_col : option string;
  cluster : option nat;
  index_name : option string;
  description : option string;
  is_featured : option bool }.
Definition set_id i (r : t) :=
  mk i (datasource_name r) (main_dttm_col r) (cluster r) (index_name r)
     (description r) (is_featured r).
Definition set_main_dttm_col c (r : t) :=
  mk (id r) (datasource_name r) (Some c) (cluster r) (index_name r)
     (description r) (is_featured r).
Definition set_cluster c (r : t) :=
  mk (id r) (datasource_name r) (main_dttm_col r) c (index_name r)
     (description r) (is_featured r).
Definition set_index_name n (r : t) :=
  mk (id r) (datasource_name r) (main_dttm_col r) (cluster r) (Some n)
     (description r) (is_featured r).
Definition set_description d (r : t) :=
  mk (id r) (datasource_name r) (main_dttm_col r) (cluster r) (index_name r)
     (Some d) (is_featured r).
Definition set_is_featured b (r : t) :=
  mk (id r) (datasource_name r) (main_dttm_col r) (cluster r) (index_name r)
     (description r) (Some b).
End ElasticsearchDatasource.

Module Slice.
Record t := mk {
  id : option nat;
  slice_name : string;
  viz_type : string;
  datasource_type : string;
  table : option nat;
  elasticsearch_datasource : option nat;
  params : json }.
Definition set_id i (r : t) :=
  mk i (slice_name r) (viz_type r) (datasource_type r) (table r)
     (elasticsearch_datasource r) (params r).
End Slice.

Module Dash.
Record t := mk {
  id : option nat;
  dashboard_title : option string;
  position_json : option json;
  slug : option string;
  slices : list (option nat) }.
Definition set_id i (r : t) :=
  mk i (dashboard_title r) (position_json r) (slug r) (slices r).
Definition set_dashboard_title x (r : t) :=
  mk (id r) (Some x) (position_json r) (slug r) (slices r).
Definition set_position_json x (r : t) :=
  mk (id r) (dashboard_title r) (Some x) (slug r) (slices r).
Definition set_slug x (r : t) :=
  mk (id r) (dashboard_title r) (position_json r) (Some x) (slices r).
Definition set_slices x (r : t) :=
  mk (id r) (dashboard_title r) (position_json r) (slug r) x.
End Dash.

Module CSS.
Record t := mk {
  id : option nat;
  template_name : string;
  css : option string }.
Definition set_id i (r : t) := mk i (template_name r) (css r).
Definition set_css c (r : t) := mk (id r) (template_name r) (Some c).
End CSS.

(** The dataset handle [import_data] returns: a [TBL], or a datasource of
    the search cluster. *)
Inductive datasource :=
| TableDs (t : TBL.t)
| EsDs (d : ElasticsearchDatasource.t).

(** Modelled from the spec: the [type], [id] and [name] properties of the
    two dataset classes of [caravel.models] (the effective datasource
    type/id/name computed from the dataset handle). *)
Definition datasource_type_of (ds : datasource) : string :=
  match ds with TableDs _ => "table" | EsDs _ => "elasticsearch" end.

Definition datasource_id_of (ds : datasource) : option nat :=
  match ds with TableDs t => TBL.id t | EsDs d => ElasticsearchDatasource.id d end.

Definition datasource_name_of (ds : datasource) : string :=
  match ds with
  | TableDs t => TBL.table_name t
  | EsDs d => ElasticsearchDatasource.datasource_name d
  end.

(** An identifier as a JSON value, and under [str]. *)
Definition json_of_id (i : option nat) : json :=
  match i with Some n => JInt (Z.of_nat n) | None => JNull end.

Definition str_id (i : option nat) : string :=
  match i with Some n => str n | None => "None" end.

(** ** Storage *)

(** One table of the metadata database: its rows in insertion order and
    the next identifier of its primary key. *)
Record table (R : Type) := Table { rows : list R; next_id : nat }.
Arguments Table {R} _ _.
Arguments rows {R} _.
Arguments next_id {R} _.

(** Everything the module writes to: the metadata tables, the data tables
    of the relational store, the indices of the search cluster; with the
    number of external calls made so far and the failures raised so far
    (oldest first). *)
Record storage := Storage {
  DB_table : table DB.t;
  cluster_table : table ElasticsearchCluster.t;
  TBL_table : table TBL.t;
  datasource_table : table ElasticsearchDatasource.t;
  Slice_table : table Slice.t;
  Dash_table : table Dash.t;
  CSS_table : table CSS.t;
  sql_tables : gmap string (DataFrame * gmap string sqltype);
  es_indices : gmap string (list (string * json));
  clock : nat;
  faults : list (op * failure) }.

Definition empty_table {R} : table R := Table [] 1.

Definition empty_storage : storage :=
  Storage empty_table empty_table empty_table empty_table empty_table
          empty_table empty_table ∅ ∅ 0 [].

Definition set_DB_table x (s : storage) :=
  Storage x (cluster_table s) (TBL_table s) (datasource_table s) (Slice_table s)
    (Dash_table s) (CSS_table s) (sql_tables s) (es_indices s) (clock s) (faults s).
Definition set_cluster_table x (s : storage) :=
  Storage (DB_table s) x (TBL_table s) (datasource_table s) (Slice_table s)
    (Dash_table s) (CSS_table s) (sql_tables s) (es_indices s) (clock s) (faults s).
Definition set_TBL_table x (s : storage) :=
  Storage (DB_table s) (cluster_table s) x (datasource_table s) (Slice_table s)
    (Dash_table s) (CSS_table s) (sql_tables s) (es_indices s) (clock s) (faults s).
Definition set_datasource_table x (s : storage) :=
  Storage (DB_table s) (cluster_table s) (TBL_table s) x (Slice_table s)
    (Dash_table s) (CSS_table s) (sql_tables s) (es_indices s) (clock s) (faults s).
Definition set_Slice_table x (s : storage) :=
  Storage (DB_table s) (cluster_table s) (TBL_table s) (datasource_table s) x
    (Dash_table s) (CSS_table s) (sql_tables s) (es_indices s) (clock s) (faults s).
Definition set_Dash_table x (s : storage) :=
  Storage (DB_table s) (cluster_table s) (TBL_table s) (datasource_table s)
    (Slice_table s) x (CSS_table s) (sql_tables s) (es_indices s) (clock s) (faults s).
Definition set_CSS_table x (s : storage) :=
  Storage (DB_table s) (cluster_table s) (TBL_table s) (datasource_table s)
    (Slice_table s) (Dash_table s) x (sql_tables s) (es_indices s) (clock s) (faults s).
Definition set_sql_tables x (s : storage) :=
  Storage (DB_table s) (cluster_table s) (TBL_table s) (datasource_table s)
    (Slice_table s) (Dash_table s) (CSS_table s) x (es_indices s) (clock s) (faults s).
Definition set_es_indices x (s : storage) :=
  Storage (DB_table s) (cluster_table s) (TBL_table s) (datasource_table s)
    (Slice_table s) (Dash_table s) (CSS_table s) (sql_tables s) x (clock s) (faults s).
Definition set_clock x (s : storage) :=
  Storage (DB_table s) (cluster_table s) (TBL_table s) (datasource_table s)
    (Slice_table s) (Dash_table s) (CSS_table s) (sql_tables s) (es_indices s) x (faults s).
Definition set_faults x (s : storage) :=
  Storage (DB_table s) (cluster_table s) (TBL_table s) (datasource_table s)
    (Slice_table s) (Dash_table s) (CSS_table s) (sql_tables s) (es_indices s) (clock s) x.

(** What a model class provides to the session: its primary key and its
    table. *)
Class Model (R : Type) := {
  model_id : R → option nat;
  model_set_id : option nat → R → R;
  model_table : storage → table R;
  model_set_table : table R → storage → storage }.

#[global] Instance DB_model : Model DB.t :=
  {| model_id := DB.id; model_set_id := DB.set_id;
     model_table := DB_table; model_set_table := set_DB_table |}.
#[global] Instance cluster_model : Model ElasticsearchCluster.t :=
  {| model_id := ElasticsearchCluster.id; model_set_id := ElasticsearchCluster.set_id;
     model_table := cluster_table; model_set_table := set_cluster_table |}.
#[global] Instance TBL_model : Model TBL.t :=
  {| model_id := TBL.id; model_set_id := TBL.set_id;
     model_table := TBL_table; model_set_table := set_TBL_table |}.
#[global] Instance datasource_model : Model ElasticsearchDatasource.t :=
  {| model_id := ElasticsearchDatasource.id;
     model_set_id := ElasticsearchDatasource.set_id;
     model_table := datasource_table; model_set_table := set_datasource_table |}.
#[global] Instance Slice_model : Model Slice.t :=
  {| model_id := Slice.id; model_set_id := Slice.set_id;
     model_table := Slice_table; model_set_table := set_Slice_table |}.
#[global] Instance Dash_model : Model Dash.t :=
  {| model_id := Dash.id; model_set_id := Dash.set_id;
     model_table := Dash_table; model_set_table := set_Dash_table |}.
#[global] Instance CSS_model : Model CSS.t :=
  {| model_id := CSS.id; model_set_id := CSS.set_id;
     model_table := CSS_table; model_set_table := set_CSS_table |}.

(** ** The environment of a run

    The application configuration, the bundled files as the library
    readers see them, the library conversions, the clock and the random
    generator, and [oracle]: whether the [n]-th external call of the run,
    being the call [o], fails. *)
Record env := Env {
  SQLALCHEMY_DATABASE_URI : json;
  ROW_LIMIT : json;
  gzip_json_loads : string → failure + list json;
  pd_read_json : string → failure + DataFrame;
  pd_read_csv : string → failure + DataFrame;
  readfile : string → failure + string;
  pd_to_datetime : option string → list cell → failure + list cell;
  today : cell;
  randint : Z → Z → nat → Z;
  oracle : nat → op → option failure }.

(** ** The monad of the module: environment, storage, failure

    A failure keeps the storage as it was when it was raised. *)
Definition M (A : Type) : Type := env → storage → storage * (failure + A).

Definition ret {A} (a : A) : M A := λ _ st, (st, inr a).

Definition bind {A B} (m : M A) (k : A → M B) : M B :=
  λ e st,
    match m e st with
    | (st', inr a) => k a e st'
    | (st', inl f) => (st', inl f)
    end.

Declare Scope caravel_scope.
Delimit Scope caravel_scope with caravel.
Notation "x <- m ;; k" := (bind m (λ x, k))
  (at level 100, m at next level, right associativity) : caravel_scope.
Notation "m ;; k" := (bind m (λ _, k))
  (at level 100, right associativity) : caravel_scope.
Open Scope caravel_scope.

Definition ask : M env := λ e st, (st, inr e).
Definition gets {A} (f : storage → A) : M A := λ _ st, (st, inr (f st)).
Definition modify (f : storage → storage) : M unit := λ _ st, (f st, inr tt).

Definition tick (st : storage) : storage := set_clock (S (clock st)) st.

(** An exception: recorded, and the run ends with it. *)
Definition raise {A} (o : op) (f : failure) : M A :=
  λ _ st, (set_faults (faults st ++ [(o, f)]) st, inl f).

(** A call to the store, the cluster or the metadata layer. *)
Definition ext (o : op) : M unit :=
  λ e st,
    match oracle e (clock st) o with
    | Some f => raise o f e (tick st)
    | None => (tick st, inr tt)
    end.

(** A call to a library reader or conversion, with its outcome. *)
Definition lib {A} (o : op) (r : failure + A) : M A :=
  match r with
  | inl f => raise o f
  | inr a => ret a
  end.

(** The outcome of a pure block of the module: a value, or the operation
    that raised with its failure. *)
Definition lift {A} (r : op * failure + A) : M A :=
  match r with
  | inl (o, f) => raise o f
  | inr a => ret a
  end.

Fixpoint sequence {A} (l : list (M A)) : M (list A) :=
  match l with
  | [] => ret []
  | m :: l' => (a <- m ;; r <- sequence l' ;; ret (a :: r))
  end.

(** ** The session

    Modelled from the spec: the session of [caravel.db] (read, upsert and
    commit operations on the metadata tables).  [add] and [merge] insert a
    record that has no identifier under the next one of its table and
    update the row of a record that has one; [delete] removes the row;
    [commit] is the point where the store can refuse. *)

Definition query_first {R} `{Model R} (p : R → bool) : M (option R) :=
  ext SessionQuery ;;
  gets (λ st, find p (rows (model_table st))).

Definition replace_row {R} `{Model R} (r : R) (l : list R) : list R :=
  (λ x, if decide (model_id x = model_id r) then r else x) <$> l.

Definition table_add {R} `{Model R} (r : R) (t : table R) : table R * R :=
  match model_id r with
  | Some _ => (Table (replace_row r (rows t)) (next_id t), r)
  | None =>
      let r' := model_set_id (Some (next_id t)) r in
      (Table (rows t ++ [r']) (S (next_id t)), r')
  end.

Definition table_delete {R} `{Model R} (r : R) (t : table R) : table R :=
  Table (filter (λ x, model_id x ≠ model_id r) (rows t)) (next_id t).

Definition session_add {R} `{Model R} (r : R) : M R :=
  λ _ st,
    let tr := table_add r (model_table st) in
    (model_set_table tr.1 st, inr tr.2).

Definition session_merge {R} `{Model R} (r : R) : M R := session_add r.

Definition session_delete {R} `{Model R} (r : R) : M unit :=
  modify (λ st, model_set_table (table_delete r (model_table st)) st).

Definition session_commit : M unit := ext SessionCommit.

(** ** The relational store and the search cluster *)

(** [pdf.to_sql(name, db.engine, if_exists='replace', chunksize=500,
    dtype=dtype, index=False)]: the table of that name is replaced. *)
Definition to_sql (name : string) (pdf : DataFrame) (dtype : gmap string sqltype)
  : M unit :=
  ext ToSql ;;
  modify (λ st, set_sql_tables (<[name := (pdf, dtype)]> (sql_tables st)) st).

(** [es.indices.delete(index=index, ignore=ignore)].  The cluster answers
    404 when the index does not exist; a status listed in [ignore] is
    recorded and does not raise. *)
Definition es_indices_delete (index : string) (ignore : list nat) : M unit :=
  λ e st,
    let answer :=
      match oracle e (clock st) EsIndicesDelete with
      | Some f => Some f
      | None => if decide (is_Some (es_indices st !! index)) then None
                else Some (HttpStatus 404)
      end in
    match answer with
    | None => (set_es_indices (delete index (es_indices st)) (tick st), inr tt)
    | Some (HttpStatus code) =>
        if decide (code ∈ ignore)
        then (set_faults (faults st ++ [(EsIndicesDelete, HttpStatus code)]) (tick st),
              inr tt)
        else raise EsIndicesDelete (HttpStatus code) e (tick st)
    | Some f => raise EsIndicesDelete f e (tick st)
    end.

(** The body of the bulk call, ['\n'.join('{"index":{}}\n%s\n' %
    json.dumps(row) for row in data)]: one action line and one source line
    per row. *)
Definition bulk_body (data : list json) : list (json * json) :=
  (λ row, (JObj [("index", JObj [])], row)) <$> data.

(** [es.bulk(index=index, doc_type=doc_type, body=body)]: every source is
    indexed under [index]. *)
Definition es_bulk (index doc_type : string) (body : list (json * json)) : M unit :=
  ext EsBulk ;;
  modify (λ st,
    set_es_indices
      (<[index := default [] (es_indices st !! index) ++ ((λ b, (doc_type, b.2)) <$> body)]>
         (es_indices st)) st).

(** ** Connection references *)

Definition get_or_create_db : M DB.t :=
  o <- query_first (λ d, bool_decide (DB.database_name d = "main")) ;;
  let dbobj := default (DB.mk None "main" JNull) o in
  e <- ask ;;
  let dbobj := DB.set_sqlalchemy_uri (SQLALCHEMY_DATABASE_URI e) dbobj in
  dbobj <- session_add dbobj ;;
  session_commit ;;
  ret dbobj.

Definition get_or_create_elasticsearch_cluster (urls : json)
  : M ElasticsearchCluster.t :=
  o <- query_first
         (λ c, bool_decide (ElasticsearchCluster.cluster_name c = "ElasticSearch examples")) ;;
  let clusterobj :=
    default (ElasticsearchCluster.mk None "ElasticSearch examples" JNull) o in
  let clusterobj := ElasticsearchCluster.set_urls urls clusterobj in
  clusterobj <- session_add clusterobj ;;
  session_commit ;;
  ret clusterobj.

(** ** import_data *)

(** [pdf.col = pd.to_datetime(pdf.col, unit=unit)]. *)
Definition coerce_date (e : env) (col : string) (unit : option string)
    (pdf : DataFrame) : op * failure + DataFrame :=
  match df_get col pdf with
  | None => inl (GetAttr, AttributeError col)
  | Some v =>
      match pd_to_datetime e unit v with
      | inl f => inl (PdToDatetime, f)
      | inr v' => inr (df_set col v' pdf)
      end
  end.

(** The date rules of the relational path, by table name. *)
Definition coerce_dates (e : env) (table_name : string) (pdf : DataFrame)
  : op * failure + DataFrame :=
  if decide (table_name = "birth_names")
  then coerce_date e "ds" (Some "ms") pdf
  else if decide (table_name = "wb_health_population")
  then coerce_date e "year" None pdf
  else if decide (table_name = "random_time_series")
  then coerce_date e "ds" (Some "s") pdf
  else inr pdf.

(** [pdf.columns = [col.replace('.', '_') for col in pdf.columns]]. *)
Definition rename_columns (pdf : DataFrame) : DataFrame :=
  (λ cv, (replace_char "." "_" cv.1, cv.2)) <$> pdf.

Definition import_data (file_name table_name description : string)
    (dtype : gmap string sqltype) (es_cluster : option ElasticsearchCluster.t)
  : M datasource :=
  e <- ask ;;
  match es_cluster with
  | Some cluster =>
      let ds_name := "example-" +:+ table_name in
      data <- lib GzipJsonLoads (gzip_json_loads e file_name) ;;
      es_indices_delete ds_name [404] ;;
      let body := bulk_body data in
      es_bulk ds_name table_name body ;;
      o <- query_first
             (λ d, bool_decide (ElasticsearchDatasource.datasource_name d = ds_name)) ;;
      let ds := default (ElasticsearchDatasource.mk None ds_name None None None None None) o in
      let ds :=
        if decide (table_name = "birth_names")
        then ElasticsearchDatasource.set_main_dttm_col "ds" ds
        else if decide (table_name = "wb_health_population")
        then ElasticsearchDatasource.set_main_dttm_col "year" ds
        else ds in
      let ds := ElasticsearchDatasource.set_cluster (ElasticsearchCluster.id cluster) ds in
      let ds := ElasticsearchDatasource.set_index_name ds_name ds in
      let ds := ElasticsearchDatasource.set_description description ds in
      let ds := ElasticsearchDatasource.set_is_featured true ds in
      ds <- session_merge ds ;;
      session_commit ;;
      ext RefreshFields ;;
      ext GenerateMetrics ;;
      ret (EsDs ds)
  | None =>
      pdf <- lib PdReadJson (pd_read_json e file_name) ;;
      let pdf := rename_columns pdf in
      pdf <- lift (coerce_dates e table_name pdf) ;;
      to_sql table_name pdf dtype ;;
      o <- query_first (λ t, bool_decide (TBL.table_name t = table_name)) ;;
      let ds := default (TBL.mk None table_name None None None None) o in
      let ds := TBL.set_is_featured true ds in
      let ds :=
        if decide (table_name = "birth_names")
        then TBL.set_main_dttm_col "ds" ds
        else if decide (table_name = "wb_health_population")
        then TBL.set_main_dttm_col "year" ds
        else if decide (table_name = "random_time_series")
        then TBL.set_is_featured false (TBL.set_main_dttm_col "ds" ds)
        else ds in
      dbobj <- get_or_create_db ;;
      let ds := TBL.set_database (DB.id dbobj) ds in
      let ds := TBL.set_description description ds in
      ds <- session_merge ds ;;
      session_commit ;;
      ext FetchMetadata ;;
      ret (TableDs ds)
  end.

(** ** get_or_create_slice *)

(** The name the slice is stored under. *)
Definition stored_name (slice_name : string) (ds : datasource) : string :=
  if decide (datasource_type_of ds = "elasticsearch")
  then slice_name +:+ " (ES)" else slice_name.

(** The dictionary [p] that is serialised. *)
Definition slice_params (slice_name viz_type : string) (ds : datasource)
    (defaults params : dict) : dict :=
  let p := defaults in
  let p := <["slice_name" := JStr slice_name]> p in
  let p := <["viz_type" := JStr viz_type]> p in
  let p := <["datasource_type" := JStr (datasource_type_of ds)]> p in
  let p := <["datasource_id" := json_of_id (datasource_id_of ds)]> p in
  let p := <["datasource_name" := JStr (datasource_name_of ds)]> p in
  params ∪ p.

Definition get_or_create_slice (slice_name viz_type : string) (ds : datasource)
    (defaults params : dict) : M Slice.t :=
  let slice_name := stored_name slice_name ds in
  let table :=
    if decide (datasource_type_of ds = "elasticsearch") then None
    else datasource_id_of ds in
  let elasticsearch_datasource :=
    if decide (datasource_type_of ds = "elasticsearch") then datasource_id_of ds
    else None in
  let p := slice_params slice_name viz_type ds defaults params in
  o <- query_first (λ s, bool_decide (Slice.slice_name s = slice_name)) ;;
  match o with
  | Some o' => session_delete o'
  | None => ret tt
  end ;;
  let slc :=
    Slice.mk None slice_name viz_type (datasource_type_of ds) table
      elasticsearch_datasource (json_dumps_sorted p) in
  slc <- session_add slc ;;
  session_commit ;;
  ret slc.

(** ** The loaders

    The Python loaders print progress and return nothing; the model leaves
    the printing out and returns the handles the loader holds when it
    ends, so that the theorems can speak about them. *)
Record loaded := Loaded {
  ld_datasource : option datasource;
  ld_slices : list Slice.t;
  ld_dash : option Dash.t;
  ld_css : list CSS.t }.

Definition nl : string := String (ascii_of_nat 10) EmptyString.
Definition dq : string := String (ascii_of_nat 34) EmptyString.

(** The text whose lines are [l], each ended by a newline. *)
Definition unlines (l : list string) : string :=
  foldr (λ s acc, s +:+ nl +:+ acc) EmptyString l.

(** [slices[i]]. *)
Definition getitem {A} (l : list A) (i : nat) : M A :=
  match l !! i with
  | Some a => ret a
  | None => raise GetItem IndexError
  end.

(** [for i, pos in enumerate(l): pos['slice_id'] = str(slices[i].id)],
    from position [i] on. *)
Fixpoint set_slice_ids (i : nat) (l : list dict) (slices : list Slice.t)
  : M (list dict) :=
  match l with
  | [] => ret []
  | pos :: l' =>
      s <- getitem slices i ;;
      l'' <- set_slice_ids (S i) l' slices ;;
      ret (<["slice_id" := JStr (str_id (Slice.id s))]> pos :: l'')
  end.

(** One entry of a layout literal, as [json.loads] returns it. *)
Definition slot (size_y size_x col : Z) (slice_id : string) (row : Z) : dict :=
  dict_of [("size_y", JInt size_y); ("size_x", JInt size_x); ("col", JInt col);
           ("slice_id", JStr slice_id); ("row", JInt row)].

Definition load_energy (es_cluster : option ElasticsearchCluster.t) : M loaded :=
  ds <- import_data "energy.json.gz" "energy_usage" "Energy consumption"
          (list_to_map [("source", String_ 255); ("target", String_ 255);
                        ("value", Float)])
          es_cluster ;;
  s1 <- get_or_create_slice "Energy Sankey" "sankey" ds ∅
          (dict_of [("collapsed_fieldsets", JStr "");
                    ("flt_col_0", JStr "source");
                    ("flt_eq_0", JStr "");
                    ("flt_op_0", JStr "in");
                    ("groupby", strs ["source"; "target"]);
                    ("having", JStr "");
                    ("metric", JStr "sum__value");
                    ("row_limit", JStr "5000");
                    ("slice_id", JStr "");
                    ("where", JStr "")]) ;;
  s2 <- get_or_create_slice "Energy Force Layout" "directed_force" ds ∅
          (dict_of [("charge", JStr "-500");
                    ("collapsed_fieldsets", JStr "");
                    ("flt_col_0", JStr "source");
                    ("flt_eq_0", JStr "");
                    ("flt_op_0", JStr "in");
                    ("groupby", strs ["source"; "target"]);
                    ("having", JStr "");
                    ("link_length", JStr "200");
                    ("metric", JStr "sum__value");
                    ("row_limit", JStr "5000");
                    ("where", JStr "")]) ;;
  s3 <- get_or_create_slice "Heatmap" "heatmap" ds ∅
          (dict_of [("all_columns_x", JStr "source");
                    ("all_columns_y", JStr "target");
                    ("canvas_image_rendering", JStr "pixelated");
                    ("collapsed_fieldsets", JStr "");
                    ("flt_col_0", JStr "source");
                    ("flt_eq_0", JStr "");
                    ("flt_op_0", JStr "in");
                    ("having", JStr "");
                    ("linear_color_scheme", JStr "blue_white_yellow");
                    ("metric", JStr "sum__value");
                    ("normalize_across", JStr "heatmap");
                    ("where", JStr "");
                    ("xscale_interval", JStr "1");
                    ("yscale_interval", JStr "1")]) ;;
  ret (Loaded (Some ds) [s1; s2; s3] None []).

Definition world_bank_defaults (e : env) : dict :=
  dict_of [("compare_lag", JStr "10");
           ("compare_suffix", JStr "o10Y");
           ("limit", JStr "25");
           ("granularity", JStr "year");
           ("groupby", JList []);
           ("metric", JStr "sum__SP_POP_TOTL");
           ("metrics", strs ["sum__SP_POP_TOTL"]);
           ("row_limit", ROW_LIMIT e);
           ("since", JStr "2014-01-01");
           ("until", JStr "2014-01-01");
           ("where", JStr "");
           ("markup_type", JStr "markdown");
           ("country_fieldtype", JStr "cca3");
           ("secondary_metric", JStr "sum__SP_POP_TOTL");
           ("entity", JStr "country_code");
           ("show_bubbles", JStr "y")].

Definition world_bank_layout : list dict :=
  [slot 2 3 10 "22" 1; slot 3 3 10 "23" 3; slot 8 3 1 "24" 1;
   slot 3 6 4 "25" 6; slot 5 6 4 "26" 1; slot 4 6 7 "27" 9;
   slot 3 3 10 "28" 6; slot 4 6 1 "29" 9; slot 4 5 8 "30" 13;
   slot 4 7 1 "31" 13].

Definition load_world_bank_health_n_pop (es_cluster : option ElasticsearchCluster.t)
  : M loaded :=
  e <- ask ;;
  description <- lib ReadFile (readfile e "countries.md") ;;
  ds <- import_data "countries.json.gz" "wb_health_population" description
          (list_to_map [("year", DateTime); ("country_code", String_ 3);
                        ("country_name", String_ 255); ("region", String_ 255)])
          es_cluster ;;
  let defaults := world_bank_defaults e in
  slices <- sequence [
    get_or_create_slice "Region Filter" "filter_box" ds defaults
      (dict_of [("groupby", strs ["region"; "country_name"])]);
    get_or_create_slice "World's Population" "big_number" ds defaults
      (dict_of [("since", JStr "2000");
                ("compare_lag", JStr "10");
                ("metric", JStr "sum__SP_POP_TOTL");
                ("compare_suffix", JStr "over 10Y")]);
    get_or_create_slice "Most Populated Countries" "table" ds defaults
      (dict_of [("metrics", strs ["sum__SP_POP_TOTL"]);
                ("groupby", strs ["country_name"])]);
    get_or_create_slice "Growth Rate" "line" ds defaults
      (dict_of [("since", JStr "1960-01-01");
                ("metrics", strs ["sum__SP_POP_TOTL"]);
                ("num_period_compare", JStr "10");
                ("groupby", strs ["country_name"])]);
    get_or_create_slice "% Rural" "world_map" ds defaults
      (dict_of [("metric", JStr "sum__SP_RUR_TOTL_ZS");
                ("num_period_compare", JStr "10")]);
    get_or_create_slice "Life Expexctancy VS Rural %" "bubble" ds defaults
      (dict_of [("since", JStr "2011-01-01");
                ("until", JStr "2011-01-01");
                ("series", JStr "region");
                ("limit", JStr "0");
                ("entity", JStr "country_name");
                ("x", JStr "sum__SP_RUR_TOTL_ZS");
                ("y", JStr "sum__SP_DYN_LE00_IN");
                ("size", JStr "sum__SP_POP_TOTL");
                ("max_bubble_size", JStr "50");
                ("flt_col_1", JStr "country_code");
                ("flt_op_1", JStr "not in");
                ("flt_eq_1",
                 JStr "TCA,MNP,DMA,MHL,MCO,SXM,CYM,TUV,IMY,KNA,ASM,ADO,AMA,PLW");
                ("num_period_compare", JStr "10")]);
    get_or_create_slice "Rural Breakdown" "sunburst" ds defaults
      (dict_of [("groupby", strs ["region"; "country_name"]);
                ("secondary_metric", JStr "sum__SP_RUR_TOTL");
                ("since", JStr "2011-01-01");
                ("until", JStr "2011-01-01")]);
    get_or_create_slice "World's Pop Growth" "area" ds defaults
      (dict_of [("since", JStr "1960-01-01");
                ("until", JStr "now");
                ("groupby", strs ["region"])]);
    get_or_create_slice "Box plot" "box_plot" ds defaults
      (dict_of [("since", JStr "1960-01-01");
                ("until", JStr "now");
                ("whisker_options", JStr "Tukey");
                ("groupby", strs ["region"])]);
    get_or_create_slice "Treemap" "treemap" ds defaults
      (dict_of [("since", JStr "1960-01-01");
                ("until", JStr "now");
                ("metrics", strs ["sum__SP_POP_TOTL"]);
                ("groupby", strs ["region"; "country_code"])]);
    get_or_create_slice "Parallel Coordinates" "para" ds defaults
      (dict_of [("since", JStr "2011-01-01");
                ("until", JStr "2011-01-01");
                ("limit", JInt 100);
                ("metrics", strs ["sum__SP_POP_TOTL"; "sum__SP_RUR_TOTL_ZS";
                                  "sum__SH_DYN_AIDS"]);
                ("secondary_metric", JStr "sum__SP_POP_TOTL");
                ("series", strs ["country_name"])])
  ] ;;
  let dash_name := "World's Bank Data" in
  let slug := "world_health" in
  o <- query_first (λ d, bool_decide (Dash.slug d = Some slug)) ;;
  let dash := default (Dash.mk None None None None []) o in
  l <- set_slice_ids 0 world_bank_layout slices ;;
  let dash := Dash.set_dashboard_title dash_name dash in
  let dash := Dash.set_position_json (json_dumps_list l) dash in
  let dash := Dash.set_slug slug dash in
  let dash := Dash.set_slices (Slice.id <$> removelast slices) dash in
  dash <- session_merge dash ;;
  session_commit ;;
  ret (Loaded (Some ds) slices (Some dash) []).

Definition flat_css : string :=
  unlines [
    ".gridster div.widget {";
    "    transition: background-color 0.5s ease;";
    "    background-color: #FAFAFA;";
    "    border: 1px solid #CCC;";
    "    box-shadow: none;";
    "    border-radius: 0px;";
    "}";
    ".gridster div.widget:hover {";
    "    border: 1px solid #000;";
    "    background-color: #EAEAEA;";
    "}";
    ".navbar {";
    "    transition: opacity 0.5s ease;";
    "    opacity: 0.05;";
    "}";
    ".navbar:hover {";
    "    opacity: 1;";
    "}";
    ".chart-header .header{";
    "    font-weight: normal;";
    "    font-size: 12px;";
    "}";
    "/*";
    "var bnbColors = [";
    "    //rausch    hackb      kazan      babu      lima        beach     tirol";
    "    '#ff5a5f', '#7b0051', '#007A87', '#00d1c1', '#8ce071', '#ffb400', '#b4a76c',";
    "    '#ff8083', '#cc0086', '#00a1b3', '#00ffeb', '#bbedab', '#ffd266', '#cbc29a',";
    "    '#ff3339', '#ff1ab1', '#005c66', '#00b3a5', '#55d12e', '#b37e00', '#988b4e',";
    " ];";
    "*/"].

Definition courier_black_css : string :=
  unlines [
    ".gridster div.widget {";
    "    transition: background-color 0.5s ease;";
    "    background-color: #EEE;";
    "    border: 2px solid #444;";
    "    border-radius: 15px;";
    "    box-shadow: none;";
    "}";
    "h2 {";
    "    color: white;";
    "    font-size: 52px;";
    "}";
    ".navbar {";
    "    box-shadow: none;";
    "}";
    ".gridster div.widget:hover {";
    "    border: 2px solid #000;";
    "    background-color: #EAEAEA;";
    "}";
    ".navbar {";
    "    transition: opacity 0.5s ease;";
    "    opacity: 0.05;";
    "}";
    ".navbar:hover {";
    "    opacity: 1;";
    "}";
    ".chart-header .header{";
    "    font-weight: normal;";
    "    font-size: 12px;";
    "}";
    ".nvd3 text {";
    "    font-size: 12px;";
    "    font-family: inherit;";
    "}";
    "body{";
    "    background: #000;";
    "    font-family: Courier, Monaco, monospace;;";
    "}";
    "/*";
    "var bnbColors = [";
    "    //rausch    hackb      kazan      babu      lima        beach     tirol";
    "    '#ff5a5f', '#7b0051', '#007A87', '#00d1c1', '#8ce071', '#ffb400', '#b4a76c',";
    "    '#ff8083', '#cc0086', '#00a1b3', '#00ffeb', '#bbedab', '#ffd266', '#cbc29a',";
    "    '#ff3339', '#ff1ab1', '#005c66', '#00b3a5', '#55d12e', '#b37e00', '#988b4e',";
    " ];";
    "*/"].

Definition load_css_templates (es_cluster : option ElasticsearchCluster.t)
  : M loaded :=
  o <- query_first (λ c, bool_decide (CSS.template_name c = "Flat")) ;;
  let obj := default (CSS.mk None "Flat" None) o in
  let obj := CSS.set_css flat_css obj in
  obj1 <- session_merge obj ;;
  session_commit ;;
  o <- query_first (λ c, bool_decide (CSS.template_name c = "Courier Black")) ;;
  let obj := default (CSS.mk None "Courier Black" None) o in
  let obj := CSS.set_css courier_black_css obj in
  obj2 <- session_merge obj ;;
  session_commit ;;
  ret (Loaded None [] None [obj1; obj2]).

Definition birth_names_defaults (e : env) : dict :=
  dict_of [("compare_lag", JStr "10");
           ("compare_suffix", JStr "o10Y");
           ("flt_op_1", JStr "in");
           ("limit", JStr "25");
           ("granularity", JStr "ds");
           ("groupby", JList []);
           ("metric", JStr "sum__num");
           ("metrics", strs ["sum__num"]);
           ("row_limit", ROW_LIMIT e);
           ("since", JStr "100 years ago");
           ("until", JStr "now");
           ("where", JStr "");
           ("markup_type", JStr "markdown")].

Definition birth_names_title_code : string :=
  unlines [
    "<div style=" +:+ dq +:+ "text-align:center" +:+ dq +:+ ">";
    "    <h1>Birth Names Dashboard</h1>";
    "    <p>";
    "        The source dataset came from";
    "        <a href=" +:+ dq +:+ "https://github.com/hadley/babynames" +:+ dq
      +:+ ">[here]</a>";
    "    </p>";
    "    <img src=" +:+ dq
      +:+ "http://monblog.system-linux.net/image/tux/baby-tux_overlord59-tux.png"
      +:+ dq +:+ ">";
    "</div>"].

Definition birth_names_layout : list dict :=
  [slot 4 2 8 "85" 7; slot 4 2 10 "86" 7; slot 2 2 1 "87" 1;
   slot 2 2 3 "88" 1; slot 3 7 5 "89" 4; slot 4 7 1 "90" 7;
   slot 3 3 9 "91" 1; slot 3 4 5 "92" 1; slot 4 4 1 "93" 3].

Definition load_birth_names (es_cluster : option ElasticsearchCluster.t) : M loaded :=
  e <- ask ;;
  ds <- import_data "birth_names.json.gz" "birth_names" ""
          (list_to_map [("ds", DateTime); ("gender", String_ 16);
                        ("state", String_ 10); ("name", String_ 255)])
          es_cluster ;;
  let defaults := birth_names_defaults e in
  slices <- sequence [
    get_or_create_slice "Girls" "table" ds defaults
      (dict_of [("groupby", strs ["name"]);
                ("flt_col_1", JStr "gender");
                ("flt_eq_1", JStr "girl");
                ("row_limit", JInt 50)]);
    get_or_create_slice "Boys" "table" ds defaults
      (dict_of [("groupby", strs ["name"]);
                ("flt_col_1", JStr "gender");
                ("flt_eq_1", JStr "boy");
                ("row_limit", JInt 50)]);
    get_or_create_slice "Participants" "big_number" ds defaults
      (dict_of [("granularity", JStr "ds");
                ("compare_lag", JStr "5");
                ("compare_suffix", JStr "over 5Y")]);
    get_or_create_slice "Genders" "pie" ds defaults
      (dict_of [("groupby", strs ["gender"])]);
    get_or_create_slice "Genders by State" "dist_bar" ds defaults
      (dict_of [("flt_eq_1", JStr "other");
                ("metrics", strs ["sum__sum_girls"; "sum__sum_boys"]);
                ("groupby", strs ["state"]);
                ("flt_op_1", JStr "not in");
                ("flt_col_1", JStr "state")]);
    get_or_create_slice "Trends" "line" ds defaults
      (dict_of [("groupby", strs ["name"]);
                ("granularity", JStr "ds");
                ("rich_tooltip", JStr "y");
                ("show_legend", JStr "y")]);
    get_or_create_slice "Title" "markup" ds defaults
      (dict_of [("markup_type", JStr "html");
                ("code", JStr birth_names_title_code)]);
    get_or_create_slice "Name Cloud" "word_cloud" ds defaults
      (dict_of [("size_from", JStr "10");
                ("series", JStr "name");
                ("size_to", JStr "70");
                ("rotation", JStr "square");
                ("limit", JStr "100")]);
    get_or_create_slice "Pivot Table" "pivot_table" ds defaults
      (dict_of [("metrics", strs ["sum__num"]);
                ("groupby", strs ["name"]);
                ("columns", strs ["state"])]);
    get_or_create_slice "Number of Girls" "big_number_total" ds defaults
      (dict_of [("granularity", JStr "ds");
                ("flt_col_1", JStr "gender");
                ("flt_eq_1", JStr "girl");
                ("subheader", JStr "total female participants")])
  ] ;;
  o <- query_first (λ d, bool_decide (Dash.dashboard_title d = Some "Births")) ;;
  let dash := default (Dash.mk None None None None []) o in
  l <- set_slice_ids 0 birth_names_layout slices ;;
  let dash := Dash.set_dashboard_title "Births" dash in
  let dash := Dash.set_position_json (json_dumps_list l) dash in
  let dash := Dash.set_slug "births" dash in
  let dash := Dash.set_slices (Slice.id <$> removelast slices) dash in
  dash <- session_merge dash ;;
  session_commit ;;
  ret (Loaded (Some ds) slices (Some dash) []).

Definition load_unicode_test_data (es_cluster : option ElasticsearchCluster.t)
  : M loaded :=
  e <- ask ;;
  df <- lib PdReadCsv (pd_read_csv e "unicode_utf8_unixnl_test.csv") ;;
  let df := df_assign "date" (replicate (df_len df) (today e)) df in
  let df :=
    df_assign "value" ((λ i, Raw (JInt (randint e 1 100 i))) <$> seq 0 (df_len df)) df in
  to_sql "unicode_test" df
    (list_to_map [("phrase", String_ 500); ("short_phrase", String_ 10);
                  ("with_missing", String_ 100); ("date", Date); ("value", Float)]) ;;
  o <- query_first (λ t, bool_decide (TBL.table_name t = "unicode_test")) ;;
  let obj := default (TBL.mk None "unicode_test" None None None None) o in
  let obj := TBL.set_main_dttm_col "date" obj in
  dbobj <- get_or_create_db ;;
  let obj := TBL.set_database (DB.id dbobj) obj in
  let obj := TBL.set_is_featured false obj in
  obj <- session_merge obj ;;
  session_commit ;;
  ext FetchMetadata ;;
  let ds := TableDs obj in
  let slice_data :=
    dict_of [("flt_op_1", JStr "in");
             ("granularity", JStr "date");
             ("groupby", JList []);
             ("metric", JStr "sum__value");
             ("row_limit", ROW_LIMIT e);
             ("since", JStr "100 years ago");
             ("until", JStr "now");
             ("where", JStr "");
             ("viz_type", JStr "word_cloud");
             ("size_from", JStr "10");
             ("series", JStr "short_phrase");
             ("size_to", JStr "70");
             ("rotation", JStr "square");
             ("limit", JStr "100")] in
  slc <- get_or_create_slice "Unicode Cloud" "word_cloud" ds ∅ slice_data ;;
  o <- query_first (λ d, bool_decide (Dash.dashboard_title d = Some "Unicode Test")) ;;
  let dash := default (Dash.mk None None None None []) o in
  let pos :=
    dict_of [("size_y", JInt 4); ("size_x", JInt 4); ("col", JInt 1);
             ("row", JInt 1); ("slice_id", json_of_id (Slice.id slc))] in
  let dash := Dash.set_dashboard_title "Unicode Test" dash in
  let dash := Dash.set_position_json (json_dumps_list [pos]) dash in
  let dash := Dash.set_slug "unicode-test" dash in
  let dash := Dash.set_slices [Slice.id slc] dash in
  dash <- session_merge dash ;;
  session_commit ;;
  ret (Loaded (Some ds) [slc] (Some dash) []).

Definition load_random_time_series_data (es_cluster : option ElasticsearchCluster.t)
  : M loaded :=
  e <- ask ;;
  ds <- import_data "random_time_series.json.gz" "random_time_series"
          "Random time series"
          (list_to_map [("ds", DateTime)])
          es_cluster ;;
  slc <- get_or_create_slice "Calendar Heatmap" "cal_heatmap" ds ∅
           (dict_of [("granularity", JStr "day");
                     ("row_limit", ROW_LIMIT e);
                     ("since", JStr "1 year ago");
                     ("until", JStr "now");
                     ("where", JStr "");
                     ("domain_granularity", JStr "month");
                     ("subdomain_granularity", JStr "day")]) ;;
  ret (Loaded (Some ds) [slc] None []).

(** The loaders of the module. *)
Inductive loader :=
| Energy
| WorldBank
| CssTemplates
| BirthNames
| UnicodeTest
| RandomTimeSeries.

#[global] Instance loader_eq_dec : EqDecision loader.
Proof. solve_decision. Defined.

Definition run_loader (l : loader) : option ElasticsearchCluster.t → M loaded :=
  match l with
  | Energy => load_energy
  | WorldBank => load_world_bank_health_n_pop
  | CssTemplates => load_css_templates
  | BirthNames => load_birth_names
  | UnicodeTest => load_unicode_test_data
  | RandomTimeSeries => load_random_time_series_data
  end.

(** ** A sample environment

    Small files with the columns the loaders touch; pandas' conversion of
    integers in a unit and of strings left to a table of one entry; no call
    fails. *)
Definition sample_to_datetime (unit : option string) (v : list cell)
  : failure + list cell :=
  let scale := match unit with
               | Some "ms" => 1000000%Z
               | Some "s" => 1000000000%Z
               | _ => 1%Z
               end in
  foldr (λ c acc,
           match acc, c with
           | inr l, Raw (JInt z) => inr (Timestamp (z * scale) :: l)
           | inr l, Raw (JStr "1960-01-01") => inr (Timestamp (-315619200000000000) :: l)
           | inr l, Timestamp t => inr (Timestamp t :: l)
           | inr _, _ => inl ValueError
           | inl f, _ => inl f
           end) (inr []) v.

Definition sample_frame (file : string) : failure + DataFrame :=
  match file with
  | "energy.json.gz" =>
      inr [("source", [Raw (JStr "Coal")]); ("target", [Raw (JStr "Power")]);
           ("value", [Raw (JInt 7)])]
  | "countries.json.gz" =>
      inr [("country.code", [Raw (JStr "FRA")]); ("year", [Raw (JStr "1960-01-01")]);
           ("SP.POP.TOTL", [Raw (JInt 46)])]
  | "birth_names.json.gz" =>
      inr [("ds", [Raw (JInt 86400000); Raw (JInt 0)]);
           ("name", [Raw (JStr "Ada"); Raw (JStr "Bob")]);
           ("num", [Raw (JInt 3); Raw (JInt 4)])]
  | "random_time_series.json.gz" => inr [("ds", [Raw (JInt 60)])]
  | _ => inl IOError
  end.

Definition sample_json (file : string) : failure + list json :=
  match file with
  | "energy.json.gz" =>
      inr [JObj [("source", JStr "Coal"); ("target", JStr "Power"); ("value", JInt 7)]]
  | "countries.json.gz" =>
      inr [JObj [("country.code", JStr "FRA"); ("year", JStr "1960-01-01")]]
  | "birth_names.json.gz" =>
      inr [JObj [("ds", JInt 86400000); ("name", JStr "Ada"); ("num", JInt 3)]]
  | "random_time_series.json.gz" => inr [JObj [("ds", JInt 60)]]
  | _ => inl IOError
  end.

Definition sample_env : env :=
  Env (JStr "sqlite:////tmp/caravel.db") (JInt 50000)
      sample_json sample_frame
      (λ f, match f with
            | "unicode_utf8_unixnl_test.csv" =>
                inr [("phrase", [Raw (JStr "a"); Raw (JStr "b")]);
                     ("short_phrase", [Raw (JStr "a"); Raw (JStr "b")]);
                     ("with_missing", [Raw (JStr "x"); Raw JNull])]
            | _ => inl IOError
            end)
      (λ f, match f with "countries.md" => inr "World Bank data" | _ => inl IOError end)
      sample_to_datetime
      (Timestamp 0)
      (λ lo hi i, (lo + Z.of_nat i) `mod` (hi - lo + 1) + lo)%Z
      (λ _ _, None).

Definition sample_cluster : ElasticsearchCluster.t :=
  ElasticsearchCluster.mk (Some 1) "ElasticSearch examples"
    (strs ["http://localhost:9200"]).

(** * Vocabulary of the properties *)

(** No call to the store, the cluster or the metadata layer fails. *)
Definition quiet (e : env) : Prop := ∀ n o, oracle e n o = None.

(** The record [get_or_create_slice] hands to the session. *)
Definition new_slice (slice_name viz_type : string) (ds : datasource)
    (defaults params : dict) : Slice.t :=
  Slice.mk None (stored_name slice_name ds) viz_type (datasource_type_of ds)
    (if decide (datasource_type_of ds = "elasticsearch") then None
     else datasource_id_of ds)
    (if decide (datasource_type_of ds = "elasticsearch") then datasource_id_of ds
     else None)
    (json_dumps_sorted
       (slice_params (stored_name slice_name ds) viz_type ds defaults params)).

(** The slice table once the first slice called [name], if any, is
    deleted. *)
Definition without_first (name : string) (t : table Slice.t) : table Slice.t :=
  match find (λ s, bool_decide (Slice.slice_name s = name)) (rows t) with
  | Some o => table_delete o t
  | None => t
  end.

(** The keys [get_or_create_slice] computes itself. *)
Definition computed_keys : gset string :=
  {["slice_name"; "viz_type"; "datasource_type"; "datasource_id"; "datasource_name"]}.

(** A dataset record of the search cluster and one of the relational
    store, as [import_data] returns them. *)
Definition sample_es_datasource : ElasticsearchDatasource.t :=
  ElasticsearchDatasource.mk (Some 1) "example-energy_usage" None (Some 1)
    (Some "example-energy_usage") (Some "Energy consumption") (Some true).

Definition sample_table : TBL.t :=
  TBL.mk (Some 1) "energy_usage" None (Some true) (Some 1) (Some "Energy consumption").

(** The record [get_or_create_db] hands to the session. *)
Definition db_record (e : env) (t : table DB.t) : DB.t :=
  DB.set_sqlalchemy_uri (SQLALCHEMY_DATABASE_URI e)
    (default (DB.mk None "main" JNull)
       (find (λ d, bool_decide (DB.database_name d = "main")) (rows t))).

(** The record the relational path of [import_data] hands to the
    session. *)
Definition table_record (table_name description : string) (t : table TBL.t)
    (database : option nat) : TBL.t :=
  let ds :=
    default (TBL.mk None table_name None None None None)
      (find (λ t, bool_decide (TBL.table_name t = table_name)) (rows t)) in
  let ds := TBL.set_is_featured true ds in
  let ds :=
    if decide (table_name = "birth_names")
    then TBL.set_main_dttm_col "ds" ds
    else if decide (table_name = "wb_health_population")
    then TBL.set_main_dttm_col "year" ds
    else if decide (table_name = "random_time_series")
    then TBL.set_is_featured false (TBL.set_main_dttm_col "ds" ds)
    else ds in
  TBL.set_description description (TBL.set_database database ds).

(** The storage after the relational path of [import_data] wrote the
    frame [pdf]. *)
Definition imported_table (e : env) (table_name description : string)
    (dtype : gmap string sqltype) (pdf : DataFrame) (st : storage) : storage :=
  let db := table_add (db_record e (DB_table st)) (DB_table st) in
  let tb := table_add (table_record table_name description (TBL_table st) (DB.id db.2))
              (TBL_table st) in
  Storage db.1 (cluster_table st) tb.1 (datasource_table st) (Slice_table st)
    (Dash_table st) (CSS_table st) (<[table_name := (pdf, dtype)]> (sql_tables st))
    (es_indices st) (6 + clock st) (faults st).

(** The one failure that is recorded without ending the run. *)
Definition suppressed (x : op * failure) : Prop :=
  x = (EsIndicesDelete, HttpStatus 404).

(** A computation lets every failure through but that one: from a record
    of suppressed failures only, either it returns and the record still has
    suppressed failures only, or it ends with the failure recorded last,
    which is not the suppressed one. *)
Definition propagating {A} (m : M A) : Prop :=
  ∀ e st,
    Forall suppressed (faults st) →
    match m e st with
    | (st', inr _) => Forall suppressed (faults st')
    | (st', inl f) =>
        ∃ o l, faults st' = l ++ [(o, f)] ∧ Forall suppressed l ∧ ¬ suppressed (o, f)
    end.

(** An environment in which the [n]-th external call fails with [f]. *)
Definition failing_at (n : nat) (f : failure) (e : env) : env :=
  Env (SQLALCHEMY_DATABASE_URI e) (ROW_LIMIT e) (gzip_json_loads e) (pd_read_json e)
      (pd_read_csv e) (readfile e) (pd_to_datetime e) (today e) (randint e)
      (λ k _, if decide (k = n) then Some f else None).

(** An environment whose bundled files cannot be read. *)
Definition unreadable (e : env) : env :=
  Env (SQLALCHEMY_DATABASE_URI e) (ROW_LIMIT e) (λ _, inl ValueError)
      (λ _, inl ValueError) (λ _, inl ValueError) (readfile e) (pd_to_datetime e)
      (today e) (randint e) (oracle e).

(** A computation that does not reach outside: it returns, and leaves the
    record of failures alone. *)
Definition silent {A} (m : M A) : Prop :=
  ∀ e st, ∃ st' a, m e st = (st', inr a) ∧ faults st' = faults st.

(** One call [get_or_create_slice(slice_name=.., viz_type=.., datasource=ds,
    defaults=.., params=..)] of a loader, without its datasource. *)
Record call := Call {
  call_name : string;
  call_viz : string;
  call_defaults : dict;
  call_params : dict }.

Definition run_call (ds : datasource) (c : call) : M Slice.t :=
  get_or_create_slice (call_name c) (call_viz c) ds (call_defaults c) (call_params c).

(** The slice table and the slice returned after one call. *)
Definition slice_step (ds : datasource) (c : call) (t : table Slice.t)
  : table Slice.t * Slice.t :=
  table_add (new_slice (call_name c) (call_viz c) ds (call_defaults c) (call_params c))
    (without_first (stored_name (call_name c) ds) t).

(** The slice table and the slices returned after a list of calls. *)
Fixpoint slices_after (ds : datasource) (cs : list call) (t : table Slice.t)
  : table Slice.t * list Slice.t :=
  match cs with
  | [] => (t, [])
  | c :: cs' =>
      let tr := slice_step ds c t in
      let r := slices_after ds cs' tr.1 in
      (r.1, tr.2 :: r.2)
  end.

Definition with_slices (ds : datasource) (cs : list call) (st : storage) : storage :=
  Storage (DB_table st) (cluster_table st) (TBL_table st) (datasource_table st)
    (slices_after ds cs (Slice_table st)).1 (Dash_table st) (CSS_table st)
    (sql_tables st) (es_indices st) (2 * length cs + clock st) (faults st).

(** The dashboard record a loader hands to the session: the first
    dashboard that satisfies [key], or a new one, with its four fields
    assigned. *)
Definition dashboard_record (key : Dash.t → bool) (title slug : string)
    (position : json) (members : list (option nat)) (t : table Dash.t) : Dash.t :=
  Dash.set_slices members
    (Dash.set_slug slug
       (Dash.set_position_json position
          (Dash.set_dashboard_title title
             (default (Dash.mk None None None None []) (find key (rows t)))))).

Definition with_dash (d : Dash.t) (st : storage) : storage :=
  Storage (DB_table st) (cluster_table st) (TBL_table st) (datasource_table st)
    (Slice_table st) (table_add d (Dash_table st)).1 (CSS_table st)
    (sql_tables st) (es_indices st) (2 + clock st) (faults st).

(** The layout [l] with the identifiers of [slices] written in, slot by
    slot. *)
Definition filled_layout (l : list dict) (slices : list Slice.t) : list dict :=
  zip_with (λ pos s, <["slice_id" := JStr (str_id (Slice.id s))]> pos) l slices.

(** A slot of a layout blob names the slice [id]: its "slice_id" is the
    identifier, as a string or as a number. *)
Definition slot_of (id : option nat) (slot : json) : Prop :=
  obj_get "slice_id" slot = Some (JStr (str_id id)) ∨
  obj_get "slice_id" slot = Some (json_of_id id).

Definition birth_names_slice_names : list string :=
  ["Girls"; "Boys"; "Participants"; "Genders"; "Genders by State"; "Trends";
   "Title"; "Name Cloud"; "Pivot Table"; "Number of Girls"].

Definition world_bank_slice_names : list string :=
  ["Region Filter"; "World's Population"; "Most Populated Countries";
   "Growth Rate"; "% Rural"; "Life Expexctancy VS Rural %"; "Rural Breakdown";
   "World's Pop Growth"; "Box plot"; "Treemap"; "Parallel Coordinates"].

(** The record the search-cluster path of [import_data] hands to the
    session. *)
Definition datasource_record (table_name description : string)
    (cluster : option nat) (t : table ElasticsearchDatasource.t)
  : ElasticsearchDatasource.t :=
  let ds_name := "example-" +:+ table_name in
  let ds :=
    default (ElasticsearchDatasource.mk None ds_name None None None None None)
      (find (λ d, bool_decide (ElasticsearchDatasource.datasource_name d = ds_name))
         (rows t)) in
  let ds :=
    if decide (table_name = "birth_names")
    then ElasticsearchDatasource.set_main_dttm_col "ds" ds
    else if decide (table_name = "wb_health_population")
    then ElasticsearchDatasource.set_main_dttm_col "year" ds
    else ds in
  ElasticsearchDatasource.set_is_featured true
    (ElasticsearchDatasource.set_description description
       (ElasticsearchDatasource.set_index_name ds_name
          (ElasticsearchDatasource.set_cluster cluster ds))).

(** The storage after the search-cluster path of [import_data] indexed the
    rows [data]. *)
Definition imported_index (table_name description : string)
    (cluster : ElasticsearchCluster.t) (data : list json) (st : storage) : storage :=
  let ds_name := "example-" +:+ table_name in
  let tb :=
    table_add
      (datasource_record table_name description (ElasticsearchCluster.id cluster)
         (datasource_table st))
      (datasource_table st) in
  Storage (DB_table st) (cluster_table st) (TBL_table st) tb.1 (Slice_table st)
    (Dash_table st) (CSS_table st) (sql_tables st)
    (<[ds_name := (λ b, (table_name, b.2)) <$> bulk_body data]> (es_indices st))
    (6 + clock st)
    (faults st ++
       if decide (is_Some (es_indices st !! ds_name)) then []
       else [(EsIndicesDelete, HttpStatus 404)]).

(** The storage and the handle after [import_data], when the file can be
    read and converted. *)
Definition imported (e : env) (file table_name description : string)
    (dtype : gmap string sqltype) (es_cluster : option ElasticsearchCluster.t)
    (st : storage) : option (storage * datasource) :=
  match es_cluster with
  | Some cluster =>
      match gzip_json_loads e file with
      | inr data =>
          Some (imported_index table_name description cluster data st,
                EsDs (table_add
                        (datasource_record table_name description
                           (ElasticsearchCluster.id cluster) (datasource_table st))
                        (datasource_table st)).2)
      | inl _ => None
      end
  | None =>
      match pd_read_json e file with
      | inr pdf =>
          match coerce_dates e table_name (rename_columns pdf) with
          | inr pdf' =>
              Some (imported_table e table_name description dtype pdf' st,
                    TableDs
                      (table_add
                         (table_record table_name description (TBL_table st)
                            (DB.id (table_add (db_record e (DB_table st))
                                      (DB_table st)).2))
                         (TBL_table st)).2)
          | inl _ => None
          end
      | inl _ => None
      end
  end.

(** The file of a dataset can be read and converted on the given path. *)
Definition import_ready (e : env) (file table_name : string)
    (es_cluster : option ElasticsearchCluster.t) : Prop :=
  match es_cluster with
  | Some _ => ∃ data, gzip_json_loads e file = inr data
  | None =>
      ∃ pdf pdf',
        pd_read_json e file = inr pdf ∧
        coerce_dates e table_name (rename_columns pdf) = inr pdf'
  end.

Definition energy_slice_names : list string :=
  ["Energy Sankey"; "Energy Force Layout"; "Heatmap"].

(** The frame the unicode loader writes: the file with its two generated
    columns. *)
Definition unicode_frame (e : env) (df : DataFrame) : DataFrame :=
  let df := df_assign "date" (replicate (df_len df) (today e)) df in
  df_assign "value" ((λ i, Raw (JInt (randint e 1 100 i))) <$> seq 0 (df_len df)) df.

(** The table record the unicode loader hands to the session. *)
Definition unicode_table_record (t : table TBL.t) (database : option nat) : TBL.t :=
  TBL.set_is_featured false
    (TBL.set_database database
       (TBL.set_main_dttm_col "date"
          (default (TBL.mk None "unicode_test" None None None None)
             (find (λ t, bool_decide (TBL.table_name t = "unicode_test")) (rows t))))).

(** The storage after the unicode loader wrote its table and its table
    record. *)
Definition unicode_imported (e : env) (df : DataFrame) (st : storage) : storage :=
  let db := table_add (db_record e (DB_table st)) (DB_table st) in
  let tb := table_add (unicode_table_record (TBL_table st) (DB.id db.2)) (TBL_table st) in
  Storage db.1 (cluster_table st) tb.1 (datasource_table st) (Slice_table st)
    (Dash_table st) (CSS_table st)
    (<["unicode_test" :=
         (unicode_frame e df,
          list_to_map [("phrase", String_ 500); ("short_phrase", String_ 10);
                       ("with_missing", String_ 100); ("date", Date);
                       ("value", Float)])]> (sql_tables st))
    (es_indices st) (6 + clock st) (faults st).

(** The record of a CSS template handed to the session. *)
Definition css_record (name css : string) (t : table CSS.t) : CSS.t :=
  CSS.set_css css
    (default (CSS.mk None name None)
       (find (λ c, bool_decide (CSS.template_name c = name)) (rows t))).

Definition with_css (c : CSS.t) (st : storage) : storage :=
  Storage (DB_table st) (cluster_table st) (TBL_table st) (datasource_table st)
    (Slice_table st) (Dash_table st) (table_add c (CSS_table st)).1
    (sql_tables st) (es_indices st) (2 + clock st) (faults st).

(** A slot of a layout blob names the slice [id]: its "slice_id" is the
    identifier, written as a string or as a number. *)
Definition slot_names (id : option nat) (slot : json) : bool :=
  match obj_get "slice_id" slot with
  | Some (JStr s) => bool_decide (is_Some id ∧ s = str_id id)
  | Some (JInt z) => bool_decide (Some z = Z.of_nat <$> id)
  | _ => false
  end.

(** The slots of a dashboard's position blob. *)
Definition slots_of (d : Dash.t) : list json :=
  match Dash.position_json d with
  | Some j => list_items j
  | None => []
  end.

(** The files a loader reads can be read and converted. *)
Definition ready (l : loader) (es_cluster : option ElasticsearchCluster.t) (e : env)
  : Prop :=
  match l with
  | Energy => import_ready e "energy.json.gz" "energy_usage" es_cluster
  | WorldBank =>
      (∃ description, readfile e "countries.md" = inr description) ∧
      import_ready e "countries.json.gz" "wb_health_population" es_cluster
  | CssTemplates => True
  | BirthNames => import_ready e "birth_names.json.gz" "birth_names" es_cluster
  | UnicodeTest => ∃ df, pd_read_csv e "unicode_utf8_unixnl_test.csv" = inr df
  | RandomTimeSeries =>
      import_ready e "random_time_series.json.gz" "random_time_series" es_cluster
  end.

(** The layout of a dashboard covers its members: it has at least as many
    slots as the dashboard has slices, and every slice of the dashboard is
    named by exactly one slot. *)
Definition layout_covers (d : Dash.t) : Prop :=
  length (Dash.slices d) ≤ length (slots_of d) ∧
  ∀ id, id ∈ Dash.slices d →
        length (filter (λ slot, slot_names id slot = true) (slots_of d)) = 1.

(** The name of the last slice of the two loaders whose dashboard leaves
    the last slice out. *)
Definition last_slice_name (l : loader) : string :=
  match l with
  | WorldBank => "Parallel Coordinates"
  | _ => "Number of Girls"
  end.

(** C1 as it is stated: the loader creates nine slices and its dashboard,
    of slug "births", has eight of them. *)
Definition births_has_eight_of_nine (e : env) (st : storage) : Prop :=
  ∃ st' h d,
    load_birth_names None e st = (st', inr h) ∧
    ld_dash h = Some d ∧
    Dash.slug d = Some "births" ∧
    length (ld_slices h) = 9 ∧
    length (Dash.slices d) = 8.

(** C7 as it is stated, for one loader: the last slice of the list is not a
    member of the dashboard, and a slot of the layout names it. *)
Definition placed_but_left_out (l : loader) (e : env) (st : storage)
  : Prop :=
  ∃ st' h d s,
    run_loader l None e st = (st', inr h) ∧
    ld_dash h = Some d ∧
    last (ld_slices h) = Some s ∧
    (Slice.id s ∉ Dash.slices d) ∧
    existsb (slot_names (Slice.id s)) (slots_of d) = true.

(** ** Consistent storage *)

(** The primary key of a table is sound: no two rows share an identifier,
    and every identifier was handed out by the table. *)
Definition ids_ok {R} `{Model R} (t : table R) : Prop :=
  NoDup (model_id <$> rows t) ∧
  Forall (λ o, ∃ i, o = Some i ∧ i < next_id t) (model_id <$> rows t).

(** [key] is a key of the table: no two rows share it. *)
Definition table_ok {R} `{Model R} {K} (key : R → K) (t : table R) : Prop :=
  NoDup (key <$> rows t) ∧ ids_ok t.

(** [x] is in the list, and is the only element with its key. *)
Definition only_one {R K} (key : R → K) (x : R) (l : list R) : Prop :=
  x ∈ l ∧ ∀ y, y ∈ l → key y = key x → y = x.

(** The title and the slug of the three dashboards of the module. *)
Definition dash_pairs : list (string * string) :=
  [("World's Bank Data", "world_health"); ("Births", "births");
   ("Unicode Test", "unicode-test")].

(** A dashboard has one of these titles exactly when it has its slug. *)
Definition dash_paired (d : Dash.t) : Prop :=
  ∀ t s, (t, s) ∈ dash_pairs →
         (Dash.dashboard_title d = Some t ↔ Dash.slug d = Some s).

Definition dashboards_ok (t : table Dash.t) : Prop :=
  table_ok Dash.dashboard_title t ∧ table_ok Dash.slug t ∧
  Forall dash_paired (rows t).

(** Every metadata table has a sound primary key and no two rows with the
    same name (for dashboards: title, and slug). *)
Definition consistent (st : storage) : Prop :=
  table_ok DB.database_name (DB_table st) ∧
  table_ok ElasticsearchCluster.cluster_name (cluster_table st) ∧
  table_ok TBL.table_name (TBL_table st) ∧
  table_ok ElasticsearchDatasource.datasource_name (datasource_table st) ∧
  table_ok Slice.slice_name (Slice_table st) ∧
  dashboards_ok (Dash_table st) ∧
  table_ok CSS.template_name (CSS_table st).

(** The dataset record of a run is in the storage, the only one of its
    name; on the relational path, with the only connection record "main",
    which has the connection string of the run's configuration. *)
Definition datasource_persisted (e : env) (ds : datasource) (st : storage) : Prop :=
  match ds with
  | TableDs t =>
      only_one TBL.table_name t (rows (TBL_table st)) ∧
      ∃ d, only_one DB.database_name d (rows (DB_table st)) ∧
           DB.database_name d = "main" ∧
           DB.sqlalchemy_uri d = SQLALCHEMY_DATABASE_URI e ∧
           TBL.database t = DB.id d
  | EsDs d =>
      only_one ElasticsearchDatasource.datasource_name d (rows (datasource_table st))
  end.

(** Every record a run holds when it ends is in the storage, and is the
    only one of its name there. *)
Definition persisted (e : env) (h : loaded) (st : storage) : Prop :=
  match ld_datasource h with
  | Some ds => datasource_persisted e ds st
  | None => True
  end ∧
  Forall (λ s, only_one Slice.slice_name s (rows (Slice_table st))) (ld_slices h) ∧
  match ld_dash h with
  | Some d =>
      only_one Dash.slug d (rows (Dash_table st)) ∧
      only_one Dash.dashboard_title d (rows (Dash_table st))
  | None => True
  end ∧
  Forall (λ c, only_one CSS.template_name c (rows (CSS_table st))) (ld_css h).

(** * Vocabulary of the further properties *)

(** A computation never changes the part [proj] of the storage, whether it
    returns or fails. *)
Definition untouched {B A} (proj : storage → B) (m : M A) : Prop :=
  ∀ e st, proj (m e st).1 = proj st.

(** [proj] looks at neither the call clock nor the record of failures. *)
Definition log_blind {B} (proj : storage → B) : Prop :=
  (∀ c st, proj (set_clock c st) = proj st) ∧
  (∀ f st, proj (set_faults f st) = proj st).

(** Everything but the slice table. *)
Definition but_slices (st : storage) :=
  (DB_table st, cluster_table st, TBL_table st, datasource_table st,
   Dash_table st, CSS_table st, sql_tables st, es_indices st).

(** Everything but the template table. *)
Definition but_css (st : storage) :=
  (DB_table st, cluster_table st, TBL_table st, datasource_table st,
   Slice_table st, Dash_table st, sql_tables st, es_indices st).

(** What belongs to the search cluster: its indices, its dataset records,
    its reference. *)
Definition cluster_side (st : storage) :=
  (es_indices st, datasource_table st, cluster_table st).

(** What belongs to the relational store: its data tables, its table
    records, its connection records. *)
Definition relational_side (st : storage) :=
  (sql_tables st, TBL_table st, DB_table st).

(** Slices, dashboards and templates. *)
Definition charts (st : storage) := (Slice_table st, Dash_table st, CSS_table st).

(** The string has the character. *)
Fixpoint has_char (a : ascii) (s : string) : bool :=
  match s with
  | EmptyString => false
  | String c s' => if decide (c = a) then true else has_char a s'
  end.

(** The date rules of the relational path: table, column, unit. *)
Definition date_rules : list (string * string * option string) :=
  [("birth_names", "ds", Some "ms"); ("wb_health_population", "year", None);
   ("random_time_series", "ds", Some "s")].

(** An environment whose JSON files all hold the frame [pdf]. *)
Definition with_frame (pdf : DataFrame) (e : env) : env :=
  Env (SQLALCHEMY_DATABASE_URI e) (ROW_LIMIT e) (gzip_json_loads e) (λ _, inr pdf)
      (pd_read_csv e) (readfile e) (pd_to_datetime e) (today e) (randint e)
      (oracle e).

(** Strictly ascending keys, in the order of [sort_keys=True]. *)
Definition key_lt (a b : string) : Prop := String.leb a b = true ∧ a ≠ b.

(** The names under which a loader asks for its slices, in order. *)
Definition loader_slice_names (l : loader) : list string :=
  match l with
  | Energy => energy_slice_names
  | WorldBank => world_bank_slice_names
  | CssTemplates => []
  | BirthNames => birth_names_slice_names
  | UnicodeTest => ["Unicode Cloud"]
  | RandomTimeSeries => ["Calendar Heatmap"]
  end.

(** The path a loader takes: the unicode loader has no use for its cluster
    argument. *)
Definition loader_path (l : loader) (es_cluster : option ElasticsearchCluster.t)
  : option ElasticsearchCluster.t :=
  match l with
  | UnicodeTest => None
  | _ => es_cluster
  end.

(** The column of a slice that refers to a dataset of the given type. *)
Definition slice_ref (type : string) (s : Slice.t) : option nat :=
  if decide (type = "elasticsearch") then Slice.elasticsearch_datasource s
  else Slice.table s.

(** The other column. *)
Definition slice_other_ref (type : string) (s : Slice.t) : option nat :=
  if decide (type = "elasticsearch") then Slice.table s
  else Slice.elasticsearch_datasource s.

(** The layout literal of a loader. *)
Definition layout_of (l : loader) : list dict :=
  match l with
  | WorldBank => world_bank_layout
  | BirthNames => birth_names_layout
  | _ => []
  end.

(** How a loader looks for its dashboard: the world bank loader by slug,
    the two others by title. *)
Definition dash_key (l : loader) (d : Dash.t) : bool :=
  match l with
  | WorldBank => bool_decide (Dash.slug d = Some "world_health")
  | BirthNames => bool_decide (Dash.dashboard_title d = Some "Births")
  | _ => bool_decide (Dash.dashboard_title d = Some "Unicode Test")
  end.

(** The arguments with which a loader calls [import_data]: file, table,
    description and column types; the world bank loader reads its
    description from a file of the module. *)
Definition loader_import (l : loader) (e : env)
  : option (string * string * string * gmap string sqltype) :=
  match l with
  | Energy =>
      Some ("energy.json.gz", "energy_usage", "Energy consumption",
            list_to_map [("source", String_ 255); ("target", String_ 255);
                         ("value", Float)])
  | WorldBank =>
      match readfile e "countries.md" with
      | inr description =>
          Some ("countries.json.gz", "wb_health_population", description,
                list_to_map [("year", DateTime); ("country_code", String_ 3);
                             ("country_name", String_ 255); ("region", String_ 255)])
      | inl _ => None
      end
  | BirthNames =>
      Some ("birth_names.json.gz", "birth_names", "",
            list_to_map [("ds", DateTime); ("gender", String_ 16);
                         ("state", String_ 10); ("name", String_ 255)])
  | RandomTimeSeries =>
      Some ("random_time_series.json.gz", "random_time_series",
            "Random time series", list_to_map [("ds", DateTime)])
  | CssTemplates | UnicodeTest => None
  end.

Definition description_of (ds : datasource) : option string :=
  match ds with
  | TableDs t => TBL.description t
  | EsDs d => ElasticsearchDatasource.description d
  end.


(** The title and the slug of the dashboard of a loader. *)
Definition loader_dash (l : loader) : option (string * string) :=
  match l with
  | WorldBank => Some ("World's Bank Data", "world_health")
  | BirthNames => Some ("Births", "births")
  | UnicodeTest => Some ("Unicode Test", "unicode-test")
  | _ => None
  end.








(** * Properties *)

Example dumps_sorted_example :
  json_dumps_sorted (dict_of [("b", JInt 1); ("a", JStr "x"); ("b", JInt 2)])
  = JObj [("a", JStr "x"); ("b", JInt 2)].
Proof. vm_compute. reflexivity. Qed.

Example str_example : str 85 = "85".
Proof. vm_compute. reflexivity. Qed.

Example stored_name_table : stored_name "Heatmap" (TableDs sample_table) = "Heatmap".
Proof. reflexivity. Qed.

Example stored_name_es :
  stored_name "Heatmap" (EsDs sample_es_datasource) = "Heatmap (ES)".
Proof. reflexivity. Qed.

Example rename_columns_example :
  rename_columns [("SP.POP.TOTL", [Raw (JInt 46)]); ("year", [])]
  = [("SP_POP_TOTL", [Raw (JInt 46)]); ("year", [])].
Proof. reflexivity. Qed.

Example coerce_dates_missing_column :
  coerce_dates sample_env "birth_names" [("name", [Raw (JStr "Ada")])]
  = inl (GetAttr, AttributeError "ds").
Proof. reflexivity. Qed.

Example load_energy_sample :
  let r := load_energy None sample_env empty_storage in
  Slice.slice_name <$> rows (Slice_table r.1)
  = ["Energy Sankey"; "Energy Force Layout"; "Heatmap"] ∧
  clock r.1 = 12 ∧ faults r.1 = [].
Proof. vm_compute. repeat split. Qed.

Example load_birth_names_sample :
  let r := load_birth_names None sample_env empty_storage in
  Dash.slices <$> rows (Dash_table r.1)
  = [[Some 1; Some 2; Some 3; Some 4; Some 5; Some 6; Some 7; Some 8; Some 9]] ∧
  length (rows (Slice_table r.1)) = 10.
Proof. vm_compute. repeat split. Qed.

Example index_delete_missing :
  let r := es_indices_delete "example-energy_usage" [404] sample_env empty_storage in
  r.2 = inr tt ∧ faults r.1 = [(EsIndicesDelete, HttpStatus 404)].
Proof. vm_compute. repeat split. Qed.

(** ** Running the monad *)

Lemma ext_quiet e st o : quiet e → ext o e st = (tick st, inr tt).
Proof. intros Hq. unfold ext. by rewrite Hq. Qed.

Lemma bind_run {A B} (m : M A) (k : A → M B) e st st' a :
  m e st = (st', inr a) → bind m k e st = k a e st'.
Proof. intros H. unfold bind. by rewrite H. Qed.

Lemma query_first_quiet {R} `{Model R} (p : R → bool) e st :
  quiet e →
  query_first p e st = (tick st, inr (find p (rows (model_table (tick st))))).
Proof. intros Hq. unfold query_first, bind. by rewrite ext_quiet. Qed.

Lemma get_or_create_slice_quiet e st name viz ds d p :
  quiet e →
  get_or_create_slice name viz ds d p e st =
  let tr := table_add (new_slice name viz ds d p)
              (without_first (stored_name name ds) (Slice_table st)) in
  (tick (set_Slice_table tr.1 (tick st)), inr tr.2).
Proof.
  intros Hq. unfold get_or_create_slice.
  erewrite bind_run; [|by apply query_first_quiet].
  unfold without_first. cbn [model_table Slice_model].
  change (Slice_table (tick st)) with (Slice_table st).
  destruct (find _ _) as [o|];
    unfold bind, session_delete, modify, session_add, session_commit, ret;
    rewrite ext_quiet by done; reflexivity.
Qed.

(** ** Serialised dictionaries *)

Lemma assoc_get_Some k v (l : list (string * json)) :
  NoDup l.*1 → assoc_get k l = Some v ↔ (k, v) ∈ l.
Proof.
  induction l as [|[k' v'] l IH]; simpl; intros Hnd.
  - split; [done | by intros ?%elem_of_nil].
  - apply NoDup_cons in Hnd as [Hk' Hnd]. case_decide as Hk; subst.
    + split.
      * intros [= ->]. left.
      * intros [[= ->]|Hin]%elem_of_cons; [done|].
        exfalso. apply Hk'. apply list_elem_of_fmap. by exists (k, v).
    + rewrite IH by done. split.
      * by right.
      * intros [[= -> ->]|Hin]%elem_of_cons; done.
Qed.

Lemma assoc_get_perm k (l1 l2 : list (string * json)) :
  NoDup l1.*1 → l1 ≡ₚ l2 → assoc_get k l1 = assoc_get k l2.
Proof.
  intros Hnd Hp.
  assert (Hnd2 : NoDup l2.*1) by by rewrite <- Hp.
  destruct (assoc_get k l1) as [v|] eqn:H1.
  - symmetry. apply assoc_get_Some; [done|]. rewrite <- Hp. by apply assoc_get_Some.
  - destruct (assoc_get k l2) as [v|] eqn:H2; [|done].
    apply assoc_get_Some in H2; [|done]. rewrite <- Hp in H2.
    apply assoc_get_Some in H2; [|done]. congruence.
Qed.

Lemma assoc_get_map_to_list k (p : dict) : assoc_get k (map_to_list p) = p !! k.
Proof.
  destruct (p !! k) as [v|] eqn:Hl.
  - apply assoc_get_Some; [apply NoDup_fst_map_to_list|]. by apply elem_of_map_to_list.
  - destruct (assoc_get k (map_to_list p)) as [v|] eqn:Ha; [|done].
    apply assoc_get_Some in Ha; [|apply NoDup_fst_map_to_list].
    apply elem_of_map_to_list in Ha. congruence.
Qed.

Lemma obj_get_dumps_sorted k (p : dict) : obj_get k (json_dumps_sorted p) = p !! k.
Proof.
  unfold obj_get, json_dumps_sorted. simpl.
  rewrite <- assoc_get_map_to_list. symmetry. apply assoc_get_perm.
  - apply NoDup_fst_map_to_list.
  - symmetry. apply merge_sort_Permutation.
Qed.

Lemma obj_keys_dumps_sorted (p : dict) :
  list_to_set (obj_keys (json_dumps_sorted p)) =@{gset string} dom p.
Proof.
  unfold obj_keys, json_dumps_sorted. simpl.
  rewrite merge_sort_Permutation. apply set_eq. intros k.
  rewrite elem_of_list_to_set, elem_of_dom, list_elem_of_fmap. split.
  - intros [[k' v] [-> Hin]]. apply elem_of_map_to_list in Hin. by exists v.
  - intros [v Hv]. exists (k, v). split; [done|]. by apply elem_of_map_to_list.
Qed.

Lemma dom_slice_params name viz ds (defaults params : dict) :
  dom (slice_params name viz ds defaults params)
  = dom defaults ∪ computed_keys ∪ dom params.
Proof.
  unfold slice_params, computed_keys.
  rewrite dom_union_L, !dom_insert_L. set_solver.
Qed.

Lemma string_app_ne (s t : string) : t ≠ "" → s +:+ t ≠ s.
Proof.
  intros Ht. induction s as [|a s IH]; [done|].
  intros H. change (String a (s +:+ t) = String a s) in H.
  injection H. done.
Qed.

Lemma quiet_sample_env : quiet sample_env.
Proof. intros n o. reflexivity. Qed.

(** ** get_or_create_slice *)

Lemma get_or_create_slice_rows e st name viz ds d p :
  quiet e →
  ∃ st' slc,
    get_or_create_slice name viz ds d p e st = (st', inr slc) ∧
    slc = Slice.set_id (Some (next_id (Slice_table st))) (new_slice name viz ds d p) ∧
    rows (Slice_table st')
    = rows (without_first (stored_name name ds) (Slice_table st)) ++ [slc].
Proof.
  intros Hq. rewrite get_or_create_slice_quiet by done.
  eexists _, _. split; [reflexivity|]. split.
  - unfold without_first. by destruct (find _ _).
  - unfold without_first. by destruct (find _ _).
Qed.

(** C9: for a datasource of type 'elasticsearch' the slice is looked up
    for deletion and persisted under the requested name followed by
    " (ES)", a name that differs from the requested one, under which the
    slice of any other datasource is persisted. *)
Theorem get_or_create_slice_es_suffix name viz ds defaults params e st :
  quiet e →
  datasource_type_of ds = "elasticsearch" →
  ∃ st' slc,
    get_or_create_slice name viz ds defaults params e st = (st', inr slc) ∧
    Slice.slice_name slc = name +:+ " (ES)" ∧
    rows (Slice_table st')
    = rows (without_first (name +:+ " (ES)") (Slice_table st)) ++ [slc] ∧
    name +:+ " (ES)" ≠ name ∧
    ∀ ds', datasource_type_of ds' ≠ "elasticsearch" →
      ∃ st'' slc',
        get_or_create_slice name viz ds' defaults params e st = (st'', inr slc') ∧
        Slice.slice_name slc' = name ∧
        rows (Slice_table st'')
        = rows (without_first name (Slice_table st)) ++ [slc'].
Proof.
  intros Hq Hes.
  destruct (get_or_create_slice_rows e st name viz ds defaults params Hq)
    as (st' & slc & Hrun & Hslc & Hrows).
  assert (Hname : stored_name name ds = name +:+ " (ES)").
  { unfold stored_name. by rewrite decide_True. }
  exists st', slc. split; [done|]. split; [by rewrite Hslc|].
  split; [by rewrite <- Hname|]. split; [by apply string_app_ne|].
  intros ds' Hne.
  destruct (get_or_create_slice_rows e st name viz ds' defaults params Hq)
    as (st'' & slc' & Hrun' & Hslc' & Hrows').
  assert (Hname' : stored_name name ds' = name).
  { unfold stored_name. by rewrite decide_False. }
  exists st'', slc'. split; [done|]. split; [by rewrite Hslc'|].
  by rewrite <- Hname'.
Qed.

Lemma get_or_create_slice_es_suffix_witness :
  ∃ st' slc,
    get_or_create_slice "Heatmap" "heatmap" (EsDs sample_es_datasource) ∅ ∅
      sample_env empty_storage = (st', inr slc) ∧
    Slice.slice_name slc = "Heatmap (ES)".
Proof.
  destruct (get_or_create_slice_es_suffix "Heatmap" "heatmap"
              (EsDs sample_es_datasource) ∅ ∅ sample_env empty_storage)
    as (st' & slc & Hrun & Hname & _).
  - intros n o. reflexivity.
  - reflexivity.
  - by exists st', slc.
Defined.

(** C2, as the code has it: the key set of the persisted blob is the union
    of the keys of the defaults, the five keys the function computes and
    the keys of the overrides; a key of the overrides has the override
    value, and a key of the defaults that is neither computed nor
    overridden has its default value. *)
Theorem slice_blob_keys name viz ds (defaults params : dict) e st :
  quiet e →
  ∃ st' slc,
    get_or_create_slice name viz ds defaults params e st = (st', inr slc) ∧
    slc ∈ rows (Slice_table st') ∧
    list_to_set (obj_keys (Slice.params slc))
    =@{gset string} dom defaults ∪ computed_keys ∪ dom params ∧
    (∀ k v, params !! k = Some v → obj_get k (Slice.params slc) = Some v) ∧
    (∀ k, params !! k = None → k ∉ computed_keys →
          obj_get k (Slice.params slc) = defaults !! k).
Proof.
  intros Hq.
  destruct (get_or_create_slice_rows e st name viz ds defaults params Hq)
    as (st' & slc & Hrun & Hslc & Hrows).
  exists st', slc. split; [done|]. split.
  { rewrite Hrows. apply elem_of_app. right. by apply list_elem_of_singleton. }
  subst slc. cbn [Slice.params Slice.set_id new_slice].
  split; [|split].
  - rewrite obj_keys_dumps_sorted. apply dom_slice_params.
  - intros k v Hk. rewrite obj_get_dumps_sorted. unfold slice_params.
    by apply lookup_union_Some_l.
  - intros k Hk Hc. rewrite obj_get_dumps_sorted. unfold slice_params.
    rewrite lookup_union_r by done.
    unfold computed_keys in Hc.
    rewrite !lookup_insert_ne; [done|set_solver..].
Qed.

Lemma slice_blob_keys_witness :
  ∃ st' slc,
    get_or_create_slice "Heatmap" "heatmap" (TableDs sample_table) ∅
      (dict_of [("metric", JStr "sum__value")]) sample_env empty_storage
    = (st', inr slc) ∧
    obj_get "metric" (Slice.params slc) = Some (JStr "sum__value").
Proof.
  destruct (slice_blob_keys "Heatmap" "heatmap" (TableDs sample_table) ∅
              (dict_of [("metric", JStr "sum__value")]) sample_env empty_storage)
    as (st' & slc & Hrun & _ & _ & Hov & _).
  - intros n o. reflexivity.
  - exists st', slc. split; [done|]. apply Hov. reflexivity.
Defined.

(** The claim C2 as it is stated fails on a call with no defaults and one
    override, as the loaders make them: the blob has the key "slice_name",
    which neither dictionary has. *)
Lemma slice_blob_keys_counterexample :
  let defaults : dict := ∅ in
  let params : dict := dict_of [("metric", JStr "sum__value")] in
  ¬ ∀ st' slc,
      get_or_create_slice "Energy Sankey" "sankey" (TableDs sample_table)
        defaults params sample_env empty_storage = (st', inr slc) →
      list_to_set (obj_keys (Slice.params slc))
      =@{gset string} dom defaults ∪ dom params.
Proof.
  intros defaults params H.
  specialize (H _ _ eq_refl).
  apply (f_equal (λ X : gset string, bool_decide ("slice_name" ∈ X))) in H.
  vm_compute in H. discriminate.
Qed.

(** ** import_data, relational path *)

Lemma get_or_create_db_quiet e st :
  quiet e →
  get_or_create_db e st =
  let tr := table_add (db_record e (DB_table st)) (DB_table st) in
  (tick (set_DB_table tr.1 (tick st)), inr tr.2).
Proof.
  intros Hq. unfold get_or_create_db.
  erewrite bind_run; [|by apply query_first_quiet].
  unfold bind, ask, session_add, session_commit, ret.
  rewrite ext_quiet by done. reflexivity.
Qed.

Lemma import_data_table_quiet file table_name description dtype e st pdf pdf' :
  quiet e →
  pd_read_json e file = inr pdf →
  coerce_dates e table_name (rename_columns pdf) = inr pdf' →
  import_data file table_name description dtype None e st =
  (imported_table e table_name description dtype pdf' st,
   inr (TableDs
          (table_add
             (table_record table_name description (TBL_table st)
                (DB.id (table_add (db_record e (DB_table st)) (DB_table st)).2))
             (TBL_table st)).2)).
Proof.
  intros Hq Hread Hco. unfold import_data.
  unfold bind at 1. unfold ask at 1. rewrite Hread.
  unfold bind at 1. unfold lib at 1, ret at 1.
  cbv zeta. rewrite Hco.
  unfold bind at 1. unfold lift at 1, ret at 1.
  unfold to_sql.
  unfold bind at 1. unfold bind at 1. rewrite ext_quiet by done.
  unfold modify at 1.
  erewrite bind_run; [|by apply query_first_quiet].
  erewrite bind_run; [|by apply get_or_create_db_quiet].
  unfold bind, session_merge, session_add, session_commit, ret.
  rewrite !ext_quiet by done.
  reflexivity.
Qed.

Lemma replace_row_elem {R} `{Model R} (r x : R) (l : list R) :
  x ∈ l → model_id x = model_id r → r ∈ replace_row r l.
Proof.
  intros Hx Hid. unfold replace_row. apply list_elem_of_fmap.
  exists x. by rewrite decide_True.
Qed.

Lemma table_add_upsert_elem {R} `{Model R} (p : R → bool) (new : R) (f : R → R)
    (t : table R) :
  (∀ x, model_id (f x) = model_id x) →
  model_id new = None →
  let r := f (default new (find p (rows t))) in
  (table_add r t).2 ∈ rows (table_add r t).1.
Proof.
  intros Hf Hnew r. unfold table_add.
  destruct (model_id r) as [i|] eqn:Hid; simpl.
  - subst r. destruct (find p (rows t)) as [x|] eqn:Hfind; simpl in *.
    + apply (replace_row_elem _ x).
      * apply list_elem_of_In. by apply find_some in Hfind as [? _].
      * by rewrite Hf.
    + rewrite Hf, Hnew in Hid. done.
  - apply elem_of_app. right. by apply list_elem_of_singleton.
Qed.

Lemma df_get_set_eq c v v' (df : DataFrame) :
  df_get c df = Some v → df_get c (df_set c v' df) = Some v'.
Proof.
  induction df as [|[c0 v0] df IH]; simpl; [done|].
  case_decide as Hc; simpl.
  - intros _. by rewrite decide_True.
  - intros Hg. rewrite decide_False by done. by apply IH.
Qed.

Lemma df_get_set_ne c c' v' (df : DataFrame) :
  c' ≠ c → df_get c' (df_set c v' df) = df_get c' df.
Proof.
  intros Hne. induction df as [|[c0 v0] df IH]; simpl; [done|].
  case_decide as Hc; simpl.
  - subst c0. by rewrite !decide_False by done.
  - case_decide; [done|]. apply IH.
Qed.

Lemma table_record_elem table_name description (t : table TBL.t) database :
  let r := table_record table_name description t database in
  (table_add r t).2 ∈ rows (table_add r t).1.
Proof.
  unfold table_record.
  apply (table_add_upsert_elem
           (λ t, bool_decide (TBL.table_name t = table_name))
           (TBL.mk None table_name None None None None)
           (λ ds,
              TBL.set_description description
                (TBL.set_database database
                   (let ds := TBL.set_is_featured true ds in
                    if decide (table_name = "birth_names")
                    then TBL.set_main_dttm_col "ds" ds
                    else if decide (table_name = "wb_health_population")
                    then TBL.set_main_dttm_col "year" ds
                    else if decide (table_name = "random_time_series")
                    then TBL.set_is_featured false (TBL.set_main_dttm_col "ds" ds)
                    else ds)))).
  - intros x. cbv zeta. by repeat case_decide.
  - done.
Qed.

Lemma table_record_is_featured table_name description (t : table TBL.t) database :
  TBL.is_featured (table_record table_name description t database)
  = Some (bool_decide (table_name ≠ "random_time_series")).
Proof.
  unfold table_record. cbv zeta.
  repeat case_decide; subst; simpl; try done.
Qed.

(** C10: on the relational path the persisted table record is featured
    exactly when the table is not 'random_time_series'. *)
Theorem import_data_is_featured file table_name description dtype e st pdf pdf' :
  quiet e →
  pd_read_json e file = inr pdf →
  coerce_dates e table_name (rename_columns pdf) = inr pdf' →
  ∃ st' t,
    import_data file table_name description dtype None e st
    = (st', inr (TableDs t)) ∧
    t ∈ rows (TBL_table st') ∧
    TBL.is_featured t = Some (bool_decide (table_name ≠ "random_time_series")) ∧
    (TBL.is_featured t = Some false ↔ table_name = "random_time_series").
Proof.
  intros Hq Hread Hco.
  rewrite (import_data_table_quiet _ _ _ _ _ _ _ _ Hq Hread Hco).
  eexists _, _. split; [reflexivity|].
  assert (Hf : ∀ r : TBL.t, ∀ t,
             TBL.is_featured r = Some (bool_decide (table_name ≠ "random_time_series")) →
             TBL.is_featured (table_add r t).2
             = Some (bool_decide (table_name ≠ "random_time_series"))).
  { intros r t Hr. unfold table_add. by destruct (model_id r). }
  split; [apply table_record_elem|]. split.
  - apply Hf, table_record_is_featured.
  - rewrite Hf by apply table_record_is_featured.
    case_bool_decide as Hd; split; done.
Qed.

Lemma import_data_is_featured_witness :
  ∃ st' t,
    import_data "random_time_series.json.gz" "random_time_series"
      "Random time series" (list_to_map [("ds", DateTime)]) None
      sample_env empty_storage = (st', inr (TableDs t)) ∧
    t ∈ rows (TBL_table st') ∧
    TBL.is_featured t = Some false.
Proof.
  destruct (import_data_is_featured "random_time_series.json.gz"
              "random_time_series" "Random time series"
              (list_to_map [("ds", DateTime)]) sample_env empty_storage
              [("ds", [Raw (JInt 60)])] [("ds", [Timestamp 60000000000])])
    as (st' & t & Hrun & Hin & Hf & _).
  - intros n o. reflexivity.
  - reflexivity.
  - reflexivity.
  - by exists st', t.
Defined.

(** C5: on the relational path, the table written for 'birth_names' has
    its 'ds' column converted by [pd.to_datetime] in milliseconds, and the
    table written for 'wb_health_population' has its 'year' column
    converted by [pd.to_datetime] of the plain values; the other columns
    are written as read. *)
Theorem import_data_date_coercion file table_name col unit description dtype
    e st pdf v v' :
  quiet e →
  (table_name, col, unit) ∈
    [("birth_names", "ds", Some "ms"); ("wb_health_population", "year", None)] →
  pd_read_json e file = inr pdf →
  df_get col (rename_columns pdf) = Some v →
  pd_to_datetime e unit v = inr v' →
  ∃ st' ds written,
    import_data file table_name description dtype None e st = (st', inr ds) ∧
    sql_tables st' !! table_name = Some (written, dtype) ∧
    written = df_set col v' (rename_columns pdf) ∧
    df_get col written = Some v' ∧
    ∀ c, c ≠ col → df_get c written = df_get c (rename_columns pdf).
Proof.
  intros Hq Hin Hread Hget Hconv.
  assert (Hco : coerce_dates e table_name (rename_columns pdf)
                = inr (df_set col v' (rename_columns pdf))).
  { unfold coerce_dates, coerce_date.
    apply elem_of_cons in Hin as [[= -> -> ->]|Hin].
    - rewrite decide_True by done. by rewrite Hget, Hconv.
    - apply list_elem_of_singleton in Hin as [= -> -> ->].
      rewrite decide_False by done. rewrite decide_True by done.
      by rewrite Hget, Hconv. }
  rewrite (import_data_table_quiet _ _ _ _ _ _ _ _ Hq Hread Hco).
  eexists _, _, _. split; [reflexivity|]. split.
  { unfold imported_table. cbn [sql_tables]. apply lookup_insert_eq. }
  split; [done|]. split.
  - by apply (df_get_set_eq _ v).
  - intros c Hc. by apply df_get_set_ne.
Qed.

Lemma import_data_date_coercion_witness :
  (∃ st' ds written,
     import_data "birth_names.json.gz" "birth_names" "" ∅ None
       sample_env empty_storage = (st', inr ds) ∧
     sql_tables st' !! "birth_names" = Some (written, ∅) ∧
     df_get "ds" written = Some [Timestamp 86400000000000; Timestamp 0]) ∧
  (∃ st' ds written,
     import_data "countries.json.gz" "wb_health_population" "" ∅ None
       sample_env empty_storage = (st', inr ds) ∧
     sql_tables st' !! "wb_health_population" = Some (written, ∅) ∧
     df_get "year" written = Some [Timestamp (-315619200000000000)]).
Proof.
  split.
  - destruct (import_data_date_coercion "birth_names.json.gz" "birth_names" "ds"
                (Some "ms") "" ∅ sample_env empty_storage
                [("ds", [Raw (JInt 86400000); Raw (JInt 0)]);
                 ("name", [Raw (JStr "Ada"); Raw (JStr "Bob")]);
                 ("num", [Raw (JInt 3); Raw (JInt 4)])]
                [Raw (JInt 86400000); Raw (JInt 0)]
                [Timestamp 86400000000000; Timestamp 0])
      as (st' & ds & w & Hrun & Hw & _ & Hds & _).
    + intros n o. reflexivity.
    + apply elem_of_cons. by left.
    + reflexivity.
    + reflexivity.
    + reflexivity.
    + by exists st', ds, w.
  - destruct (import_data_date_coercion "countries.json.gz" "wb_health_population"
                "year" None "" ∅ sample_env empty_storage
                [("country.code", [Raw (JStr "FRA")]);
                 ("year", [Raw (JStr "1960-01-01")]);
                 ("SP.POP.TOTL", [Raw (JInt 46)])]
                [Raw (JStr "1960-01-01")]
                [Timestamp (-315619200000000000)])
      as (st' & ds & w & Hrun & Hw & _ & Hds & _).
    + intros n o. reflexivity.
    + apply elem_of_cons. right. apply elem_of_cons. by left.
    + reflexivity.
    + reflexivity.
    + reflexivity.
    + by exists st', ds, w.
Defined.

(** ** Failures *)

Lemma propagating_ret {A} (a : A) : propagating (ret a).
Proof. intros e st Hc. done. Qed.

Lemma propagating_bind {A B} (m : M A) (k : A → M B) :
  propagating m → (∀ a, propagating (k a)) → propagating (bind m k).
Proof.
  intros Hm Hk e st Hc. unfold bind. specialize (Hm e st Hc).
  destruct (m e st) as [st' [f|a]]; [done|]. by apply Hk.
Qed.

Lemma propagating_raise {A} o f : ¬ suppressed (o, f) → propagating (@raise A o f).
Proof.
  intros Hns e st Hc. unfold raise. cbn [faults set_faults].
  by exists o, (faults st).
Qed.

Lemma propagating_ext o : o ≠ EsIndicesDelete → propagating (ext o).
Proof.
  intros Ho e st Hc. unfold ext.
  destruct (oracle e (clock st) o) as [f|]; [|done].
  apply (propagating_raise (A:=unit)); [|done].
  unfold suppressed. congruence.
Qed.

Lemma propagating_lib {A} o (r : failure + A) :
  o ≠ EsIndicesDelete → propagating (lib o r).
Proof.
  intros Ho. destruct r as [f|a]; simpl.
  - apply propagating_raise. unfold suppressed. congruence.
  - apply propagating_ret.
Qed.

Lemma propagating_lift {A} (r : op * failure + A) :
  (∀ o f, r = inl (o, f) → o ≠ EsIndicesDelete) → propagating (lift r).
Proof.
  intros Hr. destruct r as [[o f]|a]; simpl.
  - apply propagating_raise. unfold suppressed. intros [= -> ->]. by eapply Hr.
  - apply propagating_ret.
Qed.

Lemma propagating_ask : propagating ask.
Proof. intros e st Hc. done. Qed.

Lemma propagating_gets {A} (f : storage → A) : propagating (gets f).
Proof. intros e st Hc. done. Qed.

Lemma propagating_query_first {R} `{Model R} (p : R → bool) :
  propagating (query_first p).
Proof.
  unfold query_first. apply propagating_bind.
  - by apply propagating_ext.
  - intros _. apply propagating_gets.
Qed.

Lemma propagating_commit : propagating session_commit.
Proof. by apply propagating_ext. Qed.

Lemma propagating_getitem {A} (l : list A) i : propagating (getitem l i).
Proof.
  unfold getitem. destruct (l !! i).
  - apply propagating_ret.
  - apply propagating_raise. unfold suppressed. congruence.
Qed.

Lemma propagating_sequence {A} (l : list (M A)) :
  Forall propagating l → propagating (sequence l).
Proof.
  induction 1 as [|m l Hm Hl IH]; simpl.
  - apply propagating_ret.
  - apply propagating_bind; [done|]. intros a.
    apply propagating_bind; [done|]. intros r. apply propagating_ret.
Qed.

Lemma propagating_set_slice_ids i l slices : propagating (set_slice_ids i l slices).
Proof.
  revert i. induction l as [|pos l IH]; intros i; simpl.
  - apply propagating_ret.
  - apply propagating_bind; [apply propagating_getitem|]. intros s.
    apply propagating_bind; [apply IH|]. intros r. apply propagating_ret.
Qed.

Lemma propagating_silent {A} (m : M A) : silent m → propagating m.
Proof.
  intros Hs e st Hc. destruct (Hs e st) as (st' & a & -> & Hf). by rewrite Hf.
Qed.

Lemma propagating_es_indices_delete index :
  propagating (es_indices_delete index [404]).
Proof.
  intros e st Hc. unfold es_indices_delete.
  assert (Hsup : Forall suppressed (faults st ++ [(EsIndicesDelete, HttpStatus 404)])).
  { apply Forall_app. split; [done|]. by apply Forall_singleton. }
  assert (Hraise : ∀ f, f ≠ HttpStatus 404 →
            ∃ o l, faults (raise (A:=unit) EsIndicesDelete f e (tick st)).1
                   = l ++ [(o, f)] ∧ Forall suppressed l ∧ ¬ suppressed (o, f)).
  { intros f Hf. exists EsIndicesDelete, (faults st). split; [done|]. split; [done|].
    unfold suppressed. congruence. }
  destruct (oracle e (clock st) EsIndicesDelete) as [f|].
  - destruct f as [code| | | | |]; try (apply Hraise; done).
    case_decide as Hin.
    + apply list_elem_of_singleton in Hin as ->. done.
    + apply Hraise. intros [= ->]. apply Hin. by apply list_elem_of_singleton.
  - case_decide; [done|]. rewrite decide_True by by apply list_elem_of_singleton.
    done.
Qed.

Lemma coerce_dates_op e table_name pdf o f :
  coerce_dates e table_name pdf = inl (o, f) → o ≠ EsIndicesDelete.
Proof.
  unfold coerce_dates, coerce_date.
  repeat case_decide; repeat case_match; congruence.
Qed.

Ltac silent_step :=
  apply propagating_silent; intros ? ?; eexists _, _; split; reflexivity.

Ltac propagate :=
  repeat first
    [ apply propagating_ret
    | apply propagating_ask
    | apply propagating_query_first
    | apply propagating_commit
    | apply propagating_es_indices_delete
    | apply propagating_set_slice_ids
    | apply propagating_ext; discriminate
    | apply propagating_lib; discriminate
    | apply propagating_lift; intros ? ?; apply coerce_dates_op
    | apply propagating_bind; [|intros ?]
    | lazymatch goal with
      | |- propagating (match ?o with Some _ => _ | None => _ end) => destruct o
      | |- propagating (let _ := _ in _) => cbv zeta
      end
    | silent_step ].

Lemma propagating_get_or_create_db : propagating get_or_create_db.
Proof. unfold get_or_create_db. propagate. Qed.

Lemma propagating_get_or_create_elasticsearch_cluster urls :
  propagating (get_or_create_elasticsearch_cluster urls).
Proof. unfold get_or_create_elasticsearch_cluster. propagate. Qed.

Lemma propagating_to_sql name pdf dtype : propagating (to_sql name pdf dtype).
Proof. unfold to_sql. propagate. Qed.

Lemma propagating_es_bulk index doc_type body :
  propagating (es_bulk index doc_type body).
Proof. unfold es_bulk. propagate. Qed.

Lemma propagating_import_data file table_name description dtype es_cluster :
  propagating (import_data file table_name description dtype es_cluster).
Proof.
  unfold import_data. propagate;
    first [ apply propagating_es_bulk | apply propagating_to_sql
          | apply propagating_get_or_create_db ]; propagate.
Qed.

Lemma propagating_get_or_create_slice name viz ds defaults params :
  propagating (get_or_create_slice name viz ds defaults params).
Proof. unfold get_or_create_slice. propagate. Qed.

Ltac propagate_calls :=
  repeat first
    [ apply propagating_import_data
    | apply propagating_get_or_create_slice
    | apply propagating_get_or_create_db
    | apply propagating_to_sql
    | apply propagating_sequence;
        repeat (apply Forall_cons; split; [apply propagating_get_or_create_slice|]);
        apply Forall_nil_2
    | progress propagate ].

Lemma propagating_run_loader l es_cluster : propagating (run_loader l es_cluster).
Proof.
  destruct l; simpl.
  - unfold load_energy. propagate_calls.
  - unfold load_world_bank_health_n_pop. propagate_calls.
  - unfold load_css_templates. propagate_calls.
  - unfold load_birth_names. propagate_calls.
  - unfold load_unicode_test_data. propagate_calls.
  - unfold load_random_time_series_data. propagate_calls.
Qed.

(** C8: the only failure that is recorded without ending the run is the
    404 answer ("index does not exist") to the index-delete call before the
    bulk indexing; every other failure of a call to the store, the cluster,
    the metadata layer or a reader is the outcome of the run, and is the
    last thing that happened in it. *)
Theorem only_index_not_found_is_suppressed :
  (∀ l es_cluster e st,
     faults st = [] →
     match run_loader l es_cluster e st with
     | (st', inr _) =>
         ∀ o f, (o, f) ∈ faults st' → o = EsIndicesDelete ∧ f = HttpStatus 404
     | (st', inl f) =>
         ∃ o past,
           faults st' = past ++ [(o, f)] ∧
           (o, f) ≠ (EsIndicesDelete, HttpStatus 404) ∧
           ∀ o' f', (o', f') ∈ past → o' = EsIndicesDelete ∧ f' = HttpStatus 404
     end) ∧
  (∀ urls, propagating (get_or_create_elasticsearch_cluster urls)) ∧
  (∃ st' h,
     load_energy (Some sample_cluster) sample_env empty_storage = (st', inr h) ∧
     faults st' = [(EsIndicesDelete, HttpStatus 404)]) ∧
  (∃ st',
     load_energy (Some sample_cluster) (failing_at 0 (HttpStatus 500) sample_env)
       empty_storage = (st', inl (HttpStatus 500)) ∧
     faults st' = [(EsIndicesDelete, HttpStatus 500)]) ∧
  (∀ n, n < 12 →
     ∃ st',
       load_energy None (failing_at n StorageError sample_env) empty_storage
       = (st', inl StorageError)) ∧
  (∀ l es_cluster,
     l ≠ CssTemplates →
     ∃ st',
       run_loader l es_cluster (unreadable sample_env) empty_storage
       = (st', inl ValueError)).
Proof.
  split; [|split; [|split; [|split; [|split]]]].
  - intros l es e st Hf.
    pose proof (propagating_run_loader l es e st) as Hp.
    rewrite Hf in Hp. specialize (Hp (Forall_nil_2 _)).
    destruct (run_loader l es e st) as [st' [f|h]].
    + destruct Hp as (o & past & Hpast & Hsup & Hns).
      exists o, past. split; [done|]. split; [done|].
      intros o' f' Hin. rewrite Forall_forall in Hsup.
      specialize (Hsup _ Hin). unfold suppressed in Hsup. by inversion Hsup.
    + intros o f Hin. rewrite Forall_forall in Hp.
      specialize (Hp _ Hin). unfold suppressed in Hp. by inversion Hp.
  - apply propagating_get_or_create_elasticsearch_cluster.
  - eexists _, _. split; [vm_compute; reflexivity|]. vm_compute. reflexivity.
  - eexists. split; [vm_compute; reflexivity|]. vm_compute. reflexivity.
  - intros n Hn.
    do 12 (destruct n as [|n]; [eexists; vm_compute; reflexivity|]). lia.
  - intros l es Hl.
    destruct l, es; try done; eexists; vm_compute; reflexivity.
Qed.

(** ** Lists of slice calls *)

Lemma storage_eta st :
  st = Storage (DB_table st) (cluster_table st) (TBL_table st) (datasource_table st)
         (Slice_table st) (Dash_table st) (CSS_table st) (sql_tables st)
         (es_indices st) (clock st) (faults st).
Proof. by destruct st. Qed.

Lemma run_call_quiet ds c e st :
  quiet e →
  run_call ds c e st = (with_slices ds [c] st, inr (slice_step ds c (Slice_table st)).2).
Proof.
  intros Hq. unfold run_call. by rewrite get_or_create_slice_quiet.
Qed.

Lemma sequence_calls_quiet ds cs e st :
  quiet e →
  sequence (run_call ds <$> cs) e st
  = (with_slices ds cs st, inr (slices_after ds cs (Slice_table st)).2).
Proof.
  intros Hq. revert st. induction cs as [|c cs IH]; intros st.
  - simpl. unfold ret, with_slices. simpl. by rewrite <- storage_eta.
  - rewrite fmap_cons. cbn [sequence].
    erewrite bind_run; [|by apply run_call_quiet].
    erewrite bind_run; [|by apply IH].
    unfold ret, with_slices. cbn [slices_after fst snd Slice_table DB_table cluster_table
      TBL_table datasource_table Dash_table CSS_table sql_tables es_indices clock faults
      length].
    replace (2 * length cs + (2 * 1 + clock st)) with (2 * S (length cs) + clock st)
      by lia.
    reflexivity.
Qed.

Lemma slice_step_next ds c t : next_id (slice_step ds c t).1 = S (next_id t).
Proof.
  unfold slice_step, table_add, without_first. simpl.
  by destruct (find _ _).
Qed.

Lemma slice_step_slice ds c t :
  (slice_step ds c t).2
  = Slice.set_id (Some (next_id t))
      (new_slice (call_name c) (call_viz c) ds (call_defaults c) (call_params c)).
Proof.
  unfold slice_step, table_add, without_first. simpl.
  by destruct (find _ _).
Qed.


Lemma slices_after_length ds cs t : length (slices_after ds cs t).2 = length cs.
Proof.
  revert t. induction cs as [|c cs IH]; intros t; cbn [slices_after fst snd length];
    [done|].
  by rewrite IH.
Qed.

Lemma slices_after_ids ds cs t :
  Slice.id <$> (slices_after ds cs t).2 = Some <$> seq (next_id t) (length cs).
Proof.
  revert t. induction cs as [|c cs IH]; intros t; cbn [slices_after fst snd length];
    [done|].
  rewrite fmap_cons, IH, slice_step_next, slice_step_slice. done.
Qed.

Lemma slices_after_names ds cs t :
  Slice.slice_name <$> (slices_after ds cs t).2
  = (λ c, stored_name (call_name c) ds) <$> cs.
Proof.
  revert t. induction cs as [|c cs IH]; intros t; cbn [slices_after fst snd];
    [done|].
  rewrite !fmap_cons, IH, slice_step_slice. done.
Qed.

(** ** Layouts *)

Lemma set_slice_ids_ok i l slices e st :
  i + length l ≤ length slices →
  set_slice_ids i l slices e st = (st, inr (filled_layout l (drop i slices))).
Proof.
  revert i. induction l as [|pos l IH]; intros i Hlen; simpl in *.
  - unfold filled_layout. by destruct (drop i slices).
  - destruct (slices !! i) as [s|] eqn:Hs.
    2:{ apply lookup_ge_None in Hs. lia. }
    unfold bind, getitem. rewrite Hs. unfold ret at 1.
    rewrite IH by lia. unfold ret.
    rewrite (drop_S _ _ _ Hs). done.
Qed.

(** ** import_data, search-cluster path *)

Lemma import_data_index_quiet file table_name description dtype cluster e st data :
  quiet e →
  gzip_json_loads e file = inr data →
  import_data file table_name description dtype (Some cluster) e st =
  (imported_index table_name description cluster data st,
   inr (EsDs
          (table_add
             (datasource_record table_name description
                (ElasticsearchCluster.id cluster) (datasource_table st))
             (datasource_table st)).2)).
Proof.
  intros Hq Hread. unfold import_data.
  unfold bind at 1. unfold ask at 1. rewrite Hread.
  unfold bind at 1. unfold lib at 1, ret at 1.
  cbv zeta.
  unfold bind at 1. unfold es_indices_delete at 1. rewrite Hq.
  unfold imported_index. cbv zeta.
  destruct (decide (is_Some (es_indices st !! ("example-" +:+ table_name))))
    as [Hex|Hex].
  - unfold es_bulk. unfold bind at 1. unfold bind at 1. rewrite ext_quiet by done.
    unfold modify at 1.
    erewrite bind_run; [|by apply query_first_quiet].
    unfold bind, session_merge, session_add, session_commit, ret.
    rewrite !ext_quiet by done.
    cbn [es_indices set_es_indices tick set_clock faults clock model_table
         model_set_table datasource_model datasource_table fst snd
         DB_table cluster_table TBL_table Slice_table Dash_table CSS_table
         sql_tables set_datasource_table].
    rewrite lookup_delete_eq, insert_delete_eq, app_nil_r. reflexivity.
  - rewrite decide_True by by apply list_elem_of_singleton.
    unfold es_bulk. unfold bind at 1. unfold bind at 1. rewrite ext_quiet by done.
    unfold modify at 1.
    erewrite bind_run; [|by apply query_first_quiet].
    unfold bind, session_merge, session_add, session_commit, ret.
    rewrite !ext_quiet by done.
    cbn [es_indices set_es_indices tick set_clock faults clock model_table
         model_set_table datasource_model datasource_table fst snd
         DB_table cluster_table TBL_table Slice_table Dash_table CSS_table
         sql_tables set_datasource_table set_faults].
    assert (Hnone : es_indices st !! ("example-" +:+ table_name) = None).
    { destruct (es_indices st !! _) eqn:E; [|done]. exfalso. apply Hex. by eexists. }
    rewrite Hnone. reflexivity.
Qed.

Lemma import_data_quiet file table_name description dtype es_cluster e st st0 ds :
  quiet e →
  imported e file table_name description dtype es_cluster st = Some (st0, ds) →
  import_data file table_name description dtype es_cluster e st = (st0, inr ds).
Proof.
  intros Hq. unfold imported. destruct es_cluster as [cluster|].
  - destruct (gzip_json_loads e file) as [f|data] eqn:Hread; [done|].
    intros [= <- <-]. by apply import_data_index_quiet.
  - destruct (pd_read_json e file) as [f|pdf] eqn:Hread; [done|].
    destruct (coerce_dates e table_name (rename_columns pdf)) as [f|pdf'] eqn:Hco;
      [done|].
    intros [= <- <-]. by eapply import_data_table_quiet.
Qed.

Lemma import_ready_imported e file table_name description dtype es_cluster st :
  import_ready e file table_name es_cluster →
  ∃ st0 ds, imported e file table_name description dtype es_cluster st = Some (st0, ds).
Proof.
  unfold import_ready, imported. destruct es_cluster as [cluster|].
  - intros [data ->]. by eexists _, _.
  - intros (pdf & pdf' & -> & ->). by eexists _, _.
Qed.

(** ** The loaders, step by step *)

Ltac reify_calls l :=
  lazymatch l with
  | [] => constr:(@nil call)
  | get_or_create_slice ?n ?v ?ds ?d ?p :: ?l' =>
      let r := reify_calls l' in constr:(Call n v d p :: r)
  end.

Ltac reify_sequence ds :=
  lazymatch goal with
  | |- context [sequence ?l] =>
      let cs := reify_calls l in
      change (sequence l) with (sequence (run_call ds <$> cs))
  end.

Lemma load_birth_names_quiet es e st st0 ds :
  quiet e →
  import_data "birth_names.json.gz" "birth_names" ""
    (list_to_map [("ds", DateTime); ("gender", String_ 16);
                  ("state", String_ 10); ("name", String_ 255)])
    es e st = (st0, inr ds) →
  ∃ cs,
    call_name <$> cs = birth_names_slice_names ∧
    let slices := (slices_after ds cs (Slice_table st0)).2 in
    let dash :=
      dashboard_record (λ d, bool_decide (Dash.dashboard_title d = Some "Births"))
        "Births" "births"
        (json_dumps_list (filled_layout birth_names_layout slices))
        (Slice.id <$> removelast slices) (Dash_table st0) in
    load_birth_names es e st
    = (with_dash dash (with_slices ds cs st0),
       inr (Loaded (Some ds) slices (Some (table_add dash (Dash_table st0)).2) [])).
Proof.
  intros Hq Himp. unfold load_birth_names.
  unfold bind at 1. unfold ask at 1.
  erewrite bind_run; [|exact Himp].
  cbv zeta. reify_sequence ds.
  lazymatch goal with
  | |- context [sequence (run_call ds <$> ?cs)] => exists cs
  end.
  split; [reflexivity|].
  erewrite bind_run; [|by apply sequence_calls_quiet].
  erewrite bind_run; [|by apply query_first_quiet].
  erewrite bind_run.
  2:{ apply set_slice_ids_ok. rewrite slices_after_length. simpl. lia. }
  unfold bind, session_merge, session_add, session_commit, ret.
  rewrite ext_quiet by done.
  rewrite drop_0.
  reflexivity.
Qed.

Lemma load_world_bank_quiet es e st st0 ds description :
  quiet e →
  readfile e "countries.md" = inr description →
  import_data "countries.json.gz" "wb_health_population" description
    (list_to_map [("year", DateTime); ("country_code", String_ 3);
                  ("country_name", String_ 255); ("region", String_ 255)])
    es e st = (st0, inr ds) →
  ∃ cs,
    call_name <$> cs = world_bank_slice_names ∧
    let slices := (slices_after ds cs (Slice_table st0)).2 in
    let dash :=
      dashboard_record (λ d, bool_decide (Dash.slug d = Some "world_health"))
        "World's Bank Data" "world_health"
        (json_dumps_list (filled_layout world_bank_layout slices))
        (Slice.id <$> removelast slices) (Dash_table st0) in
    load_world_bank_health_n_pop es e st
    = (with_dash dash (with_slices ds cs st0),
       inr (Loaded (Some ds) slices (Some (table_add dash (Dash_table st0)).2) [])).
Proof.
  intros Hq Hfile Himp. unfold load_world_bank_health_n_pop.
  unfold bind at 1. unfold ask at 1. rewrite Hfile.
  unfold bind at 1. unfold lib at 1, ret at 1.
  erewrite bind_run; [|exact Himp].
  cbv zeta. reify_sequence ds.
  lazymatch goal with
  | |- context [sequence (run_call ds <$> ?cs)] => exists cs
  end.
  split; [reflexivity|].
  erewrite bind_run; [|by apply sequence_calls_quiet].
  erewrite bind_run; [|by apply query_first_quiet].
  erewrite bind_run.
  2:{ apply set_slice_ids_ok. rewrite slices_after_length. simpl. lia. }
  unfold bind, session_merge, session_add, session_commit, ret.
  rewrite ext_quiet by done.
  rewrite drop_0.
  reflexivity.
Qed.

Lemma load_energy_quiet es e st st0 ds :
  quiet e →
  import_data "energy.json.gz" "energy_usage" "Energy consumption"
    (list_to_map [("source", String_ 255); ("target", String_ 255);
                  ("value", Float)])
    es e st = (st0, inr ds) →
  ∃ cs,
    call_name <$> cs = energy_slice_names ∧
    Forall (λ c, call_params c !! "metric" = Some (JStr "sum__value")) cs ∧
    load_energy es e st
    = (with_slices ds cs st0,
       inr (Loaded (Some ds) (slices_after ds cs (Slice_table st0)).2 None [])).
Proof.
  intros Hq Himp. unfold load_energy.
  erewrite bind_run; [|exact Himp].
  lazymatch goal with
  | |- context [bind (get_or_create_slice ?n1 ?v1 ds ?d1 ?p1)
                  (λ _, bind (get_or_create_slice ?n2 ?v2 ds ?d2 ?p2)
                    (λ _, bind (get_or_create_slice ?n3 ?v3 ds ?d3 ?p3) _))] =>
      exists [Call n1 v1 d1 p1; Call n2 v2 d2 p2; Call n3 v3 d3 p3]
  end.
  split; [reflexivity|]. split.
  { repeat (apply Forall_cons; split; [vm_compute; reflexivity|]). apply Forall_nil_2. }
  do 3 (erewrite bind_run; [|by apply get_or_create_slice_quiet]).
  reflexivity.
Qed.

Lemma load_random_time_series_quiet es e st st0 ds :
  quiet e →
  import_data "random_time_series.json.gz" "random_time_series" "Random time series"
    (list_to_map [("ds", DateTime)]) es e st = (st0, inr ds) →
  ∃ cs,
    call_name <$> cs = ["Calendar Heatmap"] ∧
    load_random_time_series_data es e st
    = (with_slices ds cs st0,
       inr (Loaded (Some ds) (slices_after ds cs (Slice_table st0)).2 None [])).
Proof.
  intros Hq Himp. unfold load_random_time_series_data.
  unfold bind at 1. unfold ask at 1.
  erewrite bind_run; [|exact Himp].
  lazymatch goal with
  | |- context [bind (get_or_create_slice ?n1 ?v1 ds ?d1 ?p1) _] =>
      exists [Call n1 v1 d1 p1]
  end.
  split; [reflexivity|].
  erewrite bind_run; [|by apply get_or_create_slice_quiet].
  reflexivity.
Qed.

Lemma load_css_templates_quiet es e st :
  quiet e →
  let c1 := css_record "Flat" flat_css (CSS_table st) in
  let st1 := with_css c1 st in
  let c2 := css_record "Courier Black" courier_black_css (CSS_table st1) in
  load_css_templates es e st
  = (with_css c2 st1,
     inr (Loaded None [] None
            [(table_add c1 (CSS_table st)).2; (table_add c2 (CSS_table st1)).2])).
Proof.
  intros Hq. unfold load_css_templates.
  erewrite bind_run; [|by apply query_first_quiet].
  unfold bind at 1. unfold session_merge at 1, session_add at 1.
  unfold bind at 1. unfold session_commit at 1. rewrite ext_quiet by done.
  erewrite bind_run; [|by apply query_first_quiet].
  unfold bind, session_merge, session_add, session_commit, ret.
  rewrite ext_quiet by done.
  reflexivity.
Qed.

Lemma load_unicode_test_data_quiet es e st df :
  quiet e →
  pd_read_csv e "unicode_utf8_unixnl_test.csv" = inr df →
  let st0 := unicode_imported e df st in
  let ds :=
    TableDs
      (table_add
         (unicode_table_record (TBL_table st)
            (DB.id (table_add (db_record e (DB_table st)) (DB_table st)).2))
         (TBL_table st)).2 in
  ∃ c,
    call_name c = "Unicode Cloud" ∧
    let slc := (slice_step ds c (Slice_table st0)).2 in
    let dash :=
      dashboard_record (λ d, bool_decide (Dash.dashboard_title d = Some "Unicode Test"))
        "Unicode Test" "unicode-test"
        (json_dumps_list
           [dict_of [("size_y", JInt 4); ("size_x", JInt 4); ("col", JInt 1);
                     ("row", JInt 1); ("slice_id", json_of_id (Slice.id slc))]])
        [Slice.id slc] (Dash_table st0) in
    load_unicode_test_data es e st
    = (with_dash dash (with_slices ds [c] st0),
       inr (Loaded (Some ds) [slc] (Some (table_add dash (Dash_table st0)).2) [])).
Proof.
  intros Hq Hread. cbv zeta. unfold load_unicode_test_data.
  unfold bind at 1. unfold ask at 1. rewrite Hread.
  unfold bind at 1. unfold lib at 1, ret at 1.
  cbv zeta. unfold to_sql.
  unfold bind at 1. unfold bind at 1. rewrite ext_quiet by done.
  unfold modify at 1.
  erewrite bind_run; [|by apply query_first_quiet].
  erewrite bind_run; [|by apply get_or_create_db_quiet].
  unfold bind at 1. unfold session_merge at 1, session_add at 1.
  unfold bind at 1. unfold session_commit at 1. rewrite ext_quiet by done.
  unfold bind at 1. rewrite ext_quiet by done.
  lazymatch goal with
  | |- context [bind (get_or_create_slice ?n1 ?v1 ?ds ?d1 ?p1) _] =>
      exists (Call n1 v1 d1 p1)
  end.
  split; [reflexivity|].
  erewrite bind_run; [|by apply get_or_create_slice_quiet].
  erewrite bind_run; [|by apply query_first_quiet].
  unfold bind, session_merge, session_add, session_commit, ret.
  rewrite ext_quiet by done.
  reflexivity.
Qed.

(** ** Slots and members *)

Lemma str_id_inj (a b : nat) : str_id (Some a) = str_id (Some b) → a = b.
Proof. simpl. unfold str. apply (inj pretty). Qed.

Lemma slot_names_filled id pos s :
  is_Some (Slice.id s) →
  slot_names id
    (JObj (map_to_list (<["slice_id" := JStr (str_id (Slice.id s))]> pos)))
  = bool_decide (Slice.id s = id).
Proof.
  intros [a Ha]. unfold slot_names, obj_get. cbn [obj_members].
  rewrite assoc_get_map_to_list, lookup_insert_eq, Ha.
  destruct id as [b|].
  - apply bool_decide_ext. split.
    + intros [_ Hs]. f_equal. symmetry. by apply str_id_inj.
    + intros [= ->]. split; [by eexists|done].
  - rewrite !bool_decide_eq_false_2; [done| |].
    + done.
    + intros [[? [=]] _].
Qed.

Lemma filter_slot_names_filled id (layout : list dict) (slices : list Slice.t) :
  Forall (λ s, is_Some (Slice.id s)) slices →
  length (filter (λ slot, slot_names id slot = true)
            (list_items (json_dumps_list (filled_layout layout slices))))
  = length (filter (λ s, Slice.id s = id) (take (length layout) slices)).
Proof.
  unfold json_dumps_list, filled_layout. cbn [list_items].
  intros Hs. revert layout.
  induction Hs as [|s slices Hs Hall IH]; intros [|pos layout]; simpl; try done.
  rewrite !filter_cons. rewrite slot_names_filled by done.
  specialize (IH layout).
  case_bool_decide as Hd.
  - rewrite decide_True by done. rewrite decide_True by done. simpl. by f_equal.
  - rewrite decide_False by done. rewrite decide_False by done. done.
Qed.

Lemma filter_none {A} (P : A → Prop) `{∀ x, Decision (P x)} (l : list A) :
  (∀ x, x ∈ l → ¬ P x) → filter P l = [].
Proof.
  induction l as [|a l IH]; intros Hl; [done|].
  rewrite filter_cons_False by (apply Hl; left).
  apply IH. intros x Hx. apply Hl. by right.
Qed.

Lemma filter_eq_NoDup {A} `{EqDecision A} (x : A) (l : list A) :
  NoDup l → x ∈ l → length (filter (λ y, y = x) l) = 1.
Proof.
  induction 1 as [|y l Hy Hnd IH]; intros Hin.
  - by apply elem_of_nil in Hin.
  - rewrite filter_cons. case_decide as Hd.
    + subst y. simpl. f_equal.
      rewrite filter_none; [done|]. intros z Hz ->. done.
    + apply elem_of_cons in Hin as [->|Hin]; [done|]. by apply IH.
Qed.

Lemma filter_fmap_length {A B} (f : A → B) (P : B → Prop)
    `{∀ b, Decision (P b)} `{∀ a, Decision (P (f a))} (l : list A) :
  length (filter (λ a, P (f a)) l) = length (filter P (f <$> l)).
Proof.
  induction l as [|a l IH]; [done|].
  rewrite fmap_cons, !filter_cons. do 2 case_decide; simpl; try done.
  by rewrite IH.
Qed.

Lemma removelast_take {A} (l : list A) : removelast l = take (length l - 1) l.
Proof.
  induction l as [|a l IH]; [done|].
  destruct l as [|b l]; [done|].
  change (removelast (a :: b :: l)) with (a :: removelast (b :: l)).
  rewrite IH. simpl. by rewrite Nat.sub_0_r.
Qed.

Lemma last_lookup_pred {A} (l : list A) : last l = l !! (length l - 1).
Proof.
  induction l as [|a l IH]; [done|].
  destruct l as [|b l]; [done|].
  change (last (a :: b :: l)) with (last (b :: l)). rewrite IH.
  simpl. by rewrite Nat.sub_0_r.
Qed.

(** The layout of a dashboard whose members are all the slices but the
    last, when the layout has one slot per member. *)
Lemma dashboard_layout_members ds cs t (layout : list dict) :
  S (length layout) = length cs →
  let slices := (slices_after ds cs t).2 in
  let slots := list_items (json_dumps_list (filled_layout layout slices)) in
  let members := Slice.id <$> removelast slices in
  length slots = length members ∧
  length members = length layout ∧
  (∀ id, id ∈ members → length (filter (λ slot, slot_names id slot = true) slots) = 1) ∧
  (∀ s, last slices = Some s →
        (Slice.id s ∉ members) ∧
        length (filter (λ slot, slot_names (Slice.id s) slot = true) slots) = 0).
Proof.
  intros Hlen slices slots members.
  assert (Hsl : length slices = length cs) by apply slices_after_length.
  assert (Hids : Slice.id <$> slices = Some <$> seq (next_id t) (length cs))
    by apply slices_after_ids.
  assert (Hsome : Forall (λ s, is_Some (Slice.id s)) slices).
  { apply Forall_forall. intros s Hs.
    assert (Hin : Slice.id s ∈ Slice.id <$> slices).
    { by apply list_elem_of_fmap_2. }
    rewrite Hids in Hin. apply list_elem_of_fmap in Hin as (n & -> & _). by eexists. }
  assert (Hnd : NoDup (Slice.id <$> slices)).
  { rewrite Hids. apply (NoDup_fmap_2 _). apply NoDup_seq. }
  assert (Hmem : members = Slice.id <$> take (length layout) slices).
  { unfold members. rewrite removelast_take. do 2 f_equal. lia. }
  assert (Hcount : ∀ id,
            length (filter (λ slot, slot_names id slot = true) slots)
            = length (filter (λ i, i = id) members)).
  { intros id. unfold slots. rewrite filter_slot_names_filled by done.
    rewrite Hmem.
    apply (filter_fmap_length Slice.id (λ i, i = id)). }
  assert (Hndm : NoDup members).
  { rewrite Hmem, fmap_take. eapply sublist_NoDup; [done|apply sublist_take]. }
  split; [|split; [|split]].
  - unfold slots, json_dumps_list, filled_layout. cbn [list_items].
    rewrite length_fmap, length_zip_with, Hmem, length_fmap, length_take. lia.
  - rewrite Hmem, length_fmap, length_take. lia.
  - intros id Hin. rewrite Hcount. by apply filter_eq_NoDup.
  - intros s Hlast.
    assert (Hnot : Slice.id s ∉ members).
    { rewrite last_lookup_pred in Hlast.
      rewrite Hmem, fmap_take. intros Hin.
      apply list_elem_of_lookup in Hin as [i Hi].
      apply lookup_take_Some in Hi as [Hi Hlt].
      assert (Hl : (Slice.id <$> slices) !! (length slices - 1) = Some (Slice.id s))
        by by rewrite list_lookup_fmap, Hlast.
      pose proof (NoDup_lookup _ _ _ _ Hnd Hi Hl). lia. }
    split; [done|].
    rewrite Hcount, filter_none; [done|]. intros i Hi ->. done.
Qed.

(** ** Dashboards *)

Lemma dashboard_record_added key title slug position members (t : table Dash.t) :
  let d := (table_add (dashboard_record key title slug position members t) t).2 in
  d ∈ rows (table_add (dashboard_record key title slug position members t) t).1 ∧
  Dash.dashboard_title d = Some title ∧
  Dash.slug d = Some slug ∧
  Dash.position_json d = Some position ∧
  Dash.slices d = members.
Proof.
  split.
  - apply (table_add_upsert_elem key (Dash.mk None None None None [])
             (λ d, Dash.set_slices members
                     (Dash.set_slug slug
                        (Dash.set_position_json position
                           (Dash.set_dashboard_title title d))))); done.
  - unfold table_add. by destruct (model_id _).
Qed.

Lemma stored_names ds cs t names :
  call_name <$> cs = names →
  Slice.slice_name <$> (slices_after ds cs t).2 = (λ n, stored_name n ds) <$> names.
Proof.
  intros <-. rewrite slices_after_names, <- list_fmap_compose. done.
Qed.

(** What the two loaders with a layout literal and [slices[:-1]] produce. *)
Lemma layout_loader_run (l : loader) es e st :
  l = WorldBank ∨ l = BirthNames →
  quiet e → ready l es e →
  ∃ st' ds slices d s,
    run_loader l es e st = (st', inr (Loaded (Some ds) slices (Some d) [])) ∧
    d ∈ rows (Dash_table st') ∧
    Dash.slug d = Some (if decide (l = WorldBank) then "world_health" else "births") ∧
    Dash.slices d = Slice.id <$> removelast slices ∧
    Slice.slice_name <$> slices
    = (λ n, stored_name n ds) <$>
        (if decide (l = WorldBank) then world_bank_slice_names
         else birth_names_slice_names) ∧
    last slices = Some s ∧
    Slice.slice_name s = stored_name (last_slice_name l) ds ∧
    length (slots_of d) = length (Dash.slices d) ∧
    S (length (Dash.slices d)) = length slices ∧
    (∀ id, id ∈ Dash.slices d →
           length (filter (λ slot, slot_names id slot = true) (slots_of d)) = 1) ∧
    (Slice.id s ∉ Dash.slices d) ∧
    length (filter (λ slot, slot_names (Slice.id s) slot = true) (slots_of d)) = 0.
Proof.
  intros Hl Hq Hready.
  assert (Hmain : ∃ st0 ds cs (layout : list dict) key title slug,
    S (length layout) = length cs ∧
    call_name <$> cs = (if decide (l = WorldBank) then world_bank_slice_names
                        else birth_names_slice_names) ∧
    slug = (if decide (l = WorldBank) then "world_health" else "births") ∧
    let slices := (slices_after ds cs (Slice_table st0)).2 in
    let dash :=
      dashboard_record key title slug
        (json_dumps_list (filled_layout layout slices))
        (Slice.id <$> removelast slices) (Dash_table st0) in
    run_loader l es e st
    = (with_dash dash (with_slices ds cs st0),
       inr (Loaded (Some ds) slices (Some (table_add dash (Dash_table st0)).2) []))).
  { destruct Hl as [-> | ->]; simpl in Hready.
    - destruct Hready as [[description Hfile] Himp].
      destruct (import_ready_imported e "countries.json.gz" "wb_health_population"
                  description
                  (list_to_map [("year", DateTime); ("country_code", String_ 3);
                                ("country_name", String_ 255); ("region", String_ 255)])
                  es st Himp) as (st0 & ds & Hi).
      apply import_data_quiet in Hi; [|done].
      destruct (load_world_bank_quiet es e st st0 ds description Hq Hfile Hi)
        as (cs & Hnames & Hrun).
      eexists st0, ds, cs, world_bank_layout, _, _, _.
      split; [|split; [exact Hnames|split; [reflexivity|exact Hrun]]].
      apply (f_equal length) in Hnames. rewrite length_fmap in Hnames.
      by rewrite Hnames.
    - destruct (import_ready_imported e "birth_names.json.gz" "birth_names" ""
                  (list_to_map [("ds", DateTime); ("gender", String_ 16);
                                ("state", String_ 10); ("name", String_ 255)])
                  es st Hready) as (st0 & ds & Hi).
      apply import_data_quiet in Hi; [|done].
      destruct (load_birth_names_quiet es e st st0 ds Hq Hi) as (cs & Hnames & Hrun).
      eexists st0, ds, cs, birth_names_layout, _, _, _.
      split; [|split; [exact Hnames|split; [reflexivity|exact Hrun]]].
      apply (f_equal length) in Hnames. rewrite length_fmap in Hnames.
      by rewrite Hnames. }
  destruct Hmain as (st0 & ds & cs & layout & key & title & slug & Hlen & Hnames
                     & Hslug & Hrun).
  cbv zeta in Hrun.
  set (slices := (slices_after ds cs (Slice_table st0)).2) in *.
  set (dash := dashboard_record key title slug
                 (json_dumps_list (filled_layout layout slices))
                 (Slice.id <$> removelast slices) (Dash_table st0)) in *.
  destruct (dashboard_record_added key title slug
              (json_dumps_list (filled_layout layout slices))
              (Slice.id <$> removelast slices) (Dash_table st0))
    as (Hin & Htitle & Hsl & Hpos & Hmem).
  fold dash in Hin, Htitle, Hsl, Hpos, Hmem.
  destruct (dashboard_layout_members ds cs (Slice_table st0) layout Hlen)
    as (Hlen1 & Hlen2 & Hone & Hlast).
  fold slices in Hlen1, Hlen2, Hone, Hlast.
  assert (Hsl_len : length slices = length cs) by apply slices_after_length.
  assert (Hstored : Slice.slice_name <$> slices
                    = (λ n, stored_name n ds) <$>
                        (if decide (l = WorldBank) then world_bank_slice_names
                         else birth_names_slice_names)).
  { by apply stored_names. }
  destruct (last slices) as [s|] eqn:Hs.
  2:{ apply last_None in Hs. rewrite Hs in Hsl_len. simpl in Hsl_len. lia. }
  exists (with_dash dash (with_slices ds cs st0)), ds, slices,
    (table_add dash (Dash_table st0)).2, s.
  assert (Hslots : slots_of (table_add dash (Dash_table st0)).2
                   = list_items (json_dumps_list (filled_layout layout slices))).
  { unfold slots_of. by rewrite Hpos. }
  rewrite Hslots, Hmem.
  split; [exact Hrun|]. split; [exact Hin|]. split; [by rewrite Hsl, Hslug|].
  split; [done|]. split; [done|]. split; [done|]. split.
  { assert (Hn : last (Slice.slice_name <$> slices) = Some (Slice.slice_name s)).
    { by rewrite fmap_last, Hs. }
    rewrite Hstored in Hn.
    destruct Hl as [-> | ->]; simpl in Hn; unfold last_slice_name; congruence. }
  split; [done|]. split; [lia|]. split; [done|].
  by apply Hlast.
Qed.

Lemma ready_sample_env l : ready l None sample_env.
Proof.
  destruct l; simpl; unfold import_ready;
    first [ done
          | split; [by eexists|]; eexists _, _; split; reflexivity
          | eexists _, _; split; reflexivity
          | eexists; reflexivity ].
Qed.

Lemma ready_sample_env_cluster l : ready l (Some sample_cluster) sample_env.
Proof.
  destruct l; simpl; unfold import_ready;
    first [ done
          | split; [by eexists|]; eexists; reflexivity
          | eexists; reflexivity ].
Qed.

(** C1, as the code has it: the loader creates ten slices, and its
    dashboard, persisted with slug "births", has the first nine of them;
    the tenth, "Number of Girls", is not a member. *)
Theorem birth_names_dashboard es_cluster e st :
  quiet e →
  ready BirthNames es_cluster e →
  ∃ st' ds slices d s,
    load_birth_names es_cluster e st
    = (st', inr (Loaded (Some ds) slices (Some d) [])) ∧
    d ∈ rows (Dash_table st') ∧
    Dash.slug d = Some "births" ∧
    Slice.slice_name <$> slices
    = (λ n, stored_name n ds) <$> birth_names_slice_names ∧
    length slices = 10 ∧
    Dash.slices d = Slice.id <$> take 9 slices ∧
    length (Dash.slices d) = 9 ∧
    slices !! 9 = Some s ∧
    Slice.slice_name s = stored_name "Number of Girls" ds ∧
    Slice.id s ∉ Dash.slices d.
Proof.
  intros Hq Hready.
  destruct (layout_loader_run BirthNames es_cluster e st (or_intror eq_refl) Hq Hready)
    as (st' & ds & slices & d & s & Hrun & Hin & Hslug & Hmem & Hnames & Hlast
        & Hname & _ & Hlen & _ & Hout & _).
  assert (Hl : length slices = 10).
  { apply (f_equal length) in Hnames. by rewrite !length_fmap in Hnames. }
  exists st', ds, slices, d, s.
  split; [exact Hrun|]. split; [done|]. split; [done|]. split; [done|].
  split; [done|]. split.
  { rewrite Hmem, removelast_take, Hl. done. }
  split; [lia|]. split.
  { by rewrite last_lookup_pred, Hl in Hlast. }
  done.
Qed.

Lemma birth_names_dashboard_witness :
  ∃ st' ds slices d,
    load_birth_names None sample_env empty_storage
    = (st', inr (Loaded (Some ds) slices (Some d) [])) ∧
    Dash.slug d = Some "births" ∧
    length slices = 10 ∧
    length (Dash.slices d) = 9.
Proof.
  destruct (birth_names_dashboard None sample_env empty_storage)
    as (st' & ds & slices & d & s & Hrun & _ & Hslug & _ & Hl & _ & Hm & _).
  - intros n o. reflexivity.
  - cbn [ready]. unfold import_ready. eexists _, _. split; vm_compute; reflexivity.
  - exists st', ds, slices, d. exact (conj Hrun (conj Hslug (conj Hl Hm))).
Defined.

(** The claim C1 as it is stated fails: the loader creates ten slices, not
    nine. *)
Lemma birth_names_dashboard_counterexample :
  ¬ births_has_eight_of_nine sample_env empty_storage.
Proof.
  intros (st' & h & d & Hrun & _ & _ & H9 & _).
  apply (f_equal (λ r, match r.2 with inr h => length (ld_slices h) | inl _ => 0 end))
    in Hrun.
  cbn [snd] in Hrun. rewrite H9 in Hrun. vm_compute in Hrun. discriminate.
Qed.

(** C7, as the code has it: in the two loaders whose dashboard takes
    [slices[:-1]], the last slice is not a member of the dashboard and no
    slot of the layout names it; the layout has one slot per member, each
    member named by exactly one slot. *)
Theorem last_slice_left_out (l : loader) es_cluster e st :
  l = WorldBank ∨ l = BirthNames →
  quiet e →
  ready l es_cluster e →
  ∃ st' ds slices d s,
    run_loader l es_cluster e st = (st', inr (Loaded (Some ds) slices (Some d) [])) ∧
    d ∈ rows (Dash_table st') ∧
    last slices = Some s ∧
    Slice.slice_name s = stored_name (last_slice_name l) ds ∧
    Dash.slices d = Slice.id <$> removelast slices ∧
    (Slice.id s ∉ Dash.slices d) ∧
    existsb (slot_names (Slice.id s)) (slots_of d) = false ∧
    length (slots_of d) = length (Dash.slices d) ∧
    S (length (Dash.slices d)) = length slices ∧
    ∀ id, id ∈ Dash.slices d →
          length (filter (λ slot, slot_names id slot = true) (slots_of d)) = 1.
Proof.
  intros Hl Hq Hready.
  destruct (layout_loader_run l es_cluster e st Hl Hq Hready)
    as (st' & ds & slices & d & s & Hrun & Hin & _ & Hmem & _ & Hlast
        & Hname & Hslots & Hlen & Hone & Hout & Hnone).
  exists st', ds, slices, d, s.
  split; [exact Hrun|]. do 5 (split; [done|]).
  split; [|done].
  destruct (existsb _ _) eqn:Hex; [|done].
  apply existsb_exists in Hex as (slot & Hslot & Hn).
  apply length_zero_iff_nil in Hnone.
  assert (Hf : slot ∈ filter (λ slot, slot_names (Slice.id s) slot = true) (slots_of d)).
  { apply list_elem_of_filter. split; [done|]. by apply list_elem_of_In. }
  rewrite Hnone in Hf. by apply elem_of_nil in Hf.
Qed.

Lemma last_slice_left_out_witness :
  ∃ st' ds slices d s,
    run_loader WorldBank None sample_env empty_storage
    = (st', inr (Loaded (Some ds) slices (Some d) [])) ∧
    last slices = Some s ∧
    Slice.slice_name s = stored_name "Parallel Coordinates" ds ∧
    existsb (slot_names (Slice.id s)) (slots_of d) = false.
Proof.
  destruct (last_slice_left_out WorldBank None sample_env empty_storage)
    as (st' & ds & slices & d & s & Hrun & _ & Hlast & Hname & _ & _ & Hex & _).
  - left. reflexivity.
  - intros n o. reflexivity.
  - cbn [ready]. split; [eexists; reflexivity|]. unfold import_ready.
    eexists _, _. split; vm_compute; reflexivity.
  - exists st', ds, slices, d, s.
    exact (conj Hrun (conj Hlast (conj Hname Hex))).
Defined.

(** The claim C7 as it is stated fails in both loaders: no slot of the
    layout names the last slice. *)
Lemma last_slice_left_out_counterexample :
  ¬ placed_but_left_out WorldBank sample_env empty_storage ∧
  ¬ placed_but_left_out BirthNames sample_env empty_storage.
Proof.
  pose (placed := λ r : storage * (failure + loaded),
          match r.2 with
          | inr h =>
              match ld_dash h, last (ld_slices h) with
              | Some d, Some s => existsb (slot_names (Slice.id s)) (slots_of d)
              | _, _ => false
              end
          | inl _ => false
          end).
  split.
  - intros (st' & h & d & s & Hrun & Hd & Hlast & _ & Hex).
    assert (Hf : placed (run_loader WorldBank None sample_env empty_storage) = false).
    { vm_compute. reflexivity. }
    rewrite Hrun in Hf. unfold placed in Hf. cbn [snd] in Hf.
    rewrite Hd, Hlast, Hex in Hf. discriminate.
  - intros (st' & h & d & s & Hrun & Hd & Hlast & _ & Hex).
    assert (Hf : placed (run_loader BirthNames None sample_env empty_storage) = false).
    { vm_compute. reflexivity. }
    rewrite Hrun in Hf. unfold placed in Hf. cbn [snd] in Hf.
    rewrite Hd, Hlast, Hex in Hf. discriminate.
Qed.

(** ** Tables with a key *)

Lemma NoDup_fmap_eq {A B} (f : A → B) (l : list A) x y :
  NoDup (f <$> l) → x ∈ l → y ∈ l → f x = f y → x = y.
Proof.
  intros Hnd Hx Hy Hf.
  apply list_elem_of_lookup in Hx as [i Hi].
  apply list_elem_of_lookup in Hy as [j Hj].
  assert (Hi' : (f <$> l) !! i = Some (f x)) by by rewrite list_lookup_fmap, Hi.
  assert (Hj' : (f <$> l) !! j = Some (f x)) by by rewrite list_lookup_fmap, Hj, Hf.
  pose proof (NoDup_lookup _ _ _ _ Hnd Hi' Hj') as ->. congruence.
Qed.

Lemma only_one_NoDup {R K} (key : R → K) (x : R) (l : list R) :
  NoDup (key <$> l) → x ∈ l → only_one key x l.
Proof.
  intros Hnd Hx. split; [done|]. intros y Hy Hk.
  by apply (NoDup_fmap_eq key l).
Qed.

Section tables.
Context {R : Type} `{Model R} {K : Type} (key : R → K).
Hypothesis id_set_id : ∀ i r, model_id (model_set_id i r) = i.
Hypothesis key_set_id : ∀ i r, key (model_set_id i r) = key r.

Lemma replace_row_fmap {B} (f : R → B) (r x : R) (l : list R) :
  NoDup (model_id <$> l) → x ∈ l → model_id r = model_id x → f r = f x →
  f <$> replace_row r l = f <$> l.
Proof using Type.
  intros Hnd Hx Hid Hf. unfold replace_row. rewrite <- list_fmap_compose.
  apply list_fmap_ext. intros i y Hy. simpl.
  case_decide as Hd; [|done].
  assert (y = x) as ->; [|done].
  apply (NoDup_fmap_eq model_id l); [done| |done|congruence].
  by eapply list_elem_of_lookup_2.
Qed.

(** Updating the row of a record that is in the table, key unchanged. *)
Lemma table_add_update_ok (t : table R) (r x : R) :
  table_ok key t → x ∈ rows t → model_id r = model_id x → key r = key x →
  table_ok key (table_add r t).1.
Proof using Type.
  intros (Hk & Hnd & Hb) Hx Hid Hkey. unfold table_add.
  assert (Hsome : ∃ i, model_id r = Some i).
  { rewrite Forall_forall in Hb.
    destruct (Hb (model_id x)) as (i & Hi & _); [by apply list_elem_of_fmap_2|].
    exists i. congruence. }
  destruct Hsome as [i Hi]. rewrite Hi. cbn [fst rows next_id].
  unfold table_ok, ids_ok. cbn [rows next_id].
  rewrite (replace_row_fmap key r x), (replace_row_fmap model_id r x); done.
Qed.

(** Inserting a record whose key is not in the table. *)
Lemma table_add_insert_ok (t : table R) (r : R) :
  table_ok key t → model_id r = None → (∀ y, y ∈ rows t → key y ≠ key r) →
  table_ok key (table_add r t).1.
Proof using id_set_id key_set_id.
  intros (Hk & Hnd & Hb) Hid Hfresh. unfold table_add. rewrite Hid.
  cbn [fst]. unfold table_ok, ids_ok. cbn [rows next_id].
  rewrite !fmap_app. cbn [fmap list_fmap]. rewrite id_set_id, key_set_id.
  rewrite Forall_forall in Hb.
  split; [|split].
  - apply NoDup_app. split; [done|]. split; [|apply NoDup_singleton].
    intros k Hin ->%list_elem_of_singleton.
    apply list_elem_of_fmap in Hin as (y & Hy & Hin). by apply (Hfresh y).
  - apply NoDup_app. split; [done|]. split; [|apply NoDup_singleton].
    intros o Hin ->%list_elem_of_singleton.
    destruct (Hb _ Hin) as (i & [= <-] & Hlt). lia.
  - apply Forall_app. split.
    + apply Forall_forall. intros o Hin.
      destruct (Hb _ Hin) as (i & -> & Hlt). exists i. split; [done|lia].
    + apply Forall_singleton. exists (next_id t). split; [done|lia].
Qed.

Lemma table_delete_ok (t : table R) (o : R) :
  table_ok key t → table_ok key (table_delete o t).
Proof using Type.
  intros (Hk & Hnd & Hb). unfold table_delete, table_ok, ids_ok. cbn [rows next_id].
  assert (Hsub : ∀ {B} (f : R → B),
            f <$> filter (λ x, model_id x ≠ model_id o) (rows t)
            `sublist_of` f <$> rows t).
  { intros B f. apply fmap_sublist, sublist_filter. }
  split; [|split].
  - eapply sublist_NoDup; [exact Hk|apply Hsub].
  - eapply sublist_NoDup; [exact Hnd|apply Hsub].
  - rewrite Forall_forall in Hb. apply Forall_forall. intros i Hi. apply Hb.
    apply list_elem_of_fmap in Hi as (y & -> & Hy).
    apply list_elem_of_filter in Hy as [_ Hy]. by apply list_elem_of_fmap_2.
Qed.

(** The record handed to the session for an upsert by [p]: the first row
    that satisfies [p], or a new record, modified by [f]. *)
Lemma table_add_upsert_ok (p : R → bool) (new : R) (f : R → R) (t : table R) :
  table_ok key t →
  (∀ x, model_id (f x) = model_id x) →
  model_id new = None →
  (∀ x, x ∈ rows t → p x = true → key (f x) = key x) →
  (find p (rows t) = None → ∀ y, y ∈ rows t → key y ≠ key (f new)) →
  table_ok key (table_add (f (default new (find p (rows t)))) t).1.
Proof using id_set_id key_set_id.
  intros Hok Hf Hnew Hfound Hfresh.
  destruct (find p (rows t)) as [x|] eqn:Hfind; cbn [default].
  - apply find_some in Hfind as [Hin Hp]. apply list_elem_of_In in Hin.
    apply (table_add_update_ok t (f x) x); auto.
  - apply table_add_insert_ok; [done|by rewrite Hf|auto].
Qed.

Lemma upsert_only_one (p : R → bool) (new : R) (f : R → R) (t : table R) :
  table_ok key t →
  (∀ x, model_id (f x) = model_id x) →
  model_id new = None →
  (∀ x, x ∈ rows t → p x = true → key (f x) = key x) →
  (find p (rows t) = None → ∀ y, y ∈ rows t → key y ≠ key (f new)) →
  let r := f (default new (find p (rows t))) in
  table_ok key (table_add r t).1 ∧
  only_one key (table_add r t).2 (rows (table_add r t).1).
Proof using id_set_id key_set_id.
  intros Hok Hf Hnew Hfound Hfresh r.
  assert (Hok' : table_ok key (table_add r t).1) by by apply table_add_upsert_ok.
  split; [done|]. apply only_one_NoDup; [apply Hok'|].
  by apply table_add_upsert_elem.
Qed.
End tables.

(** ** The slice table *)

Lemma filter_ext_in {A} (P Q : A → Prop) `{∀ x, Decision (P x)} `{∀ x, Decision (Q x)}
    (l : list A) :
  (∀ x, x ∈ l → (P x ↔ Q x)) → filter P l = filter Q l.
Proof.
  induction l as [|a l IH]; intros Hl; [done|].
  rewrite !filter_cons.
  assert (Ha : P a ↔ Q a) by (apply Hl; left).
  rewrite IH by (intros x Hx; apply Hl; by right).
  do 2 case_decide; tauto.
Qed.

Lemma filter_all {A} (P : A → Prop) `{∀ x, Decision (P x)} (l : list A) :
  (∀ x, x ∈ l → P x) → filter P l = l.
Proof.
  induction l as [|a l IH]; intros Hl; [done|].
  rewrite filter_cons_True by (apply Hl; left).
  f_equal. apply IH. intros x Hx. apply Hl. by right.
Qed.

Lemma without_first_rows name (t : table Slice.t) :
  table_ok Slice.slice_name t →
  rows (without_first name t) = filter (λ s, Slice.slice_name s ≠ name) (rows t).
Proof.
  intros (Hk & Hnd & _). unfold without_first.
  destruct (find _ _) as [o|] eqn:Hfind.
  - apply find_some in Hfind as [Hin Hp]. apply list_elem_of_In in Hin.
    apply bool_decide_eq_true in Hp. unfold table_delete. cbn [rows].
    apply filter_ext_in. intros x Hx. cbn [model_id Slice_model].
    split.
    + intros Hid Hname. apply Hid. f_equal.
      apply (NoDup_fmap_eq Slice.slice_name (rows t)); [done..|congruence].
    + intros Hname Hid. apply Hname. rewrite <- Hp. f_equal.
      by apply (NoDup_fmap_eq Slice.id (rows t)).
  - symmetry. apply filter_all. intros x Hx.
    apply list_elem_of_In in Hx.
    pose proof (find_none _ _ Hfind x Hx) as Hp. simpl in Hp.
    by apply bool_decide_eq_false in Hp.
Qed.

Lemma without_first_ok name (t : table Slice.t) :
  table_ok Slice.slice_name t → table_ok Slice.slice_name (without_first name t).
Proof.
  intros Hok. unfold without_first. destruct (find _ _); [|done].
  by apply table_delete_ok.
Qed.

Lemma slice_step_ok ds c (t : table Slice.t) :
  table_ok Slice.slice_name t → table_ok Slice.slice_name (slice_step ds c t).1.
Proof.
  intros Hok. unfold slice_step.
  apply table_add_insert_ok; [done|done|by apply without_first_ok|done|].
  intros y Hy. rewrite without_first_rows in Hy by done.
  by apply list_elem_of_filter in Hy as [Hy _].
Qed.

Lemma slice_step_rows ds c (t : table Slice.t) :
  table_ok Slice.slice_name t →
  rows (slice_step ds c t).1
  = filter (λ s, Slice.slice_name s ≠ stored_name (call_name c) ds) (rows t)
    ++ [(slice_step ds c t).2].
Proof.
  intros Hok. unfold slice_step, table_add. cbn [model_id Slice_model Slice.id new_slice].
  cbn [fst snd rows]. by rewrite without_first_rows.
Qed.

Lemma slices_after_ok ds cs (t : table Slice.t) :
  table_ok Slice.slice_name t → table_ok Slice.slice_name (slices_after ds cs t).1.
Proof.
  revert t. induction cs as [|c cs IH]; intros t Hok; cbn [slices_after fst snd];
    [done|].
  by apply IH, slice_step_ok.
Qed.

Lemma slices_after_rows ds cs (t : table Slice.t) :
  table_ok Slice.slice_name t →
  NoDup ((λ c, stored_name (call_name c) ds) <$> cs) →
  rows (slices_after ds cs t).1
  = filter (λ s, Slice.slice_name s ∉ (λ c, stored_name (call_name c) ds) <$> cs)
      (rows t)
    ++ (slices_after ds cs t).2.
Proof.
  revert t. induction cs as [|c cs IH]; intros t Hok Hnd; cbn [slices_after fst snd].
  - rewrite app_nil_r. symmetry. apply filter_all. intros x _. apply not_elem_of_nil.
  - rewrite fmap_cons in Hnd. apply NoDup_cons in Hnd as [Hc Hnd].
    rewrite IH by (try apply slice_step_ok; done).
    rewrite slice_step_rows by done.
    rewrite filter_app, list_filter_filter.
    rewrite filter_cons_True, filter_nil.
    2:{ by rewrite slice_step_slice. }
    rewrite <- app_assoc. cbn [app]. f_equal.
    apply list_filter_iff. intros x. rewrite fmap_cons, not_elem_of_cons. tauto.
Qed.

Lemma slices_after_only_one ds cs (t : table Slice.t) :
  table_ok Slice.slice_name t →
  NoDup ((λ c, stored_name (call_name c) ds) <$> cs) →
  Forall (λ s, only_one Slice.slice_name s (rows (slices_after ds cs t).1))
    (slices_after ds cs t).2.
Proof.
  intros Hok Hnd. apply Forall_forall. intros s Hs.
  apply only_one_NoDup; [by apply slices_after_ok|].
  rewrite slices_after_rows by done. apply elem_of_app. by right.
Qed.

Lemma stored_name_cases ds :
  (∀ n, stored_name n ds = n) ∨ (∀ n, stored_name n ds = n +:+ " (ES)").
Proof.
  unfold stored_name. destruct (decide (datasource_type_of ds = "elasticsearch")).
  - right. done.
  - left. done.
Qed.

(** ** Upserts *)

Lemma find_none_elem {A} (p : A → bool) (l : list A) x :
  find p l = None → x ∈ l → p x = false.
Proof. intros Hf Hx. apply (find_none _ _ Hf). by apply list_elem_of_In. Qed.

Lemma db_record_ok e (t : table DB.t) :
  table_ok DB.database_name t →
  let d := (table_add (db_record e t) t).2 in
  table_ok DB.database_name (table_add (db_record e t) t).1 ∧
  only_one DB.database_name d (rows (table_add (db_record e t) t).1) ∧
  DB.database_name d = "main" ∧
  DB.sqlalchemy_uri d = SQLALCHEMY_DATABASE_URI e.
Proof.
  intros Hok d.
  destruct (upsert_only_one DB.database_name ltac:(done) ltac:(done)
              (λ d, bool_decide (DB.database_name d = "main"))
              (DB.mk None "main" JNull)
              (DB.set_sqlalchemy_uri (SQLALCHEMY_DATABASE_URI e)) t Hok)
    as [Hok' Hone]; try done.
  { intros Hnone y Hy. pose proof (find_none_elem _ _ _ Hnone Hy) as Hp.
    by apply bool_decide_eq_false in Hp. }
  split; [exact Hok'|]. split; [exact Hone|].
  subst d. unfold db_record, table_add.
  destruct (find _ (rows t)) as [x|] eqn:Hfind; cbn [default].
  - apply find_some in Hfind as [_ Hp]. apply bool_decide_eq_true in Hp.
    by destruct (model_id _).
  - done.
Qed.

Lemma TBL_upsert_ok name (f : TBL.t → TBL.t) (t : table TBL.t) :
  table_ok TBL.table_name t →
  (∀ x, TBL.id (f x) = TBL.id x) →
  (∀ x, TBL.table_name (f x) = TBL.table_name x) →
  let r := f (default (TBL.mk None name None None None None)
                (find (λ t, bool_decide (TBL.table_name t = name)) (rows t))) in
  table_ok TBL.table_name (table_add r t).1 ∧
  only_one TBL.table_name (table_add r t).2 (rows (table_add r t).1).
Proof.
  intros Hok Hid Hname.
  apply (upsert_only_one TBL.table_name ltac:(done) ltac:(done)
           (λ t, bool_decide (TBL.table_name t = name))); try done.
  intros Hnone y Hy. pose proof (find_none_elem _ _ _ Hnone Hy) as Hp.
  apply bool_decide_eq_false in Hp. by rewrite Hname.
Qed.

Lemma table_record_ok table_name description (t : table TBL.t) database :
  table_ok TBL.table_name t →
  let r := table_record table_name description t database in
  table_ok TBL.table_name (table_add r t).1 ∧
  only_one TBL.table_name (table_add r t).2 (rows (table_add r t).1) ∧
  TBL.database (table_add r t).2 = database.
Proof.
  intros Hok r.
  destruct (TBL_upsert_ok table_name
              (λ ds,
                 TBL.set_description description
                   (TBL.set_database database
                      (let ds := TBL.set_is_featured true ds in
                       if decide (table_name = "birth_names")
                       then TBL.set_main_dttm_col "ds" ds
                       else if decide (table_name = "wb_health_population")
                       then TBL.set_main_dttm_col "year" ds
                       else if decide (table_name = "random_time_series")
                       then TBL.set_is_featured false (TBL.set_main_dttm_col "ds" ds)
                       else ds))) t Hok) as [Hok' Hone].
  { intros x. cbv zeta. by repeat case_decide. }
  { intros x. cbv zeta. by repeat case_decide. }
  split; [exact Hok'|]. split; [exact Hone|].
  subst r. unfold table_add. by destruct (model_id _).
Qed.

Lemma unicode_table_record_ok (t : table TBL.t) database :
  table_ok TBL.table_name t →
  let r := unicode_table_record t database in
  table_ok TBL.table_name (table_add r t).1 ∧
  only_one TBL.table_name (table_add r t).2 (rows (table_add r t).1) ∧
  TBL.database (table_add r t).2 = database.
Proof.
  intros Hok r.
  destruct (TBL_upsert_ok "unicode_test"
              (λ obj, TBL.set_is_featured false
                        (TBL.set_database database
                           (TBL.set_main_dttm_col "date" obj))) t Hok)
    as [Hok' Hone]; [done..|].
  split; [exact Hok'|]. split; [exact Hone|].
  subst r. unfold table_add. by destruct (model_id _).
Qed.

Lemma datasource_record_ok table_name description cluster
    (t : table ElasticsearchDatasource.t) :
  table_ok ElasticsearchDatasource.datasource_name t →
  let r := datasource_record table_name description cluster t in
  table_ok ElasticsearchDatasource.datasource_name (table_add r t).1 ∧
  only_one ElasticsearchDatasource.datasource_name (table_add r t).2
    (rows (table_add r t).1).
Proof.
  intros Hok.
  apply (upsert_only_one ElasticsearchDatasource.datasource_name
           ltac:(done) ltac:(done)
           (λ d, bool_decide
                   (ElasticsearchDatasource.datasource_name d
                    = "example-" +:+ table_name))
           (ElasticsearchDatasource.mk None ("example-" +:+ table_name)
              None None None None None)
           (λ ds,
              ElasticsearchDatasource.set_is_featured true
                (ElasticsearchDatasource.set_description description
                   (ElasticsearchDatasource.set_index_name ("example-" +:+ table_name)
                      (ElasticsearchDatasource.set_cluster cluster
                         (if decide (table_name = "birth_names")
                          then ElasticsearchDatasource.set_main_dttm_col "ds" ds
                          else if decide (table_name = "wb_health_population")
                          then ElasticsearchDatasource.set_main_dttm_col "year" ds
                          else ds)))))); try done.
  - intros x. by repeat case_decide.
  - intros x _ _. by repeat case_decide.
  - intros Hnone y Hy. pose proof (find_none_elem _ _ _ Hnone Hy) as Hp.
    apply bool_decide_eq_false in Hp. by repeat case_decide.
Qed.

Lemma css_record_ok name css (t : table CSS.t) :
  table_ok CSS.template_name t →
  let r := css_record name css t in
  table_ok CSS.template_name (table_add r t).1 ∧
  only_one CSS.template_name (table_add r t).2 (rows (table_add r t).1).
Proof.
  intros Hok.
  apply (upsert_only_one CSS.template_name ltac:(done) ltac:(done)
           (λ c, bool_decide (CSS.template_name c = name))
           (CSS.mk None name None) (CSS.set_css css)); try done.
  intros Hnone y Hy. pose proof (find_none_elem _ _ _ Hnone Hy) as Hp.
  by apply bool_decide_eq_false in Hp.
Qed.


(** ** Dashboards with a title and a slug *)

Lemma dash_pair_paired T S (d : Dash.t) :
  (T, S) ∈ dash_pairs →
  Dash.dashboard_title d = Some T → Dash.slug d = Some S → dash_paired d.
Proof.
  intros Hin Ht Hs t s Hin'. rewrite Ht, Hs.
  unfold dash_pairs in *.
  repeat (apply elem_of_cons in Hin as [[= -> ->]|Hin]);
    try (by apply elem_of_nil in Hin);
    repeat (apply elem_of_cons in Hin' as [[= -> ->]|Hin']);
    try (by apply elem_of_nil in Hin');
    split; intros [=]; done.
Qed.

Lemma table_add_Forall {R} `{Model R} (P : R → Prop) (r : R) (t : table R) :
  Forall P (rows t) → P r → (∀ i, P (model_set_id i r)) →
  Forall P (rows (table_add r t).1).
Proof.
  intros Hall Hr Hs. unfold table_add. destruct (model_id r); cbn [fst rows].
  - unfold replace_row. apply Forall_fmap. eapply Forall_impl; [exact Hall|].
    intros x Hx. simpl. by case_decide.
  - apply Forall_app. split; [done|]. by apply Forall_singleton.
Qed.

Lemma dashboard_record_ok (p : Dash.t → bool) T S position members
    (t : table Dash.t) :
  (T, S) ∈ dash_pairs →
  (∀ d, dash_paired d → (p d = true ↔ Dash.slug d = Some S)) →
  dashboards_ok t →
  let r := dashboard_record p T S position members t in
  dashboards_ok (table_add r t).1 ∧
  only_one Dash.slug (table_add r t).2 (rows (table_add r t).1) ∧
  only_one Dash.dashboard_title (table_add r t).2 (rows (table_add r t).1).
Proof.
  intros Hin Hp (Htitle & Hslug & Hpaired) r.
  rewrite Forall_forall in Hpaired.
  assert (Hfound : ∀ x, x ∈ rows t → p x = true →
            Dash.slug x = Some S ∧ Dash.dashboard_title x = Some T).
  { intros x Hx Hpx. pose proof (Hpaired x Hx) as Hx'.
    assert (Hs : Dash.slug x = Some S) by by apply Hp.
    split; [done|]. by apply (Hx' T S Hin). }
  assert (Hfresh : find p (rows t) = None → ∀ y, y ∈ rows t →
            Dash.slug y ≠ Some S ∧ Dash.dashboard_title y ≠ Some T).
  { intros Hnone y Hy. pose proof (find_none_elem _ _ _ Hnone Hy) as Hpy.
    pose proof (Hpaired y Hy) as Hy'.
    assert (Hs : Dash.slug y ≠ Some S).
    { intros Hs. apply Hp in Hs; [|done]. congruence. }
    split; [done|]. intros Ht. by apply (Hy' T S Hin) in Ht. }
  pose (f := λ d, Dash.set_slices members
                    (Dash.set_slug S
                       (Dash.set_position_json position
                          (Dash.set_dashboard_title T d)))).
  destruct (upsert_only_one Dash.slug ltac:(done) ltac:(done) p
              (Dash.mk None None None None []) f t Hslug) as [Hslug' Hone_slug];
    try done.
  { intros x Hx Hpx. symmetry. by apply Hfound. }
  { intros Hnone y Hy. by apply Hfresh. }
  destruct (upsert_only_one Dash.dashboard_title ltac:(done) ltac:(done) p
              (Dash.mk None None None None []) f t Htitle) as [Htitle' Hone_title];
    try done.
  { intros x Hx Hpx. symmetry. by apply Hfound. }
  { intros Hnone y Hy. by apply Hfresh. }
  split; [|done]. split; [exact Htitle'|]. split; [exact Hslug'|].
  apply table_add_Forall.
  - by apply Forall_forall.
  - by apply (dash_pair_paired T S).
  - intros i. by apply (dash_pair_paired T S).
Qed.

(** ** Consistency, stage by stage *)

Lemma imported_consistent e file table_name description dtype es_cluster st st0 ds :
  consistent st →
  imported e file table_name description dtype es_cluster st = Some (st0, ds) →
  consistent st0 ∧ datasource_persisted e ds st0.
Proof.
  intros (Hdb & Hcl & Htbl & Hds & Hsl & Hdash & Hcss). unfold imported.
  destruct es_cluster as [cluster|].
  - destruct (gzip_json_loads e file) as [f|data]; [done|].
    intros [= <- <-].
    destruct (datasource_record_ok table_name description
                (ElasticsearchCluster.id cluster) (datasource_table st) Hds)
      as [Hds' Hone].
    split; [|exact Hone].
    unfold consistent, imported_index. cbn [DB_table cluster_table TBL_table
      datasource_table Slice_table Dash_table CSS_table]. done.
  - destruct (pd_read_json e file) as [f|pdf]; [done|].
    destruct (coerce_dates e table_name (rename_columns pdf)) as [f|pdf']; [done|].
    intros [= <- <-].
    destruct (db_record_ok e (DB_table st) Hdb) as (Hdb' & Hdone & Hmain & Huri).
    destruct (table_record_ok table_name description (TBL_table st)
                (DB.id (table_add (db_record e (DB_table st)) (DB_table st)).2) Htbl)
      as (Htbl' & Hone & Hdbid).
    split.
    + unfold consistent, imported_table. cbn [DB_table cluster_table TBL_table
        datasource_table Slice_table Dash_table CSS_table]. done.
    + split; [exact Hone|]. eexists. split; [exact Hdone|]. done.
Qed.

Lemma unicode_imported_consistent e df st :
  consistent st →
  consistent (unicode_imported e df st) ∧
  datasource_persisted e
    (TableDs
       (table_add
          (unicode_table_record (TBL_table st)
             (DB.id (table_add (db_record e (DB_table st)) (DB_table st)).2))
          (TBL_table st)).2)
    (unicode_imported e df st).
Proof.
  intros (Hdb & Hcl & Htbl & Hds & Hsl & Hdash & Hcss).
  destruct (db_record_ok e (DB_table st) Hdb) as (Hdb' & Hdone & Hmain & Huri).
  destruct (unicode_table_record_ok (TBL_table st)
              (DB.id (table_add (db_record e (DB_table st)) (DB_table st)).2) Htbl)
    as (Htbl' & Hone & Hdbid).
  split.
  - unfold consistent, unicode_imported. cbn [DB_table cluster_table TBL_table
      datasource_table Slice_table Dash_table CSS_table]. done.
  - split; [exact Hone|]. eexists. split; [exact Hdone|]. done.
Qed.

Lemma with_slices_consistent ds cs st :
  consistent st →
  NoDup ((λ c, stored_name (call_name c) ds) <$> cs) →
  consistent (with_slices ds cs st) ∧
  Forall (λ s, only_one Slice.slice_name s (rows (Slice_table (with_slices ds cs st))))
    (slices_after ds cs (Slice_table st)).2.
Proof.
  intros (Hdb & Hcl & Htbl & Hds & Hsl & Hdash & Hcss) Hnd. split.
  - unfold consistent, with_slices. cbn [DB_table cluster_table TBL_table
      datasource_table Slice_table Dash_table CSS_table].
    repeat (split; [done|]). split; [|done]. by apply slices_after_ok.
  - by apply slices_after_only_one.
Qed.

Lemma with_dash_consistent (p : Dash.t → bool) T S position members st :
  (T, S) ∈ dash_pairs →
  (∀ d, dash_paired d → (p d = true ↔ Dash.slug d = Some S)) →
  consistent st →
  let r := dashboard_record p T S position members (Dash_table st) in
  consistent (with_dash r st) ∧
  only_one Dash.slug (table_add r (Dash_table st)).2
    (rows (Dash_table (with_dash r st))) ∧
  only_one Dash.dashboard_title (table_add r (Dash_table st)).2
    (rows (Dash_table (with_dash r st))).
Proof.
  intros Hin Hp (Hdb & Hcl & Htbl & Hds & Hsl & Hdash & Hcss) r.
  destruct (dashboard_record_ok p T S position members (Dash_table st) Hin Hp Hdash)
    as (Hdash' & Hone).
  split; [|exact Hone].
  unfold consistent, with_dash. cbn [DB_table cluster_table TBL_table
    datasource_table Slice_table Dash_table CSS_table]. done.
Qed.

Lemma with_css_consistent name css st :
  consistent st →
  let r := css_record name css (CSS_table st) in
  consistent (with_css r st) ∧
  only_one CSS.template_name (table_add r (CSS_table st)).2
    (rows (CSS_table (with_css r st))).
Proof.
  intros (Hdb & Hcl & Htbl & Hds & Hsl & Hdash & Hcss) r.
  destruct (css_record_ok name css (CSS_table st) Hcss) as [Hcss' Hone].
  split; [|exact Hone].
  unfold consistent, with_css. cbn [DB_table cluster_table TBL_table
    datasource_table Slice_table Dash_table CSS_table]. done.
Qed.

Lemma consistent_empty : consistent empty_storage.
Proof.
  unfold consistent, dashboards_ok, table_ok, ids_ok. simpl.
  repeat split; first [apply NoDup_nil_2 | apply Forall_nil_2].
Qed.

Lemma upsert_keeps {R} `{Model R} (p : R → bool) (new : R) (f : R → R)
    (t : table R) (x : R) :
  NoDup (model_id <$> rows t) →
  (∀ y, model_id (f y) = model_id y) →
  model_id new = None →
  x ∈ rows t → p x = false →
  x ∈ rows (table_add (f (default new (find p (rows t)))) t).1.
Proof.
  intros Hnd Hf Hnew Hx Hpx. unfold table_add.
  destruct (find p (rows t)) as [y|] eqn:Hfind; cbn [default from_option id].
  - apply find_some in Hfind as [Hy Hpy]. apply list_elem_of_In in Hy.
    destruct (model_id (f y)) as [i|] eqn:Hid; cbn [fst rows].
    + unfold replace_row. apply list_elem_of_fmap. exists x. split; [|done].
      rewrite decide_False; [done|]. intros Hxy.
      assert (x = y) as ->; [|congruence].
      apply (NoDup_fmap_eq model_id (rows t)); [done..|]. by rewrite Hxy, Hf.
    + apply elem_of_app. by left.
  - rewrite Hf, Hnew. cbn [fst rows]. apply elem_of_app. by left.
Qed.

Lemma stored_names_NoDup ds cs names :
  call_name <$> cs = names →
  NoDup names → NoDup ((λ n, n +:+ " (ES)") <$> names) →
  NoDup ((λ c, stored_name (call_name c) ds) <$> cs).
Proof.
  intros <- Hnd Hes.
  assert (Heq : (λ c, stored_name (call_name c) ds) <$> cs
                = (λ n, stored_name n ds) <$> (call_name <$> cs)).
  { by rewrite <- list_fmap_compose. }
  rewrite Heq.
  destruct (stored_name_cases ds) as [Hs|Hs].
  - erewrite list_fmap_ext; [|intros i n _; apply Hs]. by rewrite list_fmap_id.
  - erewrite list_fmap_ext; [|intros i n _; apply Hs]. done.
Qed.

Lemma names_NoDup :
  (NoDup energy_slice_names ∧ NoDup ((λ n, n +:+ " (ES)") <$> energy_slice_names)) ∧
  (NoDup world_bank_slice_names ∧
   NoDup ((λ n, n +:+ " (ES)") <$> world_bank_slice_names)) ∧
  (NoDup birth_names_slice_names ∧
   NoDup ((λ n, n +:+ " (ES)") <$> birth_names_slice_names)).
Proof. repeat split; apply (bool_decide_unpack _); vm_compute; exact I. Qed.

Lemma singleton_names_NoDup ds c :
  NoDup ((λ c, stored_name (call_name c) ds) <$> [c]).
Proof. apply NoDup_singleton. Qed.

(** ** One run of a loader on a consistent storage *)

Lemma imported_frame e file table_name description dtype es_cluster st st0 ds :
  imported e file table_name description dtype es_cluster st = Some (st0, ds) →
  Slice_table st0 = Slice_table st ∧
  datasource_type_of ds
  = match es_cluster with Some _ => "elasticsearch" | None => "table" end.
Proof.
  unfold imported. repeat case_match; try done; by intros [= <- <-].
Qed.

Lemma metric_overrides ds cs (t : table Slice.t) k v :
  Forall (λ c, call_params c !! k = Some v) cs →
  Forall (λ s, obj_get k (Slice.params s) = Some v) (slices_after ds cs t).2.
Proof.
  revert t. induction cs as [|c cs IH]; intros t Hm; cbn [slices_after fst snd].
  - apply Forall_nil_2.
  - apply Forall_cons in Hm as [Hc Hm]. apply Forall_cons. split; [|by apply IH].
    rewrite slice_step_slice. cbn [Slice.params Slice.set_id new_slice].
    rewrite obj_get_dumps_sorted. unfold slice_params.
    by apply lookup_union_Some_l.
Qed.

Lemma load_energy_consistent es e st :
  quiet e → ready Energy es e → consistent st →
  ∃ st' ds slices,
    load_energy es e st = (st', inr (Loaded (Some ds) slices None [])) ∧
    consistent st' ∧
    persisted e (Loaded (Some ds) slices None []) st' ∧
    datasource_type_of ds
    = match es with Some _ => "elasticsearch" | None => "table" end ∧
    Slice.slice_name <$> slices = (λ n, stored_name n ds) <$> energy_slice_names ∧
    Forall (λ s, obj_get "metric" (Slice.params s) = Some (JStr "sum__value")) slices ∧
    rows (Slice_table st')
    = filter (λ s, Slice.slice_name s ∉ Slice.slice_name <$> slices)
        (rows (Slice_table st)) ++ slices.
Proof.
  intros Hq Hready Hc. cbn [ready] in Hready.
  destruct (import_ready_imported e "energy.json.gz" "energy_usage"
              "Energy consumption"
              (list_to_map [("source", String_ 255); ("target", String_ 255);
                            ("value", Float)]) es st Hready) as (st0 & ds & Hi).
  destruct (imported_consistent _ _ _ _ _ _ _ _ _ Hc Hi) as [Hc0 Hds].
  destruct (imported_frame _ _ _ _ _ _ _ _ _ Hi) as [Hslt Htype].
  apply import_data_quiet in Hi; [|done].
  destruct (load_energy_quiet es e st st0 ds Hq Hi) as (cs & Hnames & Hmetric & Hrun).
  assert (Hnd : NoDup ((λ c, stored_name (call_name c) ds) <$> cs)).
  { apply (stored_names_NoDup ds cs energy_slice_names); [done|apply names_NoDup..]. }
  destruct (with_slices_consistent ds cs st0 Hc0 Hnd) as [Hc1 Hone].
  eexists _, _, _. split; [exact Hrun|]. split; [exact Hc1|]. split.
  { unfold persisted. cbn [ld_datasource ld_slices ld_dash ld_css].
    split; [exact Hds|]. split; [exact Hone|]. split; [done|]. apply Forall_nil_2. }
  split; [done|]. split; [by apply stored_names|].
  split; [by apply metric_overrides|].
  unfold with_slices. cbn [Slice_table].
  rewrite slices_after_rows by (try apply Hc0; done).
  rewrite slices_after_names, Hslt. done.
Qed.

Lemma load_random_time_series_consistent es e st :
  quiet e → ready RandomTimeSeries es e → consistent st →
  ∃ st' h,
    load_random_time_series_data es e st = (st', inr h) ∧
    consistent st' ∧ persisted e h st'.
Proof.
  intros Hq Hready Hc. cbn [ready] in Hready.
  destruct (import_ready_imported e "random_time_series.json.gz" "random_time_series"
              "Random time series" (list_to_map [("ds", DateTime)]) es st Hready)
    as (st0 & ds & Hi).
  destruct (imported_consistent _ _ _ _ _ _ _ _ _ Hc Hi) as [Hc0 Hds].
  apply import_data_quiet in Hi; [|done].
  destruct (load_random_time_series_quiet es e st st0 ds Hq Hi) as (cs & Hnames & Hrun).
  assert (Hnd : NoDup ((λ c, stored_name (call_name c) ds) <$> cs)).
  { destruct cs as [|c [|c' cs]]; try done. apply NoDup_singleton. }
  destruct (with_slices_consistent ds cs st0 Hc0 Hnd) as [Hc1 Hone].
  eexists _, _. split; [exact Hrun|]. split; [exact Hc1|].
  unfold persisted. cbn [ld_datasource ld_slices ld_dash ld_css].
  split; [exact Hds|]. split; [exact Hone|]. split; [done|]. apply Forall_nil_2.
Qed.

Lemma layout_loader_consistent (l : loader) es e st :
  l = WorldBank ∨ l = BirthNames →
  quiet e → ready l es e → consistent st →
  ∃ st' h, run_loader l es e st = (st', inr h) ∧ consistent st' ∧ persisted e h st'.
Proof.
  intros Hl Hq Hready Hc.
  assert (Hmain : ∃ st0 ds cs (layout : list dict) key T S names,
    consistent st0 ∧ datasource_persisted e ds st0 ∧
    call_name <$> cs = names ∧
    NoDup names ∧ NoDup ((λ n, n +:+ " (ES)") <$> names) ∧
    (T, S) ∈ dash_pairs ∧
    (∀ d, dash_paired d → (key d = true ↔ Dash.slug d = Some S)) ∧
    let slices := (slices_after ds cs (Slice_table st0)).2 in
    let dash :=
      dashboard_record key T S
        (json_dumps_list (filled_layout layout slices))
        (Slice.id <$> removelast slices) (Dash_table st0) in
    run_loader l es e st
    = (with_dash dash (with_slices ds cs st0),
       inr (Loaded (Some ds) slices (Some (table_add dash (Dash_table st0)).2) []))).
  { destruct Hl as [-> | ->]; cbn [ready] in Hready.
    - destruct Hready as [[description Hfile] Himp].
      destruct (import_ready_imported e "countries.json.gz" "wb_health_population"
                  description
                  (list_to_map [("year", DateTime); ("country_code", String_ 3);
                                ("country_name", String_ 255); ("region", String_ 255)])
                  es st Himp) as (st0 & ds & Hi).
      destruct (imported_consistent _ _ _ _ _ _ _ _ _ Hc Hi) as [Hc0 Hds].
      apply import_data_quiet in Hi; [|done].
      destruct (load_world_bank_quiet es e st st0 ds description Hq Hfile Hi)
        as (cs & Hnames & Hrun).
      eexists st0, ds, cs, world_bank_layout, _, _, _, _.
      split; [exact Hc0|]. split; [exact Hds|]. split; [exact Hnames|].
      split; [apply names_NoDup|]. split; [apply names_NoDup|].
      split; [|split; [|exact Hrun]].
      + apply elem_of_cons. by left.
      + intros d _. apply bool_decide_eq_true.
    - destruct (import_ready_imported e "birth_names.json.gz" "birth_names" ""
                  (list_to_map [("ds", DateTime); ("gender", String_ 16);
                                ("state", String_ 10); ("name", String_ 255)])
                  es st Hready) as (st0 & ds & Hi).
      destruct (imported_consistent _ _ _ _ _ _ _ _ _ Hc Hi) as [Hc0 Hds].
      apply import_data_quiet in Hi; [|done].
      destruct (load_birth_names_quiet es e st st0 ds Hq Hi) as (cs & Hnames & Hrun).
      eexists st0, ds, cs, birth_names_layout, _, _, _, _.
      split; [exact Hc0|]. split; [exact Hds|]. split; [exact Hnames|].
      split; [apply names_NoDup|]. split; [apply names_NoDup|].
      split; [|split; [|exact Hrun]].
      + apply elem_of_cons. right. apply elem_of_cons. by left.
      + intros d Hd. rewrite bool_decide_eq_true. apply Hd.
        apply elem_of_cons. right. apply elem_of_cons. by left. }
  destruct Hmain as (st0 & ds & cs & layout & key & T & S & names & Hc0 & Hds
                     & Hnames & Hnd1 & Hnd2 & Hpair & Hkey & Hrun).
  cbv zeta in Hrun.
  assert (Hnd : NoDup ((λ c, stored_name (call_name c) ds) <$> cs)).
  { by apply (stored_names_NoDup ds cs names). }
  destruct (with_slices_consistent ds cs st0 Hc0 Hnd) as [Hc1 Hone].
  destruct (with_dash_consistent key T S
              (json_dumps_list
                 (filled_layout layout (slices_after ds cs (Slice_table st0)).2))
              (Slice.id <$> removelast (slices_after ds cs (Slice_table st0)).2)
              (with_slices ds cs st0) Hpair Hkey Hc1) as (Hc2 & Hslug & Htitle).
  eexists _, _. split; [exact Hrun|]. split; [exact Hc2|].
  unfold persisted. cbn [ld_datasource ld_slices ld_dash ld_css].
  split; [exact Hds|]. split; [exact Hone|]. split; [|apply Forall_nil_2].
  split; [exact Hslug|exact Htitle].
Qed.

Lemma load_unicode_consistent es e st :
  quiet e → ready UnicodeTest es e → consistent st →
  ∃ st' h,
    load_unicode_test_data es e st = (st', inr h) ∧ consistent st' ∧ persisted e h st'.
Proof.
  intros Hq [df Hread] Hc.
  destruct (load_unicode_test_data_quiet es e st df Hq Hread) as (c & Hname & Hrun).
  cbv zeta in Hrun.
  destruct (unicode_imported_consistent e df st Hc) as [Hc0 Hds].
  set (st0 := unicode_imported e df st) in *.
  set (ds := TableDs _) in *.
  destruct (with_slices_consistent ds [c] st0 Hc0 (singleton_names_NoDup ds c))
    as [Hc1 Hone].
  destruct (with_dash_consistent
              (λ d, bool_decide (Dash.dashboard_title d = Some "Unicode Test"))
              "Unicode Test" "unicode-test"
              (json_dumps_list
                 [dict_of [("size_y", JInt 4); ("size_x", JInt 4); ("col", JInt 1);
                           ("row", JInt 1);
                           ("slice_id",
                            json_of_id (Slice.id (slice_step ds c (Slice_table st0)).2))]])
              [Slice.id (slice_step ds c (Slice_table st0)).2]
              (with_slices ds [c] st0)) as (Hc2 & Hslug & Htitle); [| |exact Hc1|].
  { apply elem_of_cons. right. apply elem_of_cons. right. apply elem_of_cons. by left. }
  { intros d Hd. rewrite bool_decide_eq_true. apply Hd.
    apply elem_of_cons. right. apply elem_of_cons. right. apply elem_of_cons. by left. }
  eexists _, _. split; [exact Hrun|]. split; [exact Hc2|].
  unfold persisted. cbn [ld_datasource ld_slices ld_dash ld_css].
  split; [exact Hds|]. split; [exact Hone|]. split; [|apply Forall_nil_2].
  split; [exact Hslug|exact Htitle].
Qed.

Lemma load_css_consistent es e st :
  quiet e → consistent st →
  ∃ st' h,
    load_css_templates es e st = (st', inr h) ∧ consistent st' ∧ persisted e h st'.
Proof.
  intros Hq Hc.
  pose proof (load_css_templates_quiet es e st Hq) as Hrun. cbv zeta in Hrun.
  destruct (with_css_consistent "Flat" flat_css st Hc) as [Hc1 Hone1].
  set (st1 := with_css (css_record "Flat" flat_css (CSS_table st)) st) in *.
  destruct (with_css_consistent "Courier Black" courier_black_css st1 Hc1)
    as [Hc2 Hone2].
  eexists _, _. split; [exact Hrun|]. split; [exact Hc2|].
  unfold persisted. cbn [ld_datasource ld_slices ld_dash ld_css].
  split; [done|]. split; [apply Forall_nil_2|]. split; [done|].
  apply Forall_cons. split; [|apply Forall_cons; split; [exact Hone2|apply Forall_nil_2]].
  apply only_one_NoDup; [apply Hc2|].
  destruct Hone1 as [Hin1 Hname1].
  unfold with_css at 1. cbn [CSS_table]. unfold css_record at 2.
  apply (upsert_keeps (λ c, bool_decide (CSS.template_name c = "Courier Black"))
           (CSS.mk None "Courier Black" None) (CSS.set_css courier_black_css)).
  - apply Hc1.
  - done.
  - done.
  - exact Hin1.
  - apply bool_decide_eq_false.
    assert (Hn : CSS.template_name
                   (table_add (css_record "Flat" flat_css (CSS_table st))
                      (CSS_table st)).2 = "Flat").
    { unfold css_record, table_add.
      destruct (find _ (rows (CSS_table st))) as [x|] eqn:Hfind;
        cbn [default from_option id].
      - apply find_some in Hfind as [_ Hp]. apply bool_decide_eq_true in Hp.
        by destruct (model_id _).
      - done. }
    rewrite Hn. done.
Qed.

Lemma run_loader_consistent l es e st :
  quiet e → ready l es e → consistent st →
  ∃ st' h, run_loader l es e st = (st', inr h) ∧ consistent st' ∧ persisted e h st'.
Proof.
  intros Hq Hready Hc. destruct l.
  - destruct (load_energy_consistent es e st Hq Hready Hc)
      as (st' & ds & slices & Hrun & Hc' & Hp & _).
    by eexists _, _.
  - apply layout_loader_consistent; auto.
  - by apply load_css_consistent.
  - apply layout_loader_consistent; auto.
  - by apply load_unicode_consistent.
  - by apply load_random_time_series_consistent.
Qed.

Lemma get_or_create_elasticsearch_cluster_quiet urls e st :
  quiet e →
  get_or_create_elasticsearch_cluster urls e st =
  let r := ElasticsearchCluster.set_urls urls
             (default (ElasticsearchCluster.mk None "ElasticSearch examples" JNull)
                (find (λ c, bool_decide (ElasticsearchCluster.cluster_name c
                                         = "ElasticSearch examples"))
                   (rows (cluster_table st)))) in
  let tr := table_add r (cluster_table st) in
  (tick (set_cluster_table tr.1 (tick st)), inr tr.2).
Proof.
  intros Hq. unfold get_or_create_elasticsearch_cluster.
  erewrite bind_run; [|by apply query_first_quiet].
  unfold bind, session_add, session_commit, ret.
  rewrite ext_quiet by done. reflexivity.
Qed.


(** C4: from a consistent storage, two runs of load_energy (relational
    path) leave exactly three slices named "Energy Sankey", "Energy Force
    Layout" and "Heatmap", those of the second run, each with "metric":
    "sum__value" in its blob; from a storage without slices they are all
    the slices there are. *)
Theorem load_energy_twice e1 e2 st :
  quiet e1 → quiet e2 →
  ready Energy None e1 → ready Energy None e2 →
  consistent st →
  ∃ st1 h1 st2 h2,
    load_energy None e1 st = (st1, inr h1) ∧
    load_energy None e2 st1 = (st2, inr h2) ∧
    Slice.slice_name <$> ld_slices h2
    = ["Energy Sankey"; "Energy Force Layout"; "Heatmap"] ∧
    filter (λ s, Slice.slice_name s ∈ energy_slice_names) (rows (Slice_table st2))
    = ld_slices h2 ∧
    Forall (λ s, obj_get "metric" (Slice.params s) = Some (JStr "sum__value"))
      (ld_slices h2) ∧
    (rows (Slice_table st) = [] → rows (Slice_table st2) = ld_slices h2).
Proof.
  intros Hq1 Hq2 Hr1 Hr2 Hc.
  destruct (load_energy_consistent None e1 st Hq1 Hr1 Hc)
    as (st1 & ds1 & sl1 & Hrun1 & Hc1 & _ & Ht1 & Hn1 & _ & Hrows1).
  destruct (load_energy_consistent None e2 st1 Hq2 Hr2 Hc1)
    as (st2 & ds2 & sl2 & Hrun2 & Hc2 & _ & Ht2 & Hn2 & Hm2 & Hrows2).
  assert (Hs : ∀ ds, datasource_type_of ds = "table" →
               (λ n, stored_name n ds) <$> energy_slice_names = energy_slice_names).
  { intros ds Hds. unfold stored_name. rewrite Hds. done. }
  rewrite Hs in Hn1, Hn2 by done.
  exists st1, (Loaded (Some ds1) sl1 None []), st2, (Loaded (Some ds2) sl2 None []).
  cbn [ld_slices].
  split; [exact Hrun1|]. split; [exact Hrun2|]. split; [exact Hn2|].
  rewrite Hn2 in Hrows2. rewrite Hn1 in Hrows1.
  assert (Hall : filter (λ s, Slice.slice_name s ∈ energy_slice_names) sl2 = sl2).
  { apply filter_all. intros s Hin. rewrite <- Hn2. by apply list_elem_of_fmap_2. }
  split; [|split; [exact Hm2|]].
  - rewrite Hrows2, filter_app, Hall.
    rewrite filter_none; [done|].
    intros s Hin. apply list_elem_of_filter in Hin as [Hin _]. done.
  - intros Hempty. rewrite Hrows2, Hrows1, Hempty, filter_nil, app_nil_l.
    rewrite filter_none; [done|].
    intros s Hin Hnot. apply Hnot. rewrite <- Hn1. by apply list_elem_of_fmap_2.
Qed.

Lemma load_energy_twice_witness :
  ∃ st1 h1 st2 h2,
    load_energy None sample_env empty_storage = (st1, inr h1) ∧
    load_energy None sample_env st1 = (st2, inr h2) ∧
    Slice.slice_name <$> rows (Slice_table st2)
    = ["Energy Sankey"; "Energy Force Layout"; "Heatmap"] ∧
    Forall (λ s, obj_get "metric" (Slice.params s) = Some (JStr "sum__value"))
      (rows (Slice_table st2)).
Proof.
  destruct (load_energy_twice sample_env sample_env empty_storage)
    as (st1 & h1 & st2 & h2 & Hrun1 & Hrun2 & Hn & _ & Hm & Hrows).
  - intros n o. reflexivity.
  - intros n o. reflexivity.
  - cbn [ready]. unfold import_ready. eexists _, _. split; vm_compute; reflexivity.
  - cbn [ready]. unfold import_ready. eexists _, _. split; vm_compute; reflexivity.
  - unfold consistent, dashboards_ok, table_ok, ids_ok. simpl.
    repeat split; first [apply NoDup_nil_2 | apply Forall_nil_2].
  - exists st1, h1, st2, h2. rewrite (Hrows eq_refl).
    exact (conj Hrun1 (conj Hrun2 (conj Hn Hm))).
Defined.

(** C6: the layout of every dashboard a loader creates has at least as
    many slots as the dashboard has slices, and every slice of the
    dashboard is named by exactly one slot. *)
Theorem dashboard_layout_covers_members l es_cluster e st :
  quiet e →
  ready l es_cluster e →
  ∃ st' h,
    run_loader l es_cluster e st = (st', inr h) ∧
    (is_Some (ld_dash h) ↔ l ∈ [WorldBank; BirthNames; UnicodeTest]) ∧
    ∀ d, ld_dash h = Some d → d ∈ rows (Dash_table st') ∧ layout_covers d.
Proof.
  intros Hq Hready.
  assert (Hno : ∀ st' ds slices,
            l ∉ [WorldBank; BirthNames; UnicodeTest] →
            run_loader l es_cluster e st = (st', inr (Loaded ds slices None [])) →
            ∃ st' h,
              run_loader l es_cluster e st = (st', inr h) ∧
              (is_Some (ld_dash h) ↔ l ∈ [WorldBank; BirthNames; UnicodeTest]) ∧
              ∀ d, ld_dash h = Some d → d ∈ rows (Dash_table st') ∧ layout_covers d).
  { intros st' ds slices Hl Hrun. eexists _, _. split; [exact Hrun|].
    cbn [ld_dash]. split; [|done]. split; [by intros [? [=]]|done]. }
  assert (Hlay : l = WorldBank ∨ l = BirthNames →
            ∃ st' h,
              run_loader l es_cluster e st = (st', inr h) ∧
              (is_Some (ld_dash h) ↔ l ∈ [WorldBank; BirthNames; UnicodeTest]) ∧
              ∀ d, ld_dash h = Some d → d ∈ rows (Dash_table st') ∧ layout_covers d).
  { intros Hl.
    destruct (layout_loader_run l es_cluster e st Hl Hq Hready)
      as (st' & ds & slices & d & s & Hrun & Hin & _ & _ & _ & _ & _ & Hlen & _
          & Hone & _).
    eexists _, _. split; [exact Hrun|]. cbn [ld_dash]. split.
    - split; [|by eexists]. intros _.
      destruct Hl as [-> | ->]; [by left|right; by left].
    - intros d' [= <-]. split; [done|]. split; [lia|done]. }
  destruct l; cbn [ready] in Hready.
  - destruct (import_ready_imported e "energy.json.gz" "energy_usage"
                "Energy consumption"
                (list_to_map [("source", String_ 255); ("target", String_ 255);
                              ("value", Float)]) es_cluster st Hready)
      as (st0 & ds & Hi).
    apply import_data_quiet in Hi; [|done].
    destruct (load_energy_quiet es_cluster e st st0 ds Hq Hi) as (cs & _ & _ & Hrun).
    eapply Hno; [|exact Hrun].
    intros Hin. repeat (apply elem_of_cons in Hin as [[=]|Hin]).
    by apply elem_of_nil in Hin.
  - apply Hlay. by left.
  - pose proof (load_css_templates_quiet es_cluster e st Hq) as Hrun. cbv zeta in Hrun.
    eexists _, _. split; [exact Hrun|]. cbn [ld_dash]. split; [|done].
    split; [by intros [? [=]]|].
    intros Hin. repeat (apply elem_of_cons in Hin as [[=]|Hin]).
    by apply elem_of_nil in Hin.
  - apply Hlay. by right.
  - destruct Hready as [df Hread].
    destruct (load_unicode_test_data_quiet es_cluster e st df Hq Hread)
      as (c & Hname & Hrun).
    cbv zeta in Hrun.
    eexists _, _. split; [exact Hrun|]. cbn [ld_dash]. split.
    { split; [|by eexists]. intros _. do 2 right. by left. }
    intros d [= <-].
    match goal with
    | |- context [table_add (dashboard_record ?p ?T ?S ?pos ?mem ?t) ?t] =>
        destruct (dashboard_record_added p T S pos mem t)
          as (Hin & _ & _ & Hpos & Hmem)
    end.
    split; [exact Hin|].
    unfold layout_covers, slots_of. rewrite Hpos, Hmem.
    cbn [json_dumps_list list_items fmap list_fmap length].
    split; [lia|].
    intros id ->%list_elem_of_singleton.
    try rewrite slice_step_slice. cbn [Slice.id Slice.set_id json_of_id].
    rewrite filter_cons_True; [done|].
    unfold slot_names, obj_get. cbn [obj_members].
    rewrite assoc_get_map_to_list. unfold dict_of. cbn [fold_left fst snd].
    rewrite lookup_insert_eq. cbn [json_of_id]. by apply bool_decide_eq_true.
  - destruct (import_ready_imported e "random_time_series.json.gz"
                "random_time_series" "Random time series"
                (list_to_map [("ds", DateTime)]) es_cluster st Hready)
      as (st0 & ds & Hi).
    apply import_data_quiet in Hi; [|done].
    destruct (load_random_time_series_quiet es_cluster e st st0 ds Hq Hi)
      as (cs & _ & Hrun).
    eapply Hno; [|exact Hrun].
    intros Hin. repeat (apply elem_of_cons in Hin as [[=]|Hin]).
    by apply elem_of_nil in Hin.
Qed.

Lemma dashboard_layout_covers_members_witness :
  ∃ st' h d,
    run_loader UnicodeTest None sample_env empty_storage = (st', inr h) ∧
    ld_dash h = Some d ∧
    d ∈ rows (Dash_table st') ∧
    layout_covers d.
Proof.
  destruct (dashboard_layout_covers_members UnicodeTest None sample_env empty_storage)
    as (st' & h & Hrun & Hsome & Hd).
  - intros n o. reflexivity.
  - cbn [ready]. eexists. vm_compute. reflexivity.
  - destruct (proj2 Hsome) as [d Hdash].
    + apply elem_of_cons. right. apply elem_of_cons. right. apply elem_of_cons.
      left. reflexivity.
    + exists st', h, d. destruct (Hd d Hdash) as [Hin Hcov].
      exact (conj Hrun (conj Hdash (conj Hin Hcov))).
Defined.

(** * Further properties *)

(** ** What a computation leaves alone *)

Lemma untouched_bind {B A C} (proj : storage → B) (m : M A) (k : A → M C) :
  untouched proj m → (∀ a, untouched proj (k a)) → untouched proj (bind m k).
Proof.
  intros Hm Hk e st. unfold bind. specialize (Hm e st).
  destruct (m e st) as [st' [f|a]]; [done|].
  rewrite Hk. exact Hm.
Qed.

Section frames.
Context {B : Type} (proj : storage → B).
Hypothesis Hlog : log_blind proj.

Lemma untouched_ret {A} (a : A) : untouched proj (ret a).
Proof using Type. intros e st. done. Qed.

Lemma untouched_ask : untouched proj ask.
Proof using Type. intros e st. done. Qed.

Lemma untouched_gets {A} (f : storage → A) : untouched proj (gets f).
Proof using Type. intros e st. done. Qed.

Lemma untouched_raise {A} o f : untouched proj (@raise A o f).
Proof using Hlog. intros e st. unfold raise. cbn [fst]. apply Hlog. Qed.

Lemma untouched_ext o : untouched proj (ext o).
Proof using Hlog.
  intros e st. unfold ext, tick.
  destruct (oracle e (clock st) o).
  - rewrite untouched_raise. apply Hlog.
  - cbn [fst]. apply Hlog.
Qed.

Lemma untouched_lib {A} o (r : failure + A) : untouched proj (lib o r).
Proof using Hlog.
  destruct r; simpl; [apply untouched_raise|apply untouched_ret].
Qed.

Lemma untouched_lift {A} (r : op * failure + A) : untouched proj (lift r).
Proof using Hlog.
  destruct r as [[o f]|a]; simpl; [apply untouched_raise|apply untouched_ret].
Qed.

Lemma untouched_modify (f : storage → storage) :
  (∀ st, proj (f st) = proj st) → untouched proj (modify f).
Proof using Type. intros Hf e st. apply Hf. Qed.

Lemma untouched_query_first {R} `{Model R} (p : R → bool) :
  untouched proj (query_first p).
Proof using Hlog.
  unfold query_first. apply untouched_bind; [apply untouched_ext|].
  intros _. apply untouched_gets.
Qed.

Lemma untouched_commit : untouched proj session_commit.
Proof using Hlog. apply untouched_ext. Qed.

Lemma untouched_session_add {R} `{Model R} (r : R) :
  (∀ t st, proj (model_set_table t st) = proj st) →
  untouched proj (session_add r).
Proof using Type. intros Hset e st. unfold session_add. cbn [fst]. apply Hset. Qed.

Lemma untouched_session_delete {R} `{Model R} (r : R) :
  (∀ t st, proj (model_set_table t st) = proj st) →
  untouched proj (session_delete r).
Proof using Type.
  intros Hset. unfold session_delete. apply untouched_modify. intros st. apply Hset.
Qed.

Lemma untouched_getitem {A} (l : list A) i : untouched proj (getitem l i).
Proof using Hlog.
  unfold getitem. destruct (l !! i); [apply untouched_ret|apply untouched_raise].
Qed.

Lemma untouched_set_slice_ids i l slices : untouched proj (set_slice_ids i l slices).
Proof using Hlog.
  revert i. induction l as [|pos l IH]; intros i; simpl.
  - apply untouched_ret.
  - apply untouched_bind; [apply untouched_getitem|]. intros s.
    apply untouched_bind; [apply IH|]. intros r. apply untouched_ret.
Qed.

Lemma untouched_sequence {A} (l : list (M A)) :
  Forall (untouched proj) l → untouched proj (sequence l).
Proof using Type.
  induction 1 as [|m l Hm Hl IH]; simpl.
  - apply untouched_ret.
  - apply untouched_bind; [done|]. intros a.
    apply untouched_bind; [done|]. intros r. apply untouched_ret.
Qed.

Lemma untouched_to_sql name pdf dtype :
  (∀ x st, proj (set_sql_tables x st) = proj st) →
  untouched proj (to_sql name pdf dtype).
Proof using Hlog.
  intros Hset. unfold to_sql. apply untouched_bind; [apply untouched_ext|].
  intros _. apply untouched_modify. intros st. apply Hset.
Qed.

Lemma untouched_es_bulk index doc_type body :
  (∀ x st, proj (set_es_indices x st) = proj st) →
  untouched proj (es_bulk index doc_type body).
Proof using Hlog.
  intros Hset. unfold es_bulk. apply untouched_bind; [apply untouched_ext|].
  intros _. apply untouched_modify. intros st. apply Hset.
Qed.

Lemma untouched_es_indices_delete index ignore :
  (∀ x st, proj (set_es_indices x st) = proj st) →
  untouched proj (es_indices_delete index ignore).
Proof using Hlog.
  intros Hset e st. unfold es_indices_delete, tick.
  destruct Hlog as [Hc Hf].
  repeat case_match; cbn [fst]; rewrite ?untouched_raise, ?Hset, ?Hf, ?Hc; done.
Qed.
End frames.

Ltac frame_side :=
  first [ split; intros; reflexivity | intros; reflexivity ].

Ltac frame :=
  repeat first
    [ apply untouched_ret
    | apply untouched_ask
    | apply untouched_query_first; frame_side
    | apply untouched_commit; frame_side
    | apply untouched_set_slice_ids; frame_side
    | apply untouched_ext; frame_side
    | apply untouched_lib; frame_side
    | apply untouched_lift; frame_side
    | apply untouched_session_add; frame_side
    | apply untouched_session_delete; frame_side
    | apply untouched_to_sql; frame_side
    | apply untouched_es_bulk; frame_side
    | apply untouched_es_indices_delete; frame_side
    | apply untouched_bind; [|intros ?]
    | lazymatch goal with
      | |- untouched _ (match ?o with Some _ => _ | None => _ end) => destruct o
      | |- untouched _ (let _ := _ in _) => cbv zeta
      end ].

Lemma untouched_get_or_create_db :
  untouched (λ st, (cluster_side st, charts st, TBL_table st, sql_tables st))
    get_or_create_db.
Proof. unfold get_or_create_db. frame. Qed.

Lemma untouched_import_data_relational file table_name description dtype :
  untouched (λ st, (cluster_side st, charts st))
    (import_data file table_name description dtype None).
Proof.
  unfold import_data. frame.
Qed.

Lemma untouched_import_data_cluster file table_name description dtype cluster :
  untouched (λ st, (relational_side st, cluster_table st, charts st))
    (import_data file table_name description dtype (Some cluster)).
Proof. unfold import_data. frame. Qed.

(** X1: [import_data] writes on one side only, whether it returns or fails:
    on the relational path it leaves the indices, the dataset records and
    the reference of the search cluster alone, on the search-cluster path
    the data tables, the table records, the connection records and the
    cluster reference; on neither path does it touch a slice, a dashboard
    or a template. *)
Theorem import_data_one_side file table_name description dtype :
  untouched (λ st, (cluster_side st, charts st))
    (import_data file table_name description dtype None) ∧
  ∀ cluster,
    untouched (λ st, (relational_side st, cluster_table st, charts st))
      (import_data file table_name description dtype (Some cluster)).
Proof.
  split; [|intros cluster]; unfold import_data; frame.
Qed.

Lemma untouched_get_or_create_slice name viz ds defaults params :
  untouched but_slices (get_or_create_slice name viz ds defaults params).
Proof. unfold get_or_create_slice. frame. Qed.

(** X2: [get_or_create_slice] changes nothing but the slice table, whether
    it returns or fails. *)
Theorem get_or_create_slice_only_slices name viz ds defaults params :
  untouched but_slices (get_or_create_slice name viz ds defaults params).
Proof.
  unfold get_or_create_slice.
  apply untouched_bind; [by apply untouched_query_first|]. intros o.
  apply untouched_bind.
  { destruct o; [by apply untouched_session_delete|by apply untouched_ret]. }
  intros _. frame.
Qed.

Lemma untouched_weaken {B C A} (proj : storage → B) (g : B → C) (m : M A) :
  untouched proj m → untouched (λ st, g (proj st)) m.
Proof. intros H e st. by rewrite H. Qed.

Ltac frame_calls :=
  repeat first
    [ apply untouched_sequence;
        repeat (apply Forall_cons; split;
                [apply (untouched_weaken but_slices), untouched_get_or_create_slice|]);
        apply Forall_nil_2
    | apply (untouched_weaken but_slices), untouched_get_or_create_slice
    | progress frame ].

Lemma untouched_run_loader_cluster_table l es_cluster :
  untouched cluster_table (run_loader l es_cluster).
Proof.
  destruct l, es_cluster; simpl;
    unfold load_energy, load_world_bank_health_n_pop, load_css_templates,
      load_birth_names, load_unicode_test_data, load_random_time_series_data,
      import_data; frame_calls.
Qed.

Ltac frame_loader :=
  simpl;
  unfold load_energy, load_world_bank_health_n_pop, load_css_templates,
    load_birth_names, load_unicode_test_data, load_random_time_series_data,
    import_data;
  frame_calls.

(** X3: every loader writes on its own path only, whether it returns or
    fails.  No loader touches the cluster reference; without a cluster
    handle no loader touches the indices or the dataset records of the
    search cluster; with one, every loader but the unicode loader leaves
    the data tables, table records and connection records alone.  The
    template loader changes the template table only, and the unicode
    loader stays on the relational path even with a cluster handle. *)
Theorem loaders_write_on_their_path :
  (∀ l es_cluster, untouched cluster_table (run_loader l es_cluster)) ∧
  (∀ l, untouched cluster_side (run_loader l None)) ∧
  (∀ l cluster,
     l ≠ UnicodeTest → untouched relational_side (run_loader l (Some cluster))) ∧
  (∀ es_cluster, untouched but_css (load_css_templates es_cluster)) ∧
  (∀ es_cluster, untouched cluster_side (load_unicode_test_data es_cluster)).
Proof.
  split; [|split; [|split; [|split]]].
  - apply untouched_run_loader_cluster_table.
  - intros l. destruct l; frame_loader.
  - intros l cluster Hl. destruct l; try done; frame_loader.
  - intros es. frame_loader.
  - intros es. frame_loader.
Qed.

Lemma loaders_write_on_their_path_witness :
  untouched relational_side (run_loader Energy (Some sample_cluster)).
Proof.
  destruct loaders_write_on_their_path as (_ & _ & H & _).
  apply (H Energy sample_cluster). discriminate.
Defined.

(** ** Upserts in place *)

Lemma table_add_found {R} `{Model R} (r x : R) (t : table R) :
  ids_ok t → x ∈ rows t → model_id r = model_id x →
  (table_add r t).2 = r ∧
  next_id (table_add r t).1 = next_id t ∧
  length (rows (table_add r t).1) = length (rows t) ∧
  r ∈ rows (table_add r t).1 ∧
  (∀ y, y ∈ rows t → model_id y ≠ model_id x → y ∈ rows (table_add r t).1) ∧
  (∀ y, y ∈ rows (table_add r t).1 → y = r ∨ y ∈ rows t ∧ model_id y ≠ model_id x).
Proof.
  intros [Hnd Hb] Hx Hid. unfold table_add.
  assert (Hsome : ∃ i, model_id r = Some i).
  { rewrite Forall_forall in Hb.
    destruct (Hb (model_id x)) as (i & Hi & _); [by apply list_elem_of_fmap_2|].
    exists i. congruence. }
  destruct Hsome as [i Hi]. rewrite Hi. cbn [fst snd rows next_id].
  split; [done|]. split; [done|]. split; [unfold replace_row; by rewrite length_fmap|].
  split; [by apply (replace_row_elem r x)|]. split.
  - intros y Hy Hne. unfold replace_row. apply list_elem_of_fmap. exists y.
    rewrite decide_False by congruence. done.
  - intros y Hy. unfold replace_row in Hy.
    apply list_elem_of_fmap in Hy as (z & -> & Hz).
    case_decide; [by left|]. right. split; [done|congruence].
Qed.

Lemma find_elem {A} (p : A → bool) (l : list A) x :
  find p l = Some x → x ∈ l ∧ p x = true.
Proof. intros [Hin Hp]%find_some. split; [by apply list_elem_of_In|done]. Qed.

(** X4: [get_or_create_db] returns the record "main" with the connection
    string of the configuration, persisted.  When the table has such a
    record, the first one is updated in place: same identifier, no
    identifier used up, no row added, every other row kept; when it has
    none, one row is appended under the next identifier. *)
Theorem get_or_create_db_in_place e st :
  quiet e →
  ids_ok (DB_table st) →
  ∃ st' d,
    get_or_create_db e st = (st', inr d) ∧
    DB.database_name d = "main" ∧
    DB.sqlalchemy_uri d = SQLALCHEMY_DATABASE_URI e ∧
    d ∈ rows (DB_table st') ∧
    match find (λ d, bool_decide (DB.database_name d = "main")) (rows (DB_table st)) with
    | Some x =>
        DB.id d = DB.id x ∧
        next_id (DB_table st') = next_id (DB_table st) ∧
        length (rows (DB_table st')) = length (rows (DB_table st)) ∧
        ∀ y, y ∈ rows (DB_table st) → DB.id y ≠ DB.id x → y ∈ rows (DB_table st')
    | None =>
        DB.id d = Some (next_id (DB_table st)) ∧
        next_id (DB_table st') = S (next_id (DB_table st)) ∧
        rows (DB_table st') = rows (DB_table st) ++ [d]
    end.
Proof.
  intros Hq Hok. rewrite get_or_create_db_quiet by done. cbv zeta.
  eexists _, _. split; [reflexivity|].
  unfold tick. cbn [DB_table set_clock set_DB_table]. unfold db_record.
  destruct (find _ (rows (DB_table st))) as [x|] eqn:Hfind;
    cbn [default from_option id].
  - apply find_elem in Hfind as [Hx Hp]. apply bool_decide_eq_true in Hp.
    destruct (table_add_found
                (DB.set_sqlalchemy_uri (SQLALCHEMY_DATABASE_URI e) x) x
                (DB_table st) Hok Hx eq_refl)
      as (Heq & Hnext & Hlen & Hin & Hkeep & _).
    rewrite Heq in *. done.
  - unfold table_add. cbn [model_id DB_model DB.id DB.set_sqlalchemy_uri fst snd rows
      next_id model_set_id DB.set_id DB.database_name DB.sqlalchemy_uri].
    repeat split; try done. apply elem_of_app. right. by apply list_elem_of_singleton.
Qed.

Lemma get_or_create_db_in_place_witness :
  ∃ st' d,
    get_or_create_db sample_env empty_storage = (st', inr d) ∧
    DB.sqlalchemy_uri d = JStr "sqlite:////tmp/caravel.db" ∧
    d ∈ rows (DB_table st').
Proof.
  destruct (get_or_create_db_in_place sample_env empty_storage)
    as (st' & d & Hrun & _ & Huri & Hin & _).
  - intros n o. reflexivity.
  - split; simpl; [apply NoDup_nil_2|apply Forall_nil_2].
  - exists st', d. exact (conj Hrun (conj Huri Hin)).
Defined.

(** X5: [get_or_create_elasticsearch_cluster] returns the reference
    "ElasticSearch examples" with the given urls, persisted: the first
    such record updated in place (same identifier, no row added, every
    other row kept), or a new row under the next identifier. *)
Theorem get_or_create_elasticsearch_cluster_in_place urls e st :
  quiet e →
  ids_ok (cluster_table st) →
  ∃ st' c,
    get_or_create_elasticsearch_cluster urls e st = (st', inr c) ∧
    ElasticsearchCluster.cluster_name c = "ElasticSearch examples" ∧
    ElasticsearchCluster.urls c = urls ∧
    c ∈ rows (cluster_table st') ∧
    match find (λ c, bool_decide
                       (ElasticsearchCluster.cluster_name c = "ElasticSearch examples"))
            (rows (cluster_table st)) with
    | Some x =>
        ElasticsearchCluster.id c = ElasticsearchCluster.id x ∧
        next_id (cluster_table st') = next_id (cluster_table st) ∧
        length (rows (cluster_table st')) = length (rows (cluster_table st)) ∧
        ∀ y, y ∈ rows (cluster_table st) →
             ElasticsearchCluster.id y ≠ ElasticsearchCluster.id x →
             y ∈ rows (cluster_table st')
    | None =>
        ElasticsearchCluster.id c = Some (next_id (cluster_table st)) ∧
        next_id (cluster_table st') = S (next_id (cluster_table st)) ∧
        rows (cluster_table st') = rows (cluster_table st) ++ [c]
    end.
Proof.
  intros Hq Hok. rewrite get_or_create_elasticsearch_cluster_quiet by done. cbv zeta.
  eexists _, _. split; [reflexivity|].
  unfold tick. cbn [cluster_table set_clock set_cluster_table].
  destruct (find _ (rows (cluster_table st))) as [x|] eqn:Hfind;
    cbn [default from_option id].
  - apply find_elem in Hfind as [Hx Hp]. apply bool_decide_eq_true in Hp.
    destruct (table_add_found (ElasticsearchCluster.set_urls urls x) x
                (cluster_table st) Hok Hx eq_refl)
      as (Heq & Hnext & Hlen & Hin & Hkeep & _).
    rewrite Heq in *. done.
  - unfold table_add. cbn [model_id cluster_model ElasticsearchCluster.id
      ElasticsearchCluster.set_urls fst snd rows next_id model_set_id
      ElasticsearchCluster.set_id ElasticsearchCluster.cluster_name
      ElasticsearchCluster.urls].
    repeat split; try done. apply elem_of_app. right. by apply list_elem_of_singleton.
Qed.

Lemma get_or_create_elasticsearch_cluster_in_place_witness :
  ∃ st' c,
    get_or_create_elasticsearch_cluster (strs ["http://localhost:9200"])
      sample_env empty_storage = (st', inr c) ∧
    ElasticsearchCluster.urls c = strs ["http://localhost:9200"] ∧
    c ∈ rows (cluster_table st').
Proof.
  destruct (get_or_create_elasticsearch_cluster_in_place
              (strs ["http://localhost:9200"]) sample_env empty_storage)
    as (st' & c & Hrun & _ & Hurls & Hin & _).
  - intros n o. reflexivity.
  - split; simpl; [apply NoDup_nil_2|apply Forall_nil_2].
  - exists st', c. exact (conj Hrun (conj Hurls Hin)).
Defined.

(** ** import_data on the search-cluster path *)

Lemma table_add_snd_cases {R} `{Model R} (r : R) (t : table R) :
  (table_add r t).2 = r ∨ (table_add r t).2 = model_set_id (Some (next_id t)) r.
Proof. unfold table_add. destruct (model_id r); [by left|by right]. Qed.

Lemma datasource_record_elem table_name description cluster
    (t : table ElasticsearchDatasource.t) :
  let r := datasource_record table_name description cluster t in
  (table_add r t).2 ∈ rows (table_add r t).1.
Proof.
  apply (table_add_upsert_elem
           (λ d, bool_decide
                   (ElasticsearchDatasource.datasource_name d
                    = "example-" +:+ table_name))
           (ElasticsearchDatasource.mk None ("example-" +:+ table_name)
              None None None None None)
           (λ ds,
              ElasticsearchDatasource.set_is_featured true
                (ElasticsearchDatasource.set_description description
                   (ElasticsearchDatasource.set_index_name ("example-" +:+ table_name)
                      (ElasticsearchDatasource.set_cluster cluster
                         (if decide (table_name = "birth_names")
                          then ElasticsearchDatasource.set_main_dttm_col "ds" ds
                          else if decide (table_name = "wb_health_population")
                          then ElasticsearchDatasource.set_main_dttm_col "year" ds
                          else ds)))))); [|done].
  intros x. by repeat case_decide.
Qed.

Lemma datasource_record_name table_name description cluster
    (t : table ElasticsearchDatasource.t) :
  ElasticsearchDatasource.datasource_name
    (datasource_record table_name description cluster t)
  = "example-" +:+ table_name.
Proof.
  unfold datasource_record. cbv zeta.
  destruct (find _ (rows t)) as [x|] eqn:Hfind; cbn [default from_option id].
  - apply find_elem in Hfind as [_ Hp]. apply bool_decide_eq_true in Hp.
    by repeat case_decide.
  - by repeat case_decide.
Qed.

(** X6: on the search-cluster path [import_data] leaves under the index
    "example-" + table name exactly the rows of the file, in their order,
    each under the document type of the table name, whatever the index
    held before; the other indices are as they were, and the dataset record
    it returns is persisted under that name, pointing at that index and at
    the cluster handle. *)
Theorem import_data_index_replaced file table_name description dtype cluster e st data :
  quiet e →
  gzip_json_loads e file = inr data →
  ∃ st' d,
    import_data file table_name description dtype (Some cluster) e st
    = (st', inr (EsDs d)) ∧
    es_indices st' !! ("example-" +:+ table_name)
    = Some ((λ row, (table_name, row)) <$> data) ∧
    (∀ i, i ≠ "example-" +:+ table_name → es_indices st' !! i = es_indices st !! i) ∧
    d ∈ rows (datasource_table st') ∧
    ElasticsearchDatasource.datasource_name d = "example-" +:+ table_name ∧
    ElasticsearchDatasource.index_name d = Some ("example-" +:+ table_name) ∧
    ElasticsearchDatasource.cluster d = ElasticsearchCluster.id cluster.
Proof.
  intros Hq Hread. rewrite (import_data_index_quiet _ _ _ _ _ _ _ _ Hq Hread).
  eexists _, _. split; [reflexivity|].
  unfold imported_index. cbn [es_indices datasource_table].
  split; [|split; [|split]].
  - rewrite lookup_insert_eq. f_equal. unfold bulk_body.
    rewrite <- list_fmap_compose. done.
  - intros i Hi. by rewrite lookup_insert_ne.
  - apply datasource_record_elem.
  - pose proof (datasource_record_name table_name description
                  (ElasticsearchCluster.id cluster) (datasource_table st)) as Hn.
    destruct (table_add_snd_cases
                (datasource_record table_name description
                   (ElasticsearchCluster.id cluster) (datasource_table st))
                (datasource_table st)) as [-> | ->]; by rewrite ?Hn.
Qed.

Lemma import_data_index_replaced_witness :
  ∃ st' d,
    import_data "energy.json.gz" "energy_usage" "Energy consumption" ∅
      (Some sample_cluster) sample_env empty_storage = (st', inr (EsDs d)) ∧
    es_indices st' !! "example-energy_usage"
    = Some [("energy_usage",
             JObj [("source", JStr "Coal"); ("target", JStr "Power");
                   ("value", JInt 7)])].
Proof.
  destruct (import_data_index_replaced "energy.json.gz" "energy_usage"
              "Energy consumption" ∅ sample_cluster sample_env empty_storage
              [JObj [("source", JStr "Coal"); ("target", JStr "Power");
                     ("value", JInt 7)]])
    as (st' & d & Hrun & Hidx & _).
  - intros n o. reflexivity.
  - reflexivity.
  - exists st', d. exact (conj Hrun Hidx).
Defined.

(** X7: on the search-cluster path the dataset record is featured for
    every table, 'random_time_series' included, and has the description
    given; its time column is 'ds' for 'birth_names', 'year' for
    'wb_health_population', and for any other table the one the record had
    before (none for a new record). *)
Theorem import_data_index_record file table_name description dtype cluster e st data :
  quiet e →
  gzip_json_loads e file = inr data →
  ∃ st' d,
    import_data file table_name description dtype (Some cluster) e st
    = (st', inr (EsDs d)) ∧
    ElasticsearchDatasource.is_featured d = Some true ∧
    ElasticsearchDatasource.description d = Some description ∧
    ElasticsearchDatasource.main_dttm_col d
    = if decide (table_name = "birth_names") then Some "ds"
      else if decide (table_name = "wb_health_population") then Some "year"
      else find (λ d, bool_decide (ElasticsearchDatasource.datasource_name d
                                   = "example-" +:+ table_name))
             (rows (datasource_table st))
           ≫= ElasticsearchDatasource.main_dttm_col.
Proof.
  intros Hq Hread. rewrite (import_data_index_quiet _ _ _ _ _ _ _ _ Hq Hread).
  eexists _, _. split; [reflexivity|].
  assert (Hr : ∀ r : ElasticsearchDatasource.t,
            r = datasource_record table_name description
                  (ElasticsearchCluster.id cluster) (datasource_table st) →
            ElasticsearchDatasource.is_featured r = Some true ∧
            ElasticsearchDatasource.description r = Some description ∧
            ElasticsearchDatasource.main_dttm_col r
            = if decide (table_name = "birth_names") then Some "ds"
              else if decide (table_name = "wb_health_population") then Some "year"
              else find (λ d, bool_decide (ElasticsearchDatasource.datasource_name d
                                           = "example-" +:+ table_name))
                     (rows (datasource_table st))
                   ≫= ElasticsearchDatasource.main_dttm_col).
  { intros r ->. unfold datasource_record. cbv zeta.
    repeat case_decide; try done.
    by destruct (find _ (rows (datasource_table st))). }
  destruct (table_add_snd_cases
              (datasource_record table_name description
                 (ElasticsearchCluster.id cluster) (datasource_table st))
              (datasource_table st)) as [-> | ->].
  - exact (Hr _ eq_refl).
  - exact (Hr _ eq_refl).
Qed.

Lemma import_data_index_record_witness :
  ∃ st' d,
    import_data "random_time_series.json.gz" "random_time_series"
      "Random time series" ∅ (Some sample_cluster) sample_env empty_storage
    = (st', inr (EsDs d)) ∧
    ElasticsearchDatasource.is_featured d = Some true ∧
    ElasticsearchDatasource.main_dttm_col d = None.
Proof.
  destruct (import_data_index_record "random_time_series.json.gz"
              "random_time_series" "Random time series" ∅ sample_cluster
              sample_env empty_storage [JObj [("ds", JInt 60)]])
    as (st' & d & Hrun & Hf & _ & Hcol).
  - intros n o. reflexivity.
  - reflexivity.
  - exists st', d. exact (conj Hrun (conj Hf Hcol)).
Defined.

(** ** import_data on the relational path *)

Lemma has_char_replace a b s : a ≠ b → has_char a (replace_char a b s) = false.
Proof.
  intros Hab. induction s as [|c s IH]; simpl; [done|].
  destruct (decide (c = a)) as [->|Hc].
  - rewrite decide_False by done. exact IH.
  - rewrite decide_False by done. exact IH.
Qed.

Lemma df_set_names c v (df : DataFrame) : (df_set c v df).*1 = df.*1.
Proof.
  induction df as [|[c0 v0] df IH]; simpl; [done|].
  case_decide; simpl; [done|]. f_equal. exact IH.
Qed.

Lemma coerce_dates_names e table_name (pdf pdf' : DataFrame) :
  coerce_dates e table_name pdf = inr pdf' → pdf'.*1 = pdf.*1.
Proof.
  unfold coerce_dates, coerce_date.
  repeat case_decide; repeat case_match; intros [= <-];
    first [done | apply df_set_names].
Qed.

Lemma rename_columns_names (pdf : DataFrame) :
  (rename_columns pdf).*1 = replace_char "." "_" <$> pdf.*1.
Proof.
  unfold rename_columns. rewrite <- !list_fmap_compose. done.
Qed.

(** X8: on the relational path [import_data] replaces the data table of
    the given name and no other; the table written has the columns of the
    file, in their order, each dot of a name turned into an underscore, so
    that no column name of a written table has a dot. *)
Theorem import_data_table_written file table_name description dtype e st pdf pdf' :
  quiet e →
  pd_read_json e file = inr pdf →
  coerce_dates e table_name (rename_columns pdf) = inr pdf' →
  ∃ st' ds written,
    import_data file table_name description dtype None e st = (st', inr ds) ∧
    sql_tables st' !! table_name = Some (written, dtype) ∧
    (∀ n, n ≠ table_name → sql_tables st' !! n = sql_tables st !! n) ∧
    written.*1 = replace_char "." "_" <$> pdf.*1 ∧
    Forall (λ c, has_char "." c = false) written.*1.
Proof.
  intros Hq Hread Hco.
  rewrite (import_data_table_quiet _ _ _ _ _ _ _ _ Hq Hread Hco).
  eexists _, _, _. split; [reflexivity|].
  unfold imported_table. cbn [sql_tables].
  split; [apply lookup_insert_eq|]. split.
  { intros n Hn. by rewrite lookup_insert_ne. }
  assert (Hnames : pdf'.*1 = replace_char "." "_" <$> pdf.*1).
  { rewrite (coerce_dates_names _ _ _ _ Hco). apply rename_columns_names. }
  split; [exact Hnames|].
  rewrite Hnames. apply Forall_fmap, Forall_forall. intros c _.
  by apply has_char_replace.
Qed.

Lemma import_data_table_written_witness :
  ∃ st' ds written,
    import_data "countries.json.gz" "wb_health_population" "" ∅ None
      sample_env empty_storage = (st', inr ds) ∧
    sql_tables st' !! "wb_health_population" = Some (written, ∅) ∧
    written.*1 = ["country_code"; "year"; "SP_POP_TOTL"].
Proof.
  destruct (import_data_table_written "countries.json.gz" "wb_health_population"
              "" ∅ sample_env empty_storage
              [("country.code", [Raw (JStr "FRA")]);
               ("year", [Raw (JStr "1960-01-01")]);
               ("SP.POP.TOTL", [Raw (JInt 46)])]
              [("country_code", [Raw (JStr "FRA")]);
               ("year", [Timestamp (-315619200000000000)]);
               ("SP_POP_TOTL", [Raw (JInt 46)])])
    as (st' & ds & w & Hrun & Hw & _ & Hn & _).
  - intros n o. reflexivity.
  - reflexivity.
  - reflexivity.
  - exists st', ds, w. exact (conj Hrun (conj Hw Hn)).
Defined.

(** X9: on the relational path, the table written for 'random_time_series'
    has its 'ds' column converted by [pd.to_datetime] in seconds, and for
    a table that is none of 'birth_names', 'wb_health_population' and
    'random_time_series' the frame is written as read (names apart),
    whatever its columns. *)
Theorem import_data_other_date_rules file table_name description dtype e st pdf :
  quiet e →
  pd_read_json e file = inr pdf →
  (table_name = "random_time_series" →
   ∀ v v', df_get "ds" (rename_columns pdf) = Some v →
           pd_to_datetime e (Some "s") v = inr v' →
     ∃ st' ds,
       import_data file table_name description dtype None e st = (st', inr ds) ∧
       sql_tables st' !! table_name
       = Some (df_set "ds" v' (rename_columns pdf), dtype)) ∧
  (table_name ∉ ["birth_names"; "wb_health_population"; "random_time_series"] →
     ∃ st' ds,
       import_data file table_name description dtype None e st = (st', inr ds) ∧
       sql_tables st' !! table_name = Some (rename_columns pdf, dtype)).
Proof.
  intros Hq Hread. split.
  - intros -> v v' Hget Hconv.
    assert (Hco : coerce_dates e "random_time_series" (rename_columns pdf)
                  = inr (df_set "ds" v' (rename_columns pdf))).
    { unfold coerce_dates, coerce_date.
      rewrite decide_False by done. rewrite decide_False by done.
      rewrite decide_True by done. by rewrite Hget, Hconv. }
    rewrite (import_data_table_quiet _ _ _ _ _ _ _ _ Hq Hread Hco).
    eexists _, _. split; [reflexivity|].
    unfold imported_table. cbn [sql_tables]. apply lookup_insert_eq.
  - intros Hnot.
    assert (Hco : coerce_dates e table_name (rename_columns pdf)
                  = inr (rename_columns pdf)).
    { unfold coerce_dates.
      rewrite !decide_False; [done|intros ->; apply Hnot..].
      - do 2 right. left.
      - right. left.
      - left. }
    rewrite (import_data_table_quiet _ _ _ _ _ _ _ _ Hq Hread Hco).
    eexists _, _. split; [reflexivity|].
    unfold imported_table. cbn [sql_tables]. apply lookup_insert_eq.
Qed.

Lemma import_data_other_date_rules_witness :
  (∃ st' ds,
     import_data "random_time_series.json.gz" "random_time_series" "" ∅ None
       sample_env empty_storage = (st', inr ds) ∧
     sql_tables st' !! "random_time_series"
     = Some ([("ds", [Timestamp 60000000000])], ∅)) ∧
  (∃ st' ds,
     import_data "energy.json.gz" "energy_usage" "" ∅ None
       sample_env empty_storage = (st', inr ds) ∧
     sql_tables st' !! "energy_usage"
     = Some ([("source", [Raw (JStr "Coal")]); ("target", [Raw (JStr "Power")]);
              ("value", [Raw (JInt 7)])], ∅)).
Proof.
  split.
  - destruct (import_data_other_date_rules "random_time_series.json.gz"
                "random_time_series" "" ∅ sample_env empty_storage
                [("ds", [Raw (JInt 60)])]) as [H _].
    + intros n o. reflexivity.
    + reflexivity.
    + apply (H eq_refl [Raw (JInt 60)] [Timestamp 60000000000]); reflexivity.
  - destruct (import_data_other_date_rules "energy.json.gz" "energy_usage" "" ∅
                sample_env empty_storage
                [("source", [Raw (JStr "Coal")]); ("target", [Raw (JStr "Power")]);
                 ("value", [Raw (JInt 7)])]) as [_ H].
    + intros n o. reflexivity.
    + reflexivity.
    + apply H. vm_compute. intros Hin.
      repeat (apply elem_of_cons in Hin as [Hin|Hin]; [discriminate Hin|]).
      by apply elem_of_nil in Hin.
Defined.

Lemma db_record_facts e (t : table DB.t) :
  ids_ok t →
  let d := (table_add (db_record e t) t).2 in
  d ∈ rows (table_add (db_record e t) t).1 ∧
  DB.database_name d = "main" ∧ is_Some (DB.id d).
Proof.
  intros Hok. cbv zeta. unfold db_record.
  destruct (find _ (rows t)) as [x|] eqn:Hfind; cbn [default from_option id].
  - apply find_elem in Hfind as [Hx Hp]. apply bool_decide_eq_true in Hp.
    destruct (table_add_found (DB.set_sqlalchemy_uri (SQLALCHEMY_DATABASE_URI e) x)
                x t Hok Hx eq_refl) as (Heq & _ & _ & Hin & _).
    rewrite Heq in *. split; [done|]. split; [done|].
    destruct Hok as [_ Hb]. rewrite Forall_forall in Hb.
    destruct (Hb (model_id x)) as (i & Hi & _); [by apply list_elem_of_fmap_2|].
    cbn [DB.id DB.set_sqlalchemy_uri]. cbn in Hi. rewrite Hi. by eexists.
  - unfold table_add. cbn [model_id DB_model DB.id DB.set_sqlalchemy_uri fst snd rows
      next_id model_set_id DB.set_id DB.database_name].
    split; [|split; [done|by eexists]].
    apply elem_of_app. right. by apply list_elem_of_singleton.
Qed.

(** X10: on the relational path [import_data] returns the table record of
    the given name, persisted, with the given description and linked to
    the persisted "main" connection; its date column is 'ds' for
    'birth_names' and 'random_time_series', 'year' for
    'wb_health_population', and for any other table what the record of
    that name held before (nothing for a new record). *)
Theorem import_data_table_record file table_name description dtype e st pdf pdf' :
  quiet e →
  ids_ok (DB_table st) →
  pd_read_json e file = inr pdf →
  coerce_dates e table_name (rename_columns pdf) = inr pdf' →
  ∃ st' t d,
    import_data file table_name description dtype None e st
    = (st', inr (TableDs t)) ∧
    t ∈ rows (TBL_table st') ∧
    TBL.table_name t = table_name ∧
    TBL.description t = Some description ∧
    d ∈ rows (DB_table st') ∧ DB.database_name d = "main" ∧
    is_Some (DB.id d) ∧ TBL.database t = DB.id d ∧
    TBL.main_dttm_col t
    = if decide (table_name = "birth_names") then Some "ds"
      else if decide (table_name = "wb_health_population") then Some "year"
      else if decide (table_name = "random_time_series") then Some "ds"
      else find (λ t, bool_decide (TBL.table_name t = table_name))
             (rows (TBL_table st))
           ≫= TBL.main_dttm_col.
Proof.
  intros Hq Hok Hread Hco.
  rewrite (import_data_table_quiet _ _ _ _ _ _ _ _ Hq Hread Hco).
  destruct (db_record_facts e (DB_table st) Hok) as (Hd & Hmain & Hid).
  set (d := (table_add (db_record e (DB_table st)) (DB_table st)).2) in *.
  eexists _, _, d. split; [reflexivity|].
  unfold imported_table. cbn [TBL_table DB_table]. fold d.
  split; [apply table_record_elem|].
  assert (Hr : ∀ r : TBL.t,
            r = table_record table_name description (TBL_table st) (DB.id d) →
            TBL.table_name r = table_name ∧
            TBL.description r = Some description ∧
            TBL.database r = DB.id d ∧
            TBL.main_dttm_col r
            = if decide (table_name = "birth_names") then Some "ds"
              else if decide (table_name = "wb_health_population") then Some "year"
              else if decide (table_name = "random_time_series") then Some "ds"
              else find (λ t, bool_decide (TBL.table_name t = table_name))
                     (rows (TBL_table st))
                   ≫= TBL.main_dttm_col).
  { intros r ->. unfold table_record. cbv zeta.
    assert (Hname : TBL.table_name
                      (default (TBL.mk None table_name None None None None)
                         (find (λ t, bool_decide (TBL.table_name t = table_name))
                            (rows (TBL_table st)))) = table_name).
    { destruct (find _ (rows (TBL_table st))) as [x|] eqn:Hfind;
        cbn [default from_option id]; [|done].
      apply find_elem in Hfind as [_ Hp]. by apply bool_decide_eq_true in Hp. }
    repeat case_decide; (split; [exact Hname|]); try done.
    by destruct (find _ (rows (TBL_table st))). }
  assert (Hr' : TBL.table_name
                  (table_add (table_record table_name description (TBL_table st)
                                (DB.id d)) (TBL_table st)).2 = table_name ∧
                TBL.description
                  (table_add (table_record table_name description (TBL_table st)
                                (DB.id d)) (TBL_table st)).2 = Some description ∧
                TBL.database
                  (table_add (table_record table_name description (TBL_table st)
                                (DB.id d)) (TBL_table st)).2 = DB.id d ∧
                TBL.main_dttm_col
                  (table_add (table_record table_name description (TBL_table st)
                                (DB.id d)) (TBL_table st)).2
                = if decide (table_name = "birth_names") then Some "ds"
                  else if decide (table_name = "wb_health_population") then Some "year"
                  else if decide (table_name = "random_time_series") then Some "ds"
                  else find (λ t, bool_decide (TBL.table_name t = table_name))
                         (rows (TBL_table st))
                       ≫= TBL.main_dttm_col).
  { destruct (table_add_snd_cases
                (table_record table_name description (TBL_table st) (DB.id d))
                (TBL_table st)) as [-> | ->].
    - exact (Hr _ eq_refl).
    - exact (Hr _ eq_refl). }
  destruct Hr' as (H1 & H2 & H3 & H4).
  exact (conj H1 (conj H2 (conj Hd (conj Hmain (conj Hid (conj H3 H4)))))).
Qed.

Lemma import_data_table_record_witness :
  ∃ st' t,
    import_data "random_time_series.json.gz" "random_time_series"
      "Random time series" ∅ None sample_env empty_storage
    = (st', inr (TableDs t)) ∧
    TBL.description t = Some "Random time series" ∧
    TBL.main_dttm_col t = Some "ds".
Proof.
  destruct (import_data_table_record "random_time_series.json.gz"
              "random_time_series" "Random time series" ∅ sample_env empty_storage
              [("ds", [Raw (JInt 60)])] [("ds", [Timestamp 60000000000])])
    as (st' & t & d & Hrun & _ & _ & Hdesc & _ & _ & _ & _ & Hcol).
  - intros n o. reflexivity.
  - split; simpl; [apply NoDup_nil_2|apply Forall_nil_2].
  - reflexivity.
  - reflexivity.
  - exists st', t. exact (conj Hrun (conj Hdesc Hcol)).
Defined.

(** ** import_data: failures before the first write *)

(** X11: when the file cannot be read, [import_data] ends with the
    reader's failure on either path, before any call to the store or the
    cluster: the storage is as it was, with the failure recorded. *)
Theorem import_data_unreadable file table_name description dtype es_cluster e st f :
  match es_cluster with
  | Some _ => gzip_json_loads e file = inl f
  | None => pd_read_json e file = inl f
  end →
  import_data file table_name description dtype es_cluster e st
  = (set_faults
       (faults st ++ [(match es_cluster with
                       | Some _ => GzipJsonLoads
                       | None => PdReadJson
                       end, f)]) st, inl f).
Proof.
  intros Hread. unfold import_data. unfold bind at 1. unfold ask at 1.
  destruct es_cluster as [cluster|]; rewrite Hread; reflexivity.
Qed.

Lemma import_data_unreadable_witness :
  import_data "energy.json.gz" "energy_usage" "" ∅ None
    (unreadable sample_env) empty_storage
  = (set_faults [(PdReadJson, ValueError)] empty_storage, inl ValueError).
Proof.
  apply (import_data_unreadable "energy.json.gz" "energy_usage" "" ∅ None
           (unreadable sample_env) empty_storage ValueError).
  reflexivity.
Defined.

(** X12: on the relational path, a frame without the date column of its
    table ('ds' for 'birth_names' and 'random_time_series', 'year' for
    'wb_health_population') makes [import_data] end with an attribute
    error, and a column that [pd.to_datetime] rejects with that failure;
    in both cases nothing was written: the storage is as it was, with the
    failure recorded. *)
Theorem import_data_bad_date_column file table_name col unit description dtype
    e st pdf :
  (table_name, col, unit) ∈ date_rules →
  pd_read_json e file = inr pdf →
  (df_get col (rename_columns pdf) = None →
   import_data file table_name description dtype None e st
   = (set_faults (faults st ++ [(GetAttr, AttributeError col)]) st,
      inl (AttributeError col))) ∧
  (∀ v f, df_get col (rename_columns pdf) = Some v →
          pd_to_datetime e unit v = inl f →
   import_data file table_name description dtype None e st
   = (set_faults (faults st ++ [(PdToDatetime, f)]) st, inl f)).
Proof.
  intros Hin Hread.
  assert (Hco : coerce_dates e table_name (rename_columns pdf)
                = coerce_date e col unit (rename_columns pdf)).
  { unfold date_rules in Hin.
    repeat (apply elem_of_cons in Hin as [[= -> -> ->]|Hin]; [reflexivity|]).
    by apply elem_of_nil in Hin. }
  assert (Hrun : ∀ o f, coerce_date e col unit (rename_columns pdf) = inl (o, f) →
            import_data file table_name description dtype None e st
            = (set_faults (faults st ++ [(o, f)]) st, inl f)).
  { intros o f Hfail. unfold import_data.
    unfold bind at 1. unfold ask at 1. rewrite Hread.
    unfold bind at 1. unfold lib at 1, ret at 1.
    cbv zeta. rewrite Hco, Hfail. reflexivity. }
  split.
  - intros Hget. apply Hrun. unfold coerce_date. by rewrite Hget.
  - intros v f Hget Hconv. apply Hrun. unfold coerce_date. by rewrite Hget, Hconv.
Qed.

Lemma import_data_bad_date_column_witness :
  import_data "birth_names.json.gz" "birth_names" "" ∅ None
    (with_frame [("name", [Raw (JStr "Ann")])] sample_env) empty_storage
  = (set_faults [(GetAttr, AttributeError "ds")] empty_storage,
     inl (AttributeError "ds")).
Proof.
  destruct (import_data_bad_date_column "birth_names.json.gz" "birth_names" "ds"
              (Some "ms") "" ∅
              (with_frame [("name", [Raw (JStr "Ann")])] sample_env) empty_storage
              [("name", [Raw (JStr "Ann")])]) as [H _].
  - unfold date_rules. apply list_elem_of_here.
  - reflexivity.
  - apply H. reflexivity.
Defined.

(** ** get_or_create_slice: what one call does to the slice table *)

Lemma filter_one_out {A B} (f : A → B) `{EqDecision B} (P : A → Prop)
    `{∀ x, Decision (P x)} (o : A) (l : list A) :
  NoDup (f <$> l) → o ∈ l → P o →
  S (length (filter P (filter (λ x, f x ≠ f o) l))) = length (filter P l).
Proof.
  induction l as [|x l IH]; intros Hnd Ho HP.
  { by apply elem_of_nil in Ho. }
  rewrite fmap_cons in Hnd. apply NoDup_cons in Hnd as [Hx Hnd].
  apply elem_of_cons in Ho as [->|Ho].
  - rewrite filter_cons_False by (intros Hne; by apply Hne).
    rewrite (filter_all (λ y, f y ≠ f x) l).
    + by rewrite (filter_cons_True P) by done.
    + intros y Hy Heq. apply Hx. rewrite <- Heq. by apply list_elem_of_fmap_2.
  - rewrite (filter_cons_True (λ y, f y ≠ f o)).
    + rewrite !(filter_cons P). case_decide; cbn [length]; by rewrite IH.
    + intros Heq. apply Hx. rewrite Heq. by apply list_elem_of_fmap_2.
Qed.

(** X13: one call of [get_or_create_slice] gives the slice the next
    identifier of the table, which no row had, also when a slice of the
    name existed; every row of another name is kept, in order; of the rows
    of the name only the first is deleted, so that the table holds as many
    rows of the name as before, or one if it had none. *)
Theorem get_or_create_slice_replaces_first name viz ds defaults params e st :
  quiet e →
  ids_ok (Slice_table st) →
  ∃ st' slc,
    get_or_create_slice name viz ds defaults params e st = (st', inr slc) ∧
    Slice.id slc = Some (next_id (Slice_table st)) ∧
    (Slice.id slc ∉ Slice.id <$> rows (Slice_table st)) ∧
    next_id (Slice_table st') = S (next_id (Slice_table st)) ∧
    filter (λ s, Slice.slice_name s ≠ stored_name name ds) (rows (Slice_table st'))
    = filter (λ s, Slice.slice_name s ≠ stored_name name ds) (rows (Slice_table st)) ∧
    length (filter (λ s, Slice.slice_name s = stored_name name ds)
              (rows (Slice_table st')))
    = Nat.max 1 (length (filter (λ s, Slice.slice_name s = stored_name name ds)
                           (rows (Slice_table st)))).
Proof.
  intros Hq [Hnd Hb].
  rewrite get_or_create_slice_quiet by done. cbv zeta.
  eexists _, _. split; [reflexivity|].
  unfold tick. cbn [Slice_table set_clock set_Slice_table].
  unfold table_add. cbn [model_id Slice_model Slice.id new_slice fst snd rows next_id
    model_set_id Slice.set_id].
  assert (Hnext : next_id (without_first (stored_name name ds) (Slice_table st))
                  = next_id (Slice_table st)).
  { unfold without_first. by destruct (find _ _). }
  rewrite Hnext. split; [done|]. split.
  { intros Hin. rewrite Forall_forall in Hb.
    destruct (Hb _ Hin) as (i & [= <-] & Hlt). lia. }
  split; [done|].
  rewrite !filter_app.
  rewrite (filter_cons_False (λ s, Slice.slice_name s ≠ stored_name name ds))
    by (intros Hne; by apply Hne).
  rewrite (filter_cons_True (λ s, Slice.slice_name s = stored_name name ds)) by done.
  rewrite !filter_nil, app_nil_r, length_app. cbn [length].
  unfold without_first.
  destruct (find _ (rows (Slice_table st))) as [o|] eqn:Hfind.
  - apply find_elem in Hfind as [Ho Hp]. apply bool_decide_eq_true in Hp.
    unfold table_delete. cbn [rows model_id Slice_model]. split.
    + rewrite list_filter_filter. apply filter_ext_in. intros x Hx. split; [tauto|].
      intros Hne. split; [done|]. intros Heq. apply Hne.
      by rewrite (NoDup_fmap_eq Slice.id _ x o Hnd Hx Ho Heq).
    + rewrite Nat.add_1_r.
      rewrite (filter_one_out Slice.id
                 (λ s, Slice.slice_name s = stored_name name ds) o _ Hnd Ho Hp).
      assert (0 < length (filter (λ s, Slice.slice_name s = stored_name name ds)
                            (rows (Slice_table st)))); [|lia].
      assert (Hin : o ∈ filter (λ s, Slice.slice_name s = stored_name name ds)
                          (rows (Slice_table st))).
      { by apply list_elem_of_filter. }
      destruct (filter _ _); [by apply elem_of_nil in Hin|simpl; lia].
  - split; [done|].
    rewrite (filter_none (λ s, Slice.slice_name s = stored_name name ds)); [done|].
    intros x Hx Hname.
    assert (Hf := find_none _ _ Hfind x (proj1 (list_elem_of_In _ _) Hx)).
    cbv beta in Hf. by rewrite bool_decide_eq_false in Hf.
Qed.

Lemma get_or_create_slice_replaces_first_witness :
  ∃ st' slc,
    get_or_create_slice "Energy Sankey" "sankey" (TableDs sample_table) ∅ ∅
      sample_env empty_storage = (st', inr slc) ∧
    Slice.id slc = Some 1 ∧
    length (filter (λ s, Slice.slice_name s = "Energy Sankey")
              (rows (Slice_table st'))) = 1.
Proof.
  destruct (get_or_create_slice_replaces_first "Energy Sankey" "sankey"
              (TableDs sample_table) ∅ ∅ sample_env empty_storage)
    as (st' & slc & Hrun & Hid & _ & _ & _ & Hlen).
  - intros n o. reflexivity.
  - split; simpl; [apply NoDup_nil_2|apply Forall_nil_2].
  - exists st', slc. exact (conj Hrun (conj Hid Hlen)).
Defined.

(** ** get_or_create_slice: the record and its blob *)

(** X14: the columns of the slice come from the arguments alone: the
    chart type, the type of the dataset, and one reference to the dataset,
    in the column of its kind, the other left empty.  The five entries the
    function computes for the blob are the stored name, the chart type and
    the type, identifier and name of the dataset, unless [params] has the
    key, whose value then stands in the blob while the column keeps the
    argument; an entry of [defaults] under one of these keys is never
    seen. *)
Theorem get_or_create_slice_record name viz ds defaults params e st :
  quiet e →
  ∃ st' slc,
    get_or_create_slice name viz ds defaults params e st = (st', inr slc) ∧
    Slice.viz_type slc = viz ∧
    Slice.datasource_type slc = datasource_type_of ds ∧
    match ds with
    | TableDs t =>
        Slice.table slc = TBL.id t ∧ Slice.elasticsearch_datasource slc = None
    | EsDs d =>
        Slice.table slc = None ∧
        Slice.elasticsearch_datasource slc = ElasticsearchDatasource.id d
    end ∧
    ∀ k computed,
      (k, computed) ∈ [("slice_name", JStr (stored_name name ds));
                       ("viz_type", JStr viz);
                       ("datasource_type", JStr (datasource_type_of ds));
                       ("datasource_id", json_of_id (datasource_id_of ds));
                       ("datasource_name", JStr (datasource_name_of ds))] →
      obj_get k (Slice.params slc) = Some (default computed (params !! k)).
Proof.
  intros Hq.
  destruct (get_or_create_slice_rows e st name viz ds defaults params Hq)
    as (st' & slc & Hrun & -> & _).
  exists st', (Slice.set_id (Some (next_id (Slice_table st)))
                 (new_slice name viz ds defaults params)).
  split; [exact Hrun|].
  cbn [Slice.set_id new_slice Slice.viz_type Slice.datasource_type Slice.table
    Slice.elasticsearch_datasource Slice.params].
  split; [done|]. split; [done|]. split.
  { destruct ds; by cbn. }
  intros k computed Hin. rewrite obj_get_dumps_sorted.
  unfold slice_params. cbv zeta. rewrite lookup_union.
  repeat (apply elem_of_cons in Hin as [[= -> ->]|Hin];
          [destruct (params !! _) as [v|] eqn:Hp;
           [by rewrite union_Some_l
           |rewrite (left_id None _);
            repeat (first [rewrite lookup_insert_eq; reflexivity
                          |rewrite lookup_insert_ne by done])]|]).
  by apply elem_of_nil in Hin.
Qed.

Lemma get_or_create_slice_record_witness :
  ∃ st' slc,
    get_or_create_slice "Energy Sankey" "sankey" (TableDs sample_table)
      (dict_of [("viz_type", JStr "table")])
      (dict_of [("datasource_name", JStr "other")])
      sample_env empty_storage = (st', inr slc) ∧
    Slice.table slc = Some 1 ∧
    obj_get "viz_type" (Slice.params slc) = Some (JStr "sankey") ∧
    obj_get "datasource_name" (Slice.params slc) = Some (JStr "other").
Proof.
  destruct (get_or_create_slice_record "Energy Sankey" "sankey"
              (TableDs sample_table) (dict_of [("viz_type", JStr "table")])
              (dict_of [("datasource_name", JStr "other")])
              sample_env empty_storage)
    as (st' & slc & Hrun & _ & _ & [Htable _] & Hblob).
  - intros n o. reflexivity.
  - exists st', slc.
    exact (conj Hrun
             (conj Htable
                (conj (Hblob "viz_type" (JStr "sankey")
                         ltac:(apply list_elem_of_further, list_elem_of_here))
                      (Hblob "datasource_name" (JStr "energy_usage")
                         ltac:(do 4 apply list_elem_of_further;
                               apply list_elem_of_here))))).
Defined.

Lemma key_le_total : Total key_le.
Proof. intros a b. apply String.leb_total. Qed.

Lemma Sorted_NoDup_strict (l : list string) :
  Sorted (λ a b, String.leb a b = true) l → NoDup l → Sorted key_lt l.
Proof.
  induction 1 as [|a l Hs IH Hhd]; intros Hnd; [constructor|].
  apply NoDup_cons in Hnd as [Ha Hnd]. constructor; [by apply IH|].
  destruct Hhd as [|b l Hab]; constructor.
  split; [done|]. intros ->. apply Ha. left.
Qed.

(** X15: the blob of a slice has its keys in strictly ascending order (the
    order of [sort_keys=True]), none of them twice, whatever the order in
    which [defaults], the computed entries and [params] were put
    together. *)
Theorem slice_blob_sorted name viz ds defaults params e st :
  quiet e →
  ∃ st' slc,
    get_or_create_slice name viz ds defaults params e st = (st', inr slc) ∧
    Sorted key_lt (obj_keys (Slice.params slc)) ∧
    NoDup (obj_keys (Slice.params slc)).
Proof.
  intros Hq.
  destruct (get_or_create_slice_rows e st name viz ds defaults params Hq)
    as (st' & slc & Hrun & -> & _).
  eexists _, _. split; [exact Hrun|].
  cbn [Slice.set_id new_slice Slice.params].
  unfold obj_keys, json_dumps_sorted. cbn [obj_members].
  assert (Hnd : NoDup (merge_sort key_le
                         (map_to_list
                            (slice_params (stored_name name ds) viz ds
                               defaults params))).*1).
  { rewrite merge_sort_Permutation. apply NoDup_fst_map_to_list. }
  split; [|exact Hnd].
  apply Sorted_NoDup_strict; [|exact Hnd].
  apply (Sorted_fmap _ key_le); [by intros x y|].
  apply Sorted_merge_sort, key_le_total.
Qed.

Lemma slice_blob_sorted_witness :
  ∃ st' slc,
    get_or_create_slice "Energy Sankey" "sankey" (TableDs sample_table)
      (dict_of [("row_limit", JInt 5000)]) (dict_of [("metric", JStr "sum__value")])
      sample_env empty_storage = (st', inr slc) ∧
    Sorted key_lt (obj_keys (Slice.params slc)).
Proof.
  destruct (slice_blob_sorted "Energy Sankey" "sankey" (TableDs sample_table)
              (dict_of [("row_limit", JInt 5000)])
              (dict_of [("metric", JStr "sum__value")])
              sample_env empty_storage)
    as (st' & slc & Hrun & Hs & _).
  - intros n o. reflexivity.
  - exists st', slc. exact (conj Hrun Hs).
Defined.

(** ** The slices of a run *)

Lemma run_loader_shape l es e st :
  quiet e → ready l es e → l ≠ CssTemplates →
  ∃ st' ds cs dash,
    run_loader l es e st
    = (st', inr (Loaded (Some ds) (slices_after ds cs (Slice_table st)).2 dash [])) ∧
    Slice_table st' = (slices_after ds cs (Slice_table st)).1 ∧
    call_name <$> cs = loader_slice_names l ∧
    datasource_type_of ds
    = match loader_path l es with Some _ => "elasticsearch" | None => "table" end.
Proof.
  intros Hq Hready Hl. destruct l; cbn [ready run_loader] in *; [| | done | | |].
  - destruct (import_ready_imported e "energy.json.gz" "energy_usage"
                "Energy consumption"
                (list_to_map [("source", String_ 255); ("target", String_ 255);
                              ("value", Float)]) es st Hready) as (st0 & ds & Hi).
    destruct (imported_frame _ _ _ _ _ _ _ _ _ Hi) as [Hslt Htype].
    apply import_data_quiet in Hi; [|done].
    destruct (load_energy_quiet es e st st0 ds Hq Hi) as (cs & Hnames & _ & Hrun).
    rewrite Hslt in Hrun. eexists _, ds, cs, None.
    split; [exact Hrun|]. unfold with_slices. cbn [Slice_table]. by rewrite Hslt.
  - destruct Hready as [[description Hfile] Himp].
    destruct (import_ready_imported e "countries.json.gz" "wb_health_population"
                description
                (list_to_map [("year", DateTime); ("country_code", String_ 3);
                              ("country_name", String_ 255); ("region", String_ 255)])
                es st Himp) as (st0 & ds & Hi).
    destruct (imported_frame _ _ _ _ _ _ _ _ _ Hi) as [Hslt Htype].
    apply import_data_quiet in Hi; [|done].
    destruct (load_world_bank_quiet es e st st0 ds description Hq Hfile Hi)
      as (cs & Hnames & Hrun).
    cbv zeta in Hrun. rewrite Hslt in Hrun. eexists _, ds, cs, (Some _).
    split; [exact Hrun|]. unfold with_dash, with_slices. cbn [Slice_table].
    by rewrite Hslt.
  - destruct (import_ready_imported e "birth_names.json.gz" "birth_names" ""
                (list_to_map [("ds", DateTime); ("gender", String_ 16);
                              ("state", String_ 10); ("name", String_ 255)])
                es st Hready) as (st0 & ds & Hi).
    destruct (imported_frame _ _ _ _ _ _ _ _ _ Hi) as [Hslt Htype].
    apply import_data_quiet in Hi; [|done].
    destruct (load_birth_names_quiet es e st st0 ds Hq Hi) as (cs & Hnames & Hrun).
    cbv zeta in Hrun. rewrite Hslt in Hrun. eexists _, ds, cs, (Some _).
    split; [exact Hrun|]. unfold with_dash, with_slices. cbn [Slice_table].
    by rewrite Hslt.
  - destruct Hready as [df Hread].
    destruct (load_unicode_test_data_quiet es e st df Hq Hread) as (c & Hname & Hrun).
    cbv zeta in Hrun. eexists _, _, [c], (Some _).
    split; [exact Hrun|]. unfold with_dash, with_slices. cbn [Slice_table].
    split; [done|]. split; [|done].
    cbn [fmap list_fmap loader_slice_names]. by rewrite Hname.
  - destruct (import_ready_imported e "random_time_series.json.gz"
                "random_time_series" "Random time series"
                (list_to_map [("ds", DateTime)]) es st Hready) as (st0 & ds & Hi).
    destruct (imported_frame _ _ _ _ _ _ _ _ _ Hi) as [Hslt Htype].
    apply import_data_quiet in Hi; [|done].
    destruct (load_random_time_series_quiet es e st st0 ds Hq Hi)
      as (cs & Hnames & Hrun).
    rewrite Hslt in Hrun. eexists _, ds, cs, None.
    split; [exact Hrun|]. unfold with_slices. cbn [Slice_table]. by rewrite Hslt.
Qed.

Lemma slices_after_refs ds cs (t : table Slice.t) :
  Forall (λ s, Slice.datasource_type s = datasource_type_of ds ∧
               slice_ref (datasource_type_of ds) s = datasource_id_of ds ∧
               slice_other_ref (datasource_type_of ds) s = None)
    (slices_after ds cs t).2.
Proof.
  revert t. induction cs as [|c cs IH]; intros t; cbn [slices_after fst snd];
    [apply Forall_nil_2|].
  apply Forall_cons. split; [|apply IH].
  rewrite slice_step_slice. unfold slice_ref, slice_other_ref.
  cbn [Slice.set_id new_slice Slice.datasource_type Slice.table
    Slice.elasticsearch_datasource].
  split; [done|]. by case_decide.
Qed.

Lemma datasource_id_some e ds st :
  consistent st → datasource_persisted e ds st → is_Some (datasource_id_of ds).
Proof.
  intros (_ & _ & (_ & _ & Htb) & (_ & _ & Hdb) & _) Hp.
  destruct ds as [t|d]; cbn [datasource_persisted datasource_id_of] in *.
  - destruct Hp as [[Hin _] _]. rewrite Forall_forall in Htb.
    destruct (Htb (model_id t)) as (i & Hi & _); [by apply list_elem_of_fmap_2|].
    cbn in Hi. rewrite Hi. by eexists.
  - destruct Hp as [Hin _]. rewrite Forall_forall in Hdb.
    destruct (Hdb (model_id d)) as (i & Hi & _); [by apply list_elem_of_fmap_2|].
    cbn in Hi. rewrite Hi. by eexists.
Qed.

(** X16: every slice a loader creates refers to the dataset of the run, a
    persisted record with an identifier, in the column for datasets of
    its kind (the other column is empty) and carries its type: relational
    without a cluster, search-cluster with one, except for the unicode
    loader, which is relational always; the template loader has neither
    dataset nor slices. *)
Theorem loader_slices_reference_dataset l es_cluster e st :
  quiet e → ready l es_cluster e → consistent st →
  ∃ st' h,
    run_loader l es_cluster e st = (st', inr h) ∧
    match ld_datasource h with
    | None => l = CssTemplates ∧ ld_slices h = []
    | Some ds =>
        let type := match loader_path l es_cluster with
                    | Some _ => "elasticsearch"
                    | None => "table"
                    end in
        datasource_type_of ds = type ∧
        is_Some (datasource_id_of ds) ∧
        length (ld_slices h) = length (loader_slice_names l) ∧
        Forall (λ s, Slice.datasource_type s = type ∧
                     slice_ref type s = datasource_id_of ds ∧
                     slice_other_ref type s = None) (ld_slices h)
    end.
Proof.
  intros Hq Hready Hc.
  destruct (decide (l = CssTemplates)) as [->|Hl].
  { cbn [run_loader]. rewrite load_css_templates_quiet by done. cbv zeta.
    eexists _, _. split; [reflexivity|]. done. }
  destruct (run_loader_shape l es_cluster e st Hq Hready Hl)
    as (st' & ds & cs & dash & Hrun & Hslt & Hnames & Htype).
  destruct (run_loader_consistent l es_cluster e st Hq Hready Hc)
    as (st'' & h & Hrun' & Hc' & Hp).
  rewrite Hrun in Hrun'. injection Hrun' as <- <-.
  exists st', (Loaded (Some ds) (slices_after ds cs (Slice_table st)).2 dash []).
  split; [exact Hrun|]. cbn [ld_datasource ld_slices]. cbv zeta.
  split; [exact Htype|]. split.
  { destruct Hp as [Hds _]. cbn [ld_datasource] in Hds.
    by apply (datasource_id_some e ds st'). }
  split.
  { by rewrite slices_after_length, <- Hnames, length_fmap. }
  rewrite <- Htype. apply slices_after_refs.
Qed.

Lemma loader_slices_reference_dataset_witness :
  ∃ st' h,
    run_loader Energy (Some sample_cluster) sample_env empty_storage = (st', inr h) ∧
    match ld_datasource h with
    | None => False
    | Some ds =>
        is_Some (datasource_id_of ds) ∧
        Forall (λ s, Slice.datasource_type s = "elasticsearch" ∧
                     Slice.elasticsearch_datasource s = datasource_id_of ds ∧
                     Slice.table s = None) (ld_slices h)
    end.
Proof.
  destruct (loader_slices_reference_dataset Energy (Some sample_cluster) sample_env
              empty_storage) as (st' & h & Hrun & H).
  - intros n o. reflexivity.
  - cbn [ready]. unfold import_ready. eexists. vm_compute. reflexivity.
  - unfold consistent, dashboards_ok, table_ok, ids_ok. simpl.
    repeat split; first [apply NoDup_nil_2 | apply Forall_nil_2].
  - exists st', h. split; [exact Hrun|].
    destruct (ld_datasource h) as [ds|].
    + destruct H as (_ & Hid & _ & Hall). exact (conj Hid Hall).
    + destruct H as [Hl _]. discriminate Hl.
Defined.

Lemma slices_after_next ds cs (t : table Slice.t) :
  next_id (slices_after ds cs t).1 = next_id t + length cs.
Proof.
  revert t. induction cs as [|c cs IH]; intros t; cbn [slices_after fst snd length];
    [lia|].
  rewrite IH, slice_step_next. lia.
Qed.

Lemma loader_names_NoDup l :
  NoDup (loader_slice_names l) ∧
  NoDup ((λ n, n +:+ " (ES)") <$> loader_slice_names l).
Proof. destruct l; split; apply (bool_decide_unpack _); vm_compute; exact I. Qed.

Lemma stored_name_type n ds ds' :
  datasource_type_of ds = datasource_type_of ds' →
  stored_name n ds = stored_name n ds'.
Proof. unfold stored_name. by intros ->. Qed.

(** X17: a second run of a loader does not update the slices of the first
    in place: it creates as many slices under the same names, and every
    slice the first run returned is gone from the table, its identifier
    with it, so that an identifier kept from the first run refers to
    nothing. *)
Theorem rerun_replaces_slices l es_cluster e1 e2 st :
  quiet e1 → quiet e2 →
  ready l es_cluster e1 → ready l es_cluster e2 →
  consistent st →
  ∃ st1 h1 st2 h2,
    run_loader l es_cluster e1 st = (st1, inr h1) ∧
    run_loader l es_cluster e2 st1 = (st2, inr h2) ∧
    Slice.slice_name <$> ld_slices h2 = Slice.slice_name <$> ld_slices h1 ∧
    ∀ s, s ∈ ld_slices h1 →
         (s ∉ rows (Slice_table st2)) ∧
         (Slice.id s ∉ Slice.id <$> rows (Slice_table st2)) ∧
         (Slice.id s ∉ Slice.id <$> ld_slices h2).
Proof.
  intros Hq1 Hq2 Hr1 Hr2 Hc.
  destruct (run_loader_consistent l es_cluster e1 st Hq1 Hr1 Hc)
    as (st1 & h1 & Hrun1 & Hc1 & _).
  destruct (run_loader_consistent l es_cluster e2 st1 Hq2 Hr2 Hc1)
    as (st2 & h2 & Hrun2 & _ & _).
  exists st1, h1, st2, h2. split; [exact Hrun1|]. split; [exact Hrun2|].
  destruct (decide (l = CssTemplates)) as [->|Hl].
  { cbn [run_loader] in Hrun1, Hrun2.
    rewrite load_css_templates_quiet in Hrun1, Hrun2 by done. cbv zeta in Hrun1, Hrun2.
    injection Hrun1 as _ <-. injection Hrun2 as _ <-. cbn [ld_slices].
    split; [done|]. intros s Hs. by apply elem_of_nil in Hs. }
  destruct (run_loader_shape l es_cluster e1 st Hq1 Hr1 Hl)
    as (st1' & ds1 & cs1 & dash1 & Hrun1' & Hslt1 & Hnames1 & Htype1).
  rewrite Hrun1 in Hrun1'. injection Hrun1' as <- ->.
  destruct (run_loader_shape l es_cluster e2 st1 Hq2 Hr2 Hl)
    as (st2' & ds2 & cs2 & dash2 & Hrun2' & Hslt2 & Hnames2 & Htype2).
  rewrite Hrun2 in Hrun2'. injection Hrun2' as <- ->.
  cbn [ld_slices].
  assert (Hstored : (λ c, stored_name (call_name c) ds2) <$> cs2
                    = (λ c, stored_name (call_name c) ds1) <$> cs1).
  { transitivity ((λ n, stored_name n ds1) <$> (call_name <$> cs2)).
    - rewrite <- list_fmap_compose. apply list_fmap_ext. intros i c _.
      apply stored_name_type. by rewrite Htype1, Htype2.
    - rewrite Hnames2, <- Hnames1, <- list_fmap_compose. done. }
  split; [by rewrite !slices_after_names|].
  assert (Ht0 : table_ok Slice.slice_name (Slice_table st)) by apply Hc.
  assert (Ht1 : table_ok Slice.slice_name (Slice_table st1)) by apply Hc1.
  assert (Hnd1 : NoDup ((λ c, stored_name (call_name c) ds1) <$> cs1)).
  { apply (stored_names_NoDup ds1 cs1 _ Hnames1); apply loader_names_NoDup. }
  assert (Hnd2 : NoDup ((λ c, stored_name (call_name c) ds2) <$> cs2))
    by by rewrite Hstored.
  assert (Hlen : length cs2 = length cs1).
  { by rewrite <- (length_fmap call_name cs2), Hnames2, <- Hnames1, length_fmap. }
  intros s Hs.
  assert (Hname : Slice.slice_name s ∈ (λ c, stored_name (call_name c) ds2) <$> cs2).
  { rewrite Hstored, <- (slices_after_names ds1 cs1 (Slice_table st)).
    by apply list_elem_of_fmap_2. }
  assert (Hid : Slice.id s ∉ Slice.id <$> (slices_after ds2 cs2 (Slice_table st1)).2).
  { assert (Hin : Slice.id s ∈ Slice.id <$> (slices_after ds1 cs1 (Slice_table st)).2)
      by by apply list_elem_of_fmap_2.
    rewrite slices_after_ids in Hin. rewrite slices_after_ids.
    rewrite Hslt1, slices_after_next, Hlen.
    apply list_elem_of_fmap in Hin as (i & -> & Hi). apply elem_of_seq in Hi.
    intros Hin. apply list_elem_of_fmap in Hin as (j & [= <-] & Hj).
    apply elem_of_seq in Hj. lia. }
  assert (Hin1 : s ∈ rows (Slice_table st1)).
  { rewrite Hslt1.
    pose proof (slices_after_only_one ds1 cs1 (Slice_table st) Ht0 Hnd1) as Hone.
    rewrite Forall_forall in Hone. by destruct (Hone s Hs). }
  assert (Hrows : ∀ r, r ∈ rows (Slice_table st2) →
            (r ∈ rows (Slice_table st1) ∧
             Slice.slice_name r ∉ (λ c, stored_name (call_name c) ds2) <$> cs2) ∨
            r ∈ (slices_after ds2 cs2 (Slice_table st1)).2).
  { intros r. rewrite Hslt2, (slices_after_rows ds2 cs2 _ Ht1 Hnd2).
    intros [Hr|Hr]%elem_of_app; [left|by right].
    by apply list_elem_of_filter in Hr as [? ?]. }
  assert (Hids : Slice.id s ∉ Slice.id <$> rows (Slice_table st2)).
  { intros Hin. apply list_elem_of_fmap in Hin as (r & Heq & Hr).
    destruct (Hrows r Hr) as [[Hrow Hnot]|Hnew].
    - apply Hnot.
      destruct Ht1 as (_ & Hndid & _).
      by rewrite (NoDup_fmap_eq Slice.id _ r s Hndid Hrow Hin1 (eq_sym Heq)).
    - apply Hid. rewrite Heq. by apply list_elem_of_fmap_2. }
  split; [|split; [exact Hids|exact Hid]].
  intros Hin. apply Hids. by apply list_elem_of_fmap_2.
Qed.

Lemma rerun_replaces_slices_witness :
  ∃ st1 h1 st2 h2,
    run_loader BirthNames None sample_env empty_storage = (st1, inr h1) ∧
    run_loader BirthNames None sample_env st1 = (st2, inr h2) ∧
    ∀ s, s ∈ ld_slices h1 → s ∉ rows (Slice_table st2).
Proof.
  destruct (rerun_replaces_slices BirthNames None sample_env sample_env empty_storage)
    as (st1 & h1 & st2 & h2 & Hrun1 & Hrun2 & _ & H).
  - intros n o. reflexivity.
  - intros n o. reflexivity.
  - cbn [ready]. unfold import_ready. eexists _, _. split; vm_compute; reflexivity.
  - cbn [ready]. unfold import_ready. eexists _, _. split; vm_compute; reflexivity.
  - unfold consistent, dashboards_ok, table_ok, ids_ok. simpl.
    repeat split; first [apply NoDup_nil_2 | apply Forall_nil_2].
  - exists st1, h1, st2, h2.
    exact (conj Hrun1 (conj Hrun2 (λ s Hs, proj1 (H s Hs)))).
Defined.

(** ** The dashboard of a run *)

Lemma imported_charts e file table_name description dtype es_cluster st st0 ds :
  imported e file table_name description dtype es_cluster st = Some (st0, ds) →
  charts st0 = charts st.
Proof.
  unfold imported. repeat case_match; try done; by intros [= <- <-].
Qed.

Lemma layout_loader_shape l es e st :
  l = WorldBank ∨ l = BirthNames →
  quiet e → ready l es e →
  ∃ st' ds cs title slug,
    S (length (layout_of l)) = length cs ∧
    let slices := (slices_after ds cs (Slice_table st)).2 in
    let dash :=
      dashboard_record (dash_key l) title slug
        (json_dumps_list (filled_layout (layout_of l) slices))
        (Slice.id <$> removelast slices) (Dash_table st) in
    run_loader l es e st
    = (st', inr (Loaded (Some ds) slices (Some (table_add dash (Dash_table st)).2) [])) ∧
    Dash_table st' = (table_add dash (Dash_table st)).1.
Proof.
  intros Hl Hq Hready. destruct Hl as [-> | ->]; cbn [ready run_loader] in *.
  - destruct Hready as [[description Hfile] Himp].
    destruct (import_ready_imported e "countries.json.gz" "wb_health_population"
                description
                (list_to_map [("year", DateTime); ("country_code", String_ 3);
                              ("country_name", String_ 255); ("region", String_ 255)])
                es st Himp) as (st0 & ds & Hi).
    pose proof (imported_charts _ _ _ _ _ _ _ _ _ Hi) as [= Hslt Hdt _].
    apply import_data_quiet in Hi; [|done].
    destruct (load_world_bank_quiet es e st st0 ds description Hq Hfile Hi)
      as (cs & Hnames & Hrun).
    cbv zeta in Hrun. rewrite Hslt, Hdt in Hrun.
    eexists _, ds, cs, _, _. split.
    { apply (f_equal length) in Hnames. rewrite length_fmap in Hnames.
      by rewrite Hnames. }
    cbv zeta. split; [exact Hrun|].
    unfold with_dash, with_slices. cbn [Dash_table]. by rewrite Hdt.
  - destruct (import_ready_imported e "birth_names.json.gz" "birth_names" ""
                (list_to_map [("ds", DateTime); ("gender", String_ 16);
                              ("state", String_ 10); ("name", String_ 255)])
                es st Hready) as (st0 & ds & Hi).
    pose proof (imported_charts _ _ _ _ _ _ _ _ _ Hi) as [= Hslt Hdt _].
    apply import_data_quiet in Hi; [|done].
    destruct (load_birth_names_quiet es e st st0 ds Hq Hi) as (cs & Hnames & Hrun).
    cbv zeta in Hrun. rewrite Hslt, Hdt in Hrun.
    eexists _, ds, cs, _, _. split.
    { apply (f_equal length) in Hnames. rewrite length_fmap in Hnames.
      by rewrite Hnames. }
    cbv zeta. split; [exact Hrun|].
    unfold with_dash, with_slices. cbn [Dash_table]. by rewrite Hdt.
Qed.

Lemma dashboard_record_position key title slug position members (t : table Dash.t) :
  Dash.position_json (table_add (dashboard_record key title slug position members t) t).2
  = Some position.
Proof. apply dashboard_record_added. Qed.

(** X18: the layout persisted with the dashboard of the world bank and the
    birth names loaders has one slot for each entry of the layout literal,
    in order; the slot has the size and place of the entry, and under
    "slice_id" the identifier, as a string, of the slice created at the
    same position: the identifiers written in the literal are not
    persisted. *)
Theorem layout_slots l es_cluster e st :
  l = WorldBank ∨ l = BirthNames →
  quiet e → ready l es_cluster e →
  ∃ st' h d,
    run_loader l es_cluster e st = (st', inr h) ∧
    ld_dash h = Some d ∧
    length (slots_of d) = length (layout_of l) ∧
    ∀ i pos, layout_of l !! i = Some pos →
      ∃ s slot,
        ld_slices h !! i = Some s ∧
        slots_of d !! i = Some slot ∧
        obj_get "slice_id" slot = Some (JStr (str_id (Slice.id s))) ∧
        ∀ k, k ≠ "slice_id" → obj_get k slot = pos !! k.
Proof.
  intros Hl Hq Hready.
  destruct (layout_loader_shape l es_cluster e st Hl Hq Hready)
    as (st' & ds & cs & title & slug & Hlen & Hrun & _).
  cbv zeta in Hrun. eexists _, _, _. split; [exact Hrun|].
  cbn [ld_dash ld_slices]. split; [reflexivity|].
  unfold slots_of. rewrite dashboard_record_position.
  unfold json_dumps_list, filled_layout. cbn [list_items].
  assert (Hsl : length (slices_after ds cs (Slice_table st)).2 = length cs)
    by apply slices_after_length.
  split.
  { rewrite length_fmap, length_zip_with. lia. }
  intros i pos Hpos.
  destruct ((slices_after ds cs (Slice_table st)).2 !! i) as [s|] eqn:Hs.
  2:{ apply lookup_ge_None in Hs. apply lookup_lt_Some in Hpos. lia. }
  eexists s, _. split; [reflexivity|]. split.
  { rewrite list_lookup_fmap, lookup_zip_with, Hpos. cbn [mbind option_bind].
    rewrite Hs. reflexivity. }
  unfold obj_get. cbn [obj_members]. split.
  - rewrite assoc_get_map_to_list. apply lookup_insert_eq.
  - intros k Hk. rewrite assoc_get_map_to_list. by apply lookup_insert_ne.
Qed.

Lemma layout_slots_witness :
  ∃ st' h d,
    run_loader WorldBank None sample_env empty_storage = (st', inr h) ∧
    ld_dash h = Some d ∧
    length (slots_of d) = length world_bank_layout.
Proof.
  destruct (layout_slots WorldBank None sample_env empty_storage)
    as (st' & h & d & Hrun & Hd & Hlen & _).
  - by left.
  - intros n o. reflexivity.
  - cbn [ready]. unfold import_ready. split; [eexists; vm_compute; reflexivity|].
    eexists _, _. split; vm_compute; reflexivity.
  - exists st', h, d. exact (conj Hrun (conj Hd Hlen)).
Defined.

Lemma dashboard_record_in_place key title slug position members (t : table Dash.t) :
  ids_ok t →
  let r := dashboard_record key title slug position members t in
  let d := (table_add r t).2 in
  match find key (rows t) with
  | Some x =>
      Dash.id d = Dash.id x ∧
      next_id (table_add r t).1 = next_id t ∧
      length (rows (table_add r t).1) = length (rows t) ∧
      ∀ y, y ∈ rows t → Dash.id y ≠ Dash.id x → y ∈ rows (table_add r t).1
  | None =>
      Dash.id d = Some (next_id t) ∧
      next_id (table_add r t).1 = S (next_id t) ∧
      rows (table_add r t).1 = rows t ++ [d]
  end.
Proof.
  intros Hok. cbv zeta. unfold dashboard_record.
  destruct (find key (rows t)) as [x|] eqn:Hfind; cbn [default from_option id].
  - apply find_elem in Hfind as [Hx _].
    destruct (table_add_found
                (Dash.set_slices members
                   (Dash.set_slug slug
                      (Dash.set_position_json position
                         (Dash.set_dashboard_title title x)))) x t Hok Hx eq_refl)
      as (Heq & Hnext & Hlen & _ & Hkeep & _).
    rewrite Heq. done.
  - unfold table_add. cbn. done.
Qed.


Lemma removelast_subseteq {A} (l : list A) : removelast l ⊆ l.
Proof.
  rewrite removelast_take. apply sublist_subseteq, sublist_take.
Qed.

Lemma fmap_removelast_subseteq {A B} (f : A → B) (l : list A) :
  f <$> removelast l ⊆ f <$> l.
Proof.
  intros y Hy. apply list_elem_of_fmap in Hy as (x & -> & Hx).
  apply list_elem_of_fmap_2. by apply removelast_subseteq.
Qed.

Lemma dash_loader_shape l es e st title slug :
  loader_dash l = Some (title, slug) →
  quiet e → ready l es e →
  ∃ st' ds slices position members,
    let dash :=
      dashboard_record (dash_key l) title slug position members (Dash_table st) in
    run_loader l es e st
    = (st', inr (Loaded ds slices (Some (table_add dash (Dash_table st)).2) [])) ∧
    Dash_table st' = (table_add dash (Dash_table st)).1 ∧
    members ⊆ Slice.id <$> slices.
Proof.
  intros Hl Hq Hready. destruct l; cbn [loader_dash] in Hl; try done;
    injection Hl as <- <-; cbn [ready run_loader] in *.
  - destruct Hready as [[description Hfile] Himp].
    destruct (import_ready_imported e "countries.json.gz" "wb_health_population"
                description
                (list_to_map [("year", DateTime); ("country_code", String_ 3);
                              ("country_name", String_ 255); ("region", String_ 255)])
                es st Himp) as (st0 & ds & Hi).
    pose proof (imported_charts _ _ _ _ _ _ _ _ _ Hi) as [= Hslt Hdt _].
    apply import_data_quiet in Hi; [|done].
    destruct (load_world_bank_quiet es e st st0 ds description Hq Hfile Hi)
      as (cs & _ & Hrun).
    cbv zeta in Hrun. rewrite Hdt in Hrun.
    eexists _, _, _, _, _. cbv zeta. split; [exact Hrun|]. split.
    + unfold with_dash, with_slices. cbn [Dash_table]. by rewrite Hdt.
    + apply fmap_removelast_subseteq.
  - destruct (import_ready_imported e "birth_names.json.gz" "birth_names" ""
                (list_to_map [("ds", DateTime); ("gender", String_ 16);
                              ("state", String_ 10); ("name", String_ 255)])
                es st Hready) as (st0 & ds & Hi).
    pose proof (imported_charts _ _ _ _ _ _ _ _ _ Hi) as [= Hslt Hdt _].
    apply import_data_quiet in Hi; [|done].
    destruct (load_birth_names_quiet es e st st0 ds Hq Hi) as (cs & _ & Hrun).
    cbv zeta in Hrun. rewrite Hdt in Hrun.
    eexists _, _, _, _, _. cbv zeta. split; [exact Hrun|]. split.
    + unfold with_dash, with_slices. cbn [Dash_table]. by rewrite Hdt.
    + apply fmap_removelast_subseteq.
  - destruct Hready as [df Hread].
    destruct (load_unicode_test_data_quiet es e st df Hq Hread) as (c & _ & Hrun).
    cbv zeta in Hrun. eexists _, _, _, _, _. cbv zeta.
    split; [exact Hrun|]. split; [reflexivity|]. done.
Qed.

Lemma loader_dash_pairs l T S :
  loader_dash l = Some (T, S) →
  (T, S) ∈ dash_pairs ∧
  ∀ d, dash_paired d → (dash_key l d = true ↔ Dash.slug d = Some S).
Proof.
  intros Hl. destruct l; cbn [loader_dash] in Hl; try done; injection Hl as <- <-;
    cbn [dash_key].
  - split; [apply list_elem_of_here|].
    intros d _. apply bool_decide_eq_true.
  - split; [apply list_elem_of_further, list_elem_of_here|].
    intros d Hd. rewrite bool_decide_eq_true. apply Hd.
    apply list_elem_of_further, list_elem_of_here.
  - split; [do 2 apply list_elem_of_further; apply list_elem_of_here|].
    intros d Hd. rewrite bool_decide_eq_true. apply Hd.
    do 2 apply list_elem_of_further. apply list_elem_of_here.
Qed.

(** X19: from a dashboard table with no two dashboards of one slug or of
    one title, in which a dashboard has the title of a loader exactly when
    it has its slug, the world bank loader looks for its dashboard by the
    slug "world_health", the birth names and unicode loaders by the titles
    "Births" and "Unicode Test".  The dashboard found has both the title
    and the slug of the loader and is taken over: the dashboard of the run
    has its identifier, no dashboard is added and the others are kept.
    When none is found, no dashboard has that slug or title, and the
    dashboard is added under the next identifier, after the others.
    Either way the dashboard of the run is the only one of its slug, and
    the table is as sound as before. *)
Theorem dashboard_taken_over l es_cluster e st title slug :
  loader_dash l = Some (title, slug) →
  quiet e → ready l es_cluster e →
  dashboards_ok (Dash_table st) →
  ∃ st' h d,
    run_loader l es_cluster e st = (st', inr h) ∧
    ld_dash h = Some d ∧
    Dash.dashboard_title d = Some title ∧
    Dash.slug d = Some slug ∧
    dashboards_ok (Dash_table st') ∧
    only_one Dash.slug d (rows (Dash_table st')) ∧
    match find (dash_key l) (rows (Dash_table st)) with
    | Some x =>
        Dash.slug x = Some slug ∧
        Dash.dashboard_title x = Some title ∧
        Dash.id d = Dash.id x ∧
        next_id (Dash_table st') = next_id (Dash_table st) ∧
        length (rows (Dash_table st')) = length (rows (Dash_table st)) ∧
        ∀ y, y ∈ rows (Dash_table st) → Dash.id y ≠ Dash.id x →
             y ∈ rows (Dash_table st')
    | None =>
        (∀ y, y ∈ rows (Dash_table st) →
              Dash.slug y ≠ Some slug ∧ Dash.dashboard_title y ≠ Some title) ∧
        Dash.id d = Some (next_id (Dash_table st)) ∧
        next_id (Dash_table st') = S (next_id (Dash_table st)) ∧
        rows (Dash_table st') = rows (Dash_table st) ++ [d]
    end.
Proof.
  intros Hl Hq Hready Hok.
  destruct (dash_loader_shape l es_cluster e st title slug Hl Hq Hready)
    as (st' & ds & slices & position & members & Hrun & Hdt & _).
  cbv zeta in Hrun, Hdt.
  destruct (loader_dash_pairs l title slug Hl) as [Hin Hkey].
  destruct (dashboard_record_ok (dash_key l) title slug position members
              (Dash_table st) Hin Hkey Hok) as (Hok' & Hone & _).
  destruct (dashboard_record_added (dash_key l) title slug position members
              (Dash_table st)) as (_ & Htitle & Hslug & _).
  eexists _, _, _. split; [exact Hrun|]. cbn [ld_dash].
  split; [reflexivity|]. split; [exact Htitle|]. split; [exact Hslug|].
  rewrite Hdt. split; [exact Hok'|]. split; [exact Hone|].
  assert (Hids : ids_ok (Dash_table st)) by apply Hok.
  pose proof (dashboard_record_in_place (dash_key l) title slug position members
                (Dash_table st) Hids) as Hplace.
  cbv zeta in Hplace.
  destruct Hok as (_ & _ & Hpaired). rewrite Forall_forall in Hpaired.
  destruct (find (dash_key l) (rows (Dash_table st))) as [x|] eqn:Hfind.
  - apply find_elem in Hfind as [Hx Hpx].
    assert (Hs : Dash.slug x = Some slug) by by apply (Hkey x (Hpaired x Hx)).
    split; [exact Hs|]. split; [|exact Hplace].
    by apply (Hpaired x Hx title slug Hin).
  - split; [|exact Hplace]. intros y Hy.
    pose proof (find_none_elem _ _ _ Hfind Hy) as Hpy.
    assert (Hs : Dash.slug y ≠ Some slug).
    { intros Hs. apply (Hkey y (Hpaired y Hy)) in Hs. congruence. }
    split; [exact Hs|]. intros Ht. by apply (Hpaired y Hy title slug Hin) in Ht.
Qed.

Lemma dashboard_taken_over_witness :
  ∃ st' h d,
    run_loader UnicodeTest None sample_env empty_storage = (st', inr h) ∧
    ld_dash h = Some d ∧
    Dash.slug d = Some "unicode-test" ∧
    Dash.id d = Some 1 ∧
    rows (Dash_table st') = [d].
Proof.
  destruct (dashboard_taken_over UnicodeTest None sample_env empty_storage
              "Unicode Test" "unicode-test")
    as (st' & h & d & Hrun & Hd & _ & Hslug & _ & _ & _ & Hid & _ & Hrows).
  - reflexivity.
  - intros n o. reflexivity.
  - cbn [ready]. eexists. vm_compute. reflexivity.
  - unfold dashboards_ok, table_ok, ids_ok. simpl.
    repeat split; first [apply NoDup_nil_2 | apply Forall_nil_2].
  - exists st', h, d. exact (conj Hrun (conj Hd (conj Hslug (conj Hid Hrows)))).
Defined.

(** ** Running again with the same inputs *)

Section again.
Context {R : Type} `{Model R} (p : R → bool) (new : R) (f : R → R).
Hypothesis id_set_id : ∀ i r, model_id (model_set_id i r) = i.
Hypothesis f_id : ∀ x, model_id (f x) = model_id x.
Hypothesis new_id : model_id new = None.
Hypothesis f_f : ∀ x, f (f x) = f x.
Hypothesis p_f : ∀ x, p (f x) = p x.
Hypothesis p_new : p new = true.
Hypothesis p_set : ∀ i x, p (model_set_id i x) = p x.
Hypothesis f_set : ∀ i x, f (model_set_id i x) = model_set_id i (f x).

Lemma replace_row_same (r : R) (l : list R) :
  NoDup (model_id <$> l) → r ∈ l → replace_row r l = l.
Proof using Type.
  intros Hnd Hr. unfold replace_row.
  rewrite <- (list_fmap_id l) at 2. apply list_fmap_ext. intros i y Hy. simpl.
  case_decide as Hd; [|done].
  apply (NoDup_fmap_eq model_id l); [done|done| |done].
  by eapply list_elem_of_lookup_2.
Qed.

Lemma upsert_fixed (t : table R) (x : R) :
  ids_ok t → find p (rows t) = Some x → f x = x →
  table_add (f (default new (find p (rows t)))) t = (t, x).
Proof using Type.
  intros [Hnd Hb] Hfind Hfx. rewrite Hfind. cbn [default from_option id].
  rewrite Hfx. apply find_elem in Hfind as [Hx _].
  rewrite Forall_forall in Hb.
  destruct (Hb (model_id x)) as (i & Hi & _); [by apply list_elem_of_fmap_2|].
  unfold table_add. rewrite Hi. rewrite replace_row_same by done. by destruct t.
Qed.

Lemma find_replace_row (r x : R) (l : list R) :
  NoDup (model_id <$> l) → find p l = Some x → model_id r = model_id x →
  p r = true → find p (replace_row r l) = Some r.
Proof using Type.
  intros Hnd Hfind Hid Hp. induction l as [|a l IH]; [done|].
  rewrite fmap_cons in Hnd. apply NoDup_cons in Hnd as [Ha Hnd].
  cbn [find] in Hfind. unfold replace_row. rewrite fmap_cons. cbn [find].
  destruct (p a) eqn:Hpa.
  - injection Hfind as ->. rewrite decide_True by done. by rewrite Hp.
  - assert (Hne : model_id a ≠ model_id r).
    { intros Heq. apply Ha. rewrite Heq, Hid.
      apply find_elem in Hfind as [Hx _]. by apply list_elem_of_fmap_2. }
    rewrite decide_False by done. rewrite Hpa. by apply IH.
Qed.

Lemma find_app_new (l : list R) (d : R) :
  find p l = None → p d = true → find p (l ++ [d]) = Some d.
Proof using Type.
  intros Hfind Hp. induction l as [|a l IH]; cbn [app find] in *.
  - by rewrite Hp.
  - destruct (p a); [done|]. by apply IH.
Qed.

Lemma upsert_found (t : table R) :
  ids_ok t →
  let u := table_add (f (default new (find p (rows t)))) t in
  find p (rows u.1) = Some u.2 ∧ f u.2 = u.2 ∧ ids_ok u.1.
Proof using id_set_id f_id new_id f_f p_f p_new p_set f_set.
  intros [Hnd Hb]. cbv zeta.
  destruct (find p (rows t)) as [x|] eqn:Hfind; cbn [default from_option id].
  - pose proof Hfind as [Hx Hpx]%find_elem.
    pose proof Hb as Hb'. rewrite Forall_forall in Hb'.
    destruct (Hb' (model_id x)) as (i & Hi & _); [by apply list_elem_of_fmap_2|].
    unfold table_add. rewrite f_id, Hi. cbn [fst snd rows next_id].
    split; [|split; [apply f_f|]].
    + apply (find_replace_row _ x); [done|done|by rewrite f_id|by rewrite p_f].
    + unfold ids_ok. cbn [rows next_id].
      assert (Hids : model_id <$> replace_row (f x) (rows t) = model_id <$> rows t).
      { unfold replace_row. rewrite <- list_fmap_compose.
        apply list_fmap_ext. intros k y Hy. simpl.
        case_decide as Hd; [|done]. by rewrite Hd. }
      by rewrite Hids.
  - unfold table_add. rewrite f_id, new_id. cbn [fst snd rows next_id].
    split; [|split].
    + apply find_app_new; [done|]. by rewrite p_set, p_f.
    + by rewrite f_set, f_f.
    + unfold ids_ok. cbn [rows next_id]. rewrite fmap_app. cbn [fmap list_fmap].
      rewrite id_set_id. split.
      * apply NoDup_app. split; [done|]. split; [|apply NoDup_singleton].
        intros o Ho Hin. apply list_elem_of_singleton in Hin as ->.
        rewrite Forall_forall in Hb. destruct (Hb _ Ho) as (i & [= <-] & Hlt). lia.
      * apply Forall_app. split.
        -- eapply Forall_impl; [exact Hb|]. intros o (i & -> & Hlt).
           exists i. split; [done|lia].
        -- apply Forall_singleton. exists (next_id t). split; [done|lia].
Qed.

Lemma upsert_again (t : table R) :
  ids_ok t →
  let u := table_add (f (default new (find p (rows t)))) t in
  table_add (f (default new (find p (rows u.1)))) u.1 = u.
Proof using id_set_id f_id new_id f_f p_f p_new p_set f_set.
  intros Hok. cbv zeta.
  destruct (upsert_found t Hok) as (Hfind & Hf & Hok').
  rewrite (upsert_fixed _ _ Hok' Hfind Hf). by destruct (table_add _ t).
Qed.

End again.

Lemma db_record_again e (t : table DB.t) :
  ids_ok t →
  let u := table_add (db_record e t) t in
  table_add (db_record e u.1) u.1 = u.
Proof.
  intros Hok. unfold db_record.
  apply (upsert_again (λ d, bool_decide (DB.database_name d = "main"))
           (DB.mk None "main" JNull)
           (DB.set_sqlalchemy_uri (SQLALCHEMY_DATABASE_URI e))); done.
Qed.

Lemma table_record_again table_name description database (t : table TBL.t) :
  ids_ok t →
  let u := table_add (table_record table_name description t database) t in
  table_add (table_record table_name description u.1 database) u.1 = u.
Proof.
  intros Hok. unfold table_record. cbv zeta.
  apply (upsert_again (λ t, bool_decide (TBL.table_name t = table_name))
           (TBL.mk None table_name None None None None)
           (λ ds,
              TBL.set_description description
                (TBL.set_database database
                   (if decide (table_name = "birth_names")
                    then TBL.set_main_dttm_col "ds" (TBL.set_is_featured true ds)
                    else if decide (table_name = "wb_health_population")
                    then TBL.set_main_dttm_col "year" (TBL.set_is_featured true ds)
                    else if decide (table_name = "random_time_series")
                    then TBL.set_is_featured false
                           (TBL.set_main_dttm_col "ds" (TBL.set_is_featured true ds))
                    else TBL.set_is_featured true ds))));
    try done; intros; repeat case_decide; done.
Qed.

Lemma datasource_record_again table_name description cluster
    (t : table ElasticsearchDatasource.t) :
  ids_ok t →
  let u := table_add (datasource_record table_name description cluster t) t in
  table_add (datasource_record table_name description cluster u.1) u.1 = u.
Proof.
  intros Hok. unfold datasource_record. cbv zeta.
  apply (upsert_again
           (λ d, bool_decide (ElasticsearchDatasource.datasource_name d
                              = "example-" +:+ table_name))
           (ElasticsearchDatasource.mk None ("example-" +:+ table_name)
              None None None None None)
           (λ ds,
              ElasticsearchDatasource.set_is_featured true
                (ElasticsearchDatasource.set_description description
                   (ElasticsearchDatasource.set_index_name ("example-" +:+ table_name)
                      (ElasticsearchDatasource.set_cluster cluster
                         (if decide (table_name = "birth_names")
                          then ElasticsearchDatasource.set_main_dttm_col "ds" ds
                          else if decide (table_name = "wb_health_population")
                          then ElasticsearchDatasource.set_main_dttm_col "year" ds
                          else ds))))));
    try done; intros; repeat case_decide; done.
Qed.

(** X20: [import_data] run again with the same file and arguments changes
    nothing but the clock: the data table or the index, the dataset
    record and, on the relational path, the connection record are
    written with what they hold already, and the same record is
    returned. *)
Theorem import_data_again file table_name description dtype es_cluster e st :
  quiet e →
  import_ready e file table_name es_cluster →
  ids_ok (DB_table st) → ids_ok (TBL_table st) → ids_ok (datasource_table st) →
  ∃ st1 ds st2,
    import_data file table_name description dtype es_cluster e st = (st1, inr ds) ∧
    import_data file table_name description dtype es_cluster e st1 = (st2, inr ds) ∧
    st2 = set_clock (clock st2) st1.
Proof.
  intros Hq Hready Hdb Htb Hds. destruct es_cluster as [cluster|]; cbn in Hready.
  - destruct Hready as [data Hread].
    rewrite (import_data_index_quiet _ _ _ _ _ _ _ _ Hq Hread).
    eexists _, _, _. split; [reflexivity|].
    rewrite (import_data_index_quiet _ _ _ _ _ _ _ _ Hq Hread).
    unfold imported_index. cbv zeta.
    cbn [DB_table cluster_table TBL_table datasource_table Slice_table Dash_table
      CSS_table sql_tables es_indices clock faults set_clock].
    rewrite (datasource_record_again table_name description
               (ElasticsearchCluster.id cluster) (datasource_table st) Hds).
    split; [reflexivity|].
    rewrite insert_insert_eq, lookup_insert_eq.
    rewrite (decide_True (P := is_Some (Some _))) by by eexists.
    by rewrite app_nil_r.
  - destruct Hready as (pdf & pdf' & Hread & Hco).
    rewrite (import_data_table_quiet _ _ _ _ _ _ _ _ Hq Hread Hco).
    eexists _, _, _. split; [reflexivity|].
    rewrite (import_data_table_quiet _ _ _ _ _ _ _ _ Hq Hread Hco).
    unfold imported_table. cbv zeta.
    cbn [DB_table cluster_table TBL_table datasource_table Slice_table Dash_table
      CSS_table sql_tables es_indices clock faults set_clock].
    rewrite (db_record_again e (DB_table st) Hdb).
    rewrite (table_record_again table_name description _ (TBL_table st) Htb).
    split; [reflexivity|].
    by rewrite insert_insert_eq.
Qed.

Lemma import_data_again_witness :
  ∃ st1 ds st2,
    import_data "energy.json.gz" "energy_usage" "Energy consumption" ∅ None
      sample_env empty_storage = (st1, inr ds) ∧
    import_data "energy.json.gz" "energy_usage" "Energy consumption" ∅ None
      sample_env st1 = (st2, inr ds) ∧
    st2 = set_clock (clock st2) st1.
Proof.
  apply (import_data_again "energy.json.gz" "energy_usage" "Energy consumption" ∅
           None sample_env empty_storage).
  - intros n o. reflexivity.
  - unfold import_ready. eexists _, _. split; vm_compute; reflexivity.
  - split; simpl; [apply NoDup_nil_2|apply Forall_nil_2].
  - split; simpl; [apply NoDup_nil_2|apply Forall_nil_2].
  - split; simpl; [apply NoDup_nil_2|apply Forall_nil_2].
Defined.

Lemma find_only_one {R K} (key : R → K) (p : R → bool) (c : R) (l : list R) :
  only_one key c l → (∀ y, p y = true ↔ key y = key c) → find p l = Some c.
Proof.
  intros [Hc Hone] Hp. destruct (find p l) as [x|] eqn:Hfind.
  - apply find_elem in Hfind as [Hx Hpx]. f_equal. apply Hone; [done|]. by apply Hp.
  - pose proof (find_none_elem _ _ _ Hfind Hc) as Hpc.
    assert (p c = true) by by apply Hp. congruence.
Qed.

Lemma css_record_fields name css (t : table CSS.t) :
  let c := (table_add (css_record name css t) t).2 in
  CSS.template_name c = name ∧ CSS.css c = Some css.
Proof.
  cbv zeta.
  assert (Hr : CSS.template_name (css_record name css t) = name ∧
               CSS.css (css_record name css t) = Some css).
  { unfold css_record. destruct (find _ (rows t)) as [x|] eqn:Hfind;
      cbn [default from_option id]; [|done].
    apply find_elem in Hfind as [_ Hp]. by apply bool_decide_eq_true in Hp. }
  destruct (table_add_snd_cases (css_record name css t) t) as [-> | ->]; exact Hr.
Qed.

Lemma css_record_fixed name css (t : table CSS.t) (c : CSS.t) :
  ids_ok t → only_one CSS.template_name c (rows t) →
  CSS.template_name c = name → CSS.css c = Some css →
  table_add (css_record name css t) t = (t, c).
Proof.
  intros Hok Hone Hname Hcss. unfold css_record.
  apply (upsert_fixed (λ c, bool_decide (CSS.template_name c = name))
           (CSS.mk None name None) (CSS.set_css css)); [done| |].
  - apply (find_only_one CSS.template_name); [done|].
    intros y. rewrite bool_decide_eq_true. by rewrite Hname.
  - destruct c as [i n o]. cbn in *. by subst.
Qed.

(** X21: [load_css_templates] leaves two templates, "Flat" and "Courier
    Black", each with the style sheet of the module; run again, in any
    configuration, it returns the same two records and changes nothing
    but the clock. *)
Theorem load_css_templates_again es1 es2 e1 e2 st :
  quiet e1 → quiet e2 → consistent st →
  ∃ st1 h st2,
    load_css_templates es1 e1 st = (st1, inr h) ∧
    load_css_templates es2 e2 st1 = (st2, inr h) ∧
    st2 = set_clock (clock st2) st1 ∧
    CSS.template_name <$> ld_css h = ["Flat"; "Courier Black"] ∧
    CSS.css <$> ld_css h = [Some flat_css; Some courier_black_css] ∧
    Forall (λ c, c ∈ rows (CSS_table st1)) (ld_css h).
Proof.
  intros Hq1 Hq2 Hc.
  destruct (load_css_consistent es1 e1 st Hq1 Hc) as (st1 & h & Hrun & Hc1 & Hp).
  pose proof (load_css_templates_quiet es1 e1 st Hq1) as Hrun1. cbv zeta in Hrun1.
  destruct (css_record_fields "Flat" flat_css (CSS_table st)) as [Hn1 Hs1].
  destruct (css_record_fields "Courier Black" courier_black_css
              (CSS_table (with_css (css_record "Flat" flat_css (CSS_table st)) st)))
    as [Hn2 Hs2].
  set (c1 := (table_add (css_record "Flat" flat_css (CSS_table st)) (CSS_table st)).2)
    in *.
  set (c2 := (table_add _ (CSS_table (with_css _ st))).2) in *.
  rewrite Hrun1 in Hrun. injection Hrun as Hst1 Hh.
  destruct Hp as (_ & _ & _ & Hcss). rewrite <- Hh in Hcss. cbn [ld_css] in Hcss.
  apply Forall_cons in Hcss as [Hone1 Hcss].
  apply Forall_cons in Hcss as [Hone2 _].
  assert (Hok1 : ids_ok (CSS_table st1)) by apply Hc1.
  pose proof (css_record_fixed "Flat" flat_css _ c1 Hok1 Hone1 Hn1 Hs1) as Hfix1.
  pose proof (css_record_fixed "Courier Black" courier_black_css _ c2 Hok1 Hone2
                Hn2 Hs2) as Hfix2.
  pose proof (load_css_templates_quiet es2 e2 st1 Hq2) as Hrun2. cbv zeta in Hrun2.
  unfold with_css in Hrun2.
  cbn [DB_table cluster_table TBL_table datasource_table Slice_table Dash_table
    CSS_table sql_tables es_indices clock faults] in Hrun2.
  rewrite Hfix1 in Hrun2. cbn [fst snd] in Hrun2. rewrite Hfix2 in Hrun2.
  cbn [fst snd] in Hrun2.
  eexists st1, h, _. split; [rewrite Hrun1; by f_equal; [|f_equal]|].
  rewrite <- Hh. split; [exact Hrun2|]. cbn [ld_css set_clock clock].
  split; [reflexivity|].
  cbn [fmap list_fmap]. rewrite Hn1, Hn2, Hs1, Hs2.
  split; [done|]. split; [done|].
  apply Forall_cons. split; [apply Hone1|].
  apply Forall_cons. split; [apply Hone2|apply Forall_nil_2].
Qed.

Lemma load_css_templates_again_witness :
  ∃ st1 h st2,
    load_css_templates None sample_env empty_storage = (st1, inr h) ∧
    load_css_templates None sample_env st1 = (st2, inr h) ∧
    st2 = set_clock (clock st2) st1 ∧
    CSS.template_name <$> ld_css h = ["Flat"; "Courier Black"].
Proof.
  destruct (load_css_templates_again None None sample_env sample_env empty_storage)
    as (st1 & h & st2 & Hrun1 & Hrun2 & Heq & Hnames & _).
  - intros n o. reflexivity.
  - intros n o. reflexivity.
  - unfold consistent, dashboards_ok, table_ok, ids_ok. simpl.
    repeat split; first [apply NoDup_nil_2 | apply Forall_nil_2].
  - exists st1, h, st2. exact (conj Hrun1 (conj Hrun2 (conj Heq Hnames))).
Defined.

(** ** Loaders and their import *)

Lemma bind_fails {A B} (m : M A) (k : A → M B) e st st' f :
  m e st = (st', inl f) → bind m k e st = (st', inl f).
Proof. intros H. unfold bind. by rewrite H. Qed.

(** X22: a loader whose import fails ends there, with the failure and the
    storage of the import: it asks for no slice and no dashboard, and the
    slice, dashboard and template tables are as they were.  The world bank
    loader reads its description first: when that file cannot be read,
    nothing is imported. *)
Theorem failed_import_ends_the_run l es_cluster e st :
  (∀ file table_name description dtype st0 f,
     loader_import l e = Some (file, table_name, description, dtype) →
     import_data file table_name description dtype es_cluster e st = (st0, inl f) →
     run_loader l es_cluster e st = (st0, inl f) ∧ charts st0 = charts st) ∧
  (∀ f, readfile e "countries.md" = inl f →
     run_loader WorldBank es_cluster e st
     = (set_faults (faults st ++ [(ReadFile, f)]) st, inl f)).
Proof.
  split.
  - intros file table_name description dtype st0 f Hargs Himp. split.
    + destruct l; cbn [loader_import run_loader] in *; try done.
      * injection Hargs as <- <- <- <-. unfold load_energy.
        apply bind_fails. exact Himp.
      * destruct (readfile e "countries.md") as [f'|d] eqn:Hfile; [done|].
        injection Hargs as <- <- <- <-. unfold load_world_bank_health_n_pop.
        unfold bind at 1. unfold ask at 1. rewrite Hfile.
        unfold bind at 1. unfold lib at 1, ret at 1.
        apply bind_fails. exact Himp.
      * injection Hargs as <- <- <- <-. unfold load_birth_names.
        unfold bind at 1. unfold ask at 1.
        apply bind_fails. exact Himp.
      * injection Hargs as <- <- <- <-. unfold load_random_time_series_data.
        unfold bind at 1. unfold ask at 1.
        apply bind_fails. exact Himp.
    + destruct es_cluster as [cluster|].
      * pose proof (untouched_import_data_cluster file table_name description dtype
                      cluster e st) as H.
        rewrite Himp in H. apply (f_equal snd) in H. exact H.
      * pose proof (untouched_import_data_relational file table_name description dtype
                      e st) as H.
        rewrite Himp in H. apply (f_equal snd) in H. exact H.
  - intros f Hfile. cbn [run_loader]. unfold load_world_bank_health_n_pop.
    unfold bind at 1. unfold ask at 1. by rewrite Hfile.
Qed.

Lemma failed_import_ends_the_run_witness :
  run_loader Energy None (unreadable sample_env) empty_storage
  = (set_faults [(PdReadJson, ValueError)] empty_storage, inl ValueError).
Proof.
  destruct (failed_import_ends_the_run Energy None (unreadable sample_env)
              empty_storage) as [H _].
  destruct (H "energy.json.gz" "energy_usage" "Energy consumption"
              (list_to_map [("source", String_ 255); ("target", String_ 255);
                            ("value", Float)])
              (set_faults [(PdReadJson, ValueError)] empty_storage) ValueError)
    as [Hrun _].
  - reflexivity.
  - reflexivity.
  - exact Hrun.
Defined.

Lemma imported_dataset e file table_name description dtype es_cluster st st0 ds :
  imported e file table_name description dtype es_cluster st = Some (st0, ds) →
  datasource_name_of ds
  = match es_cluster with
    | Some _ => "example-" +:+ table_name
    | None => table_name
    end ∧
  description_of ds = Some description.
Proof.
  unfold imported. destruct es_cluster as [cluster|].
  - destruct (gzip_json_loads e file) as [f|data]; [done|]. intros [= <- <-].
    cbn [datasource_name_of description_of].
    assert (Hr : ∀ r : ElasticsearchDatasource.t,
              r = datasource_record table_name description
                    (ElasticsearchCluster.id cluster) (datasource_table st) →
              ElasticsearchDatasource.datasource_name r = "example-" +:+ table_name ∧
              ElasticsearchDatasource.description r = Some description).
    { intros r ->. unfold datasource_record. cbv zeta.
      assert (Hname : ElasticsearchDatasource.datasource_name
                (default (ElasticsearchDatasource.mk None ("example-" +:+ table_name)
                            None None None None None)
                   (find (λ d, bool_decide
                                 (ElasticsearchDatasource.datasource_name d
                                  = "example-" +:+ table_name))
                      (rows (datasource_table st)))) = "example-" +:+ table_name).
      { destruct (find _ (rows (datasource_table st))) as [x|] eqn:Hfind;
          cbn [default from_option id]; [|done].
        apply find_elem in Hfind as [_ Hp]. by apply bool_decide_eq_true in Hp. }
      repeat case_decide; (split; [exact Hname|done]). }
    destruct (table_add_snd_cases
                (datasource_record table_name description
                   (ElasticsearchCluster.id cluster) (datasource_table st))
                (datasource_table st)) as [-> | ->]; exact (Hr _ eq_refl).
  - destruct (pd_read_json e file) as [f|pdf]; [done|].
    destruct (coerce_dates e table_name (rename_columns pdf)) as [f|pdf']; [done|].
    intros [= <- <-]. cbn [datasource_name_of description_of].
    set (db := DB.id _).
    assert (Hr : ∀ r : TBL.t,
              r = table_record table_name description (TBL_table st) db →
              TBL.table_name r = table_name ∧ TBL.description r = Some description).
    { intros r ->. unfold table_record. cbv zeta.
      assert (Hname : TBL.table_name
                        (default (TBL.mk None table_name None None None None)
                           (find (λ t, bool_decide (TBL.table_name t = table_name))
                              (rows (TBL_table st)))) = table_name).
      { destruct (find _ (rows (TBL_table st))) as [x|] eqn:Hfind;
          cbn [default from_option id]; [|done].
        apply find_elem in Hfind as [_ Hp]. by apply bool_decide_eq_true in Hp. }
      repeat case_decide; (split; [exact Hname|done]). }
    destruct (table_add_snd_cases
                (table_record table_name description (TBL_table st) db)
                (TBL_table st)) as [-> | ->]; exact (Hr _ eq_refl).
Qed.

(** X23: the dataset of a run of the energy, world bank, birth names and
    random time series loaders has the name of its table, after
    "example-" on the search-cluster path, and the description the loader
    gives: a text of the module, or for the world bank loader the content
    of its description file. *)
Theorem loader_dataset l es_cluster e st file table_name description dtype :
  loader_import l e = Some (file, table_name, description, dtype) →
  quiet e → ready l es_cluster e →
  ∃ st' h ds,
    run_loader l es_cluster e st = (st', inr h) ∧
    ld_datasource h = Some ds ∧
    datasource_name_of ds
    = match es_cluster with
      | Some _ => "example-" +:+ table_name
      | None => table_name
      end ∧
    description_of ds = Some description.
Proof.
  intros Hargs Hq Hready.
  assert (Hrun : ∃ st0 ds st' slices dash,
            imported e file table_name description dtype es_cluster st = Some (st0, ds) ∧
            run_loader l es_cluster e st = (st', inr (Loaded (Some ds) slices dash []))).
  { destruct l; cbn [loader_import run_loader ready] in *; try done.
    - injection Hargs as <- <- <- <-.
      destruct (import_ready_imported e "energy.json.gz" "energy_usage"
                  "Energy consumption"
                  (list_to_map [("source", String_ 255); ("target", String_ 255);
                                ("value", Float)]) es_cluster st Hready)
        as (st0 & ds & Hi).
      pose proof (import_data_quiet _ _ _ _ _ _ _ _ _ Hq Hi) as Himp.
      destruct (load_energy_quiet es_cluster e st st0 ds Hq Himp) as (cs & _ & _ & Hrun).
      by eexists _, _, _, _, _.
    - destruct Hready as [[d Hfile] Hready]. rewrite Hfile in Hargs.
      injection Hargs as <- <- <- <-.
      destruct (import_ready_imported e "countries.json.gz" "wb_health_population"
                  d
                  (list_to_map [("year", DateTime); ("country_code", String_ 3);
                                ("country_name", String_ 255); ("region", String_ 255)])
                  es_cluster st Hready) as (st0 & ds & Hi).
      pose proof (import_data_quiet _ _ _ _ _ _ _ _ _ Hq Hi) as Himp.
      destruct (load_world_bank_quiet es_cluster e st st0 ds d Hq Hfile Himp)
        as (cs & _ & Hrun).
      cbv zeta in Hrun. by eexists _, _, _, _, _.
    - injection Hargs as <- <- <- <-.
      destruct (import_ready_imported e "birth_names.json.gz" "birth_names" ""
                  (list_to_map [("ds", DateTime); ("gender", String_ 16);
                                ("state", String_ 10); ("name", String_ 255)])
                  es_cluster st Hready) as (st0 & ds & Hi).
      pose proof (import_data_quiet _ _ _ _ _ _ _ _ _ Hq Hi) as Himp.
      destruct (load_birth_names_quiet es_cluster e st st0 ds Hq Himp)
        as (cs & _ & Hrun).
      cbv zeta in Hrun. by eexists _, _, _, _, _.
    - injection Hargs as <- <- <- <-.
      destruct (import_ready_imported e "random_time_series.json.gz"
                  "random_time_series" "Random time series"
                  (list_to_map [("ds", DateTime)]) es_cluster st Hready)
        as (st0 & ds & Hi).
      pose proof (import_data_quiet _ _ _ _ _ _ _ _ _ Hq Hi) as Himp.
      destruct (load_random_time_series_quiet es_cluster e st st0 ds Hq Himp)
        as (cs & _ & Hrun).
      by eexists _, _, _, _, _. }
  destruct Hrun as (st0 & ds & st' & slices & dash & Hi & Hrun).
  destruct (imported_dataset _ _ _ _ _ _ _ _ _ Hi) as [Hname Hdesc].
  eexists _, _, ds. split; [exact Hrun|]. cbn [ld_datasource].
  split; [reflexivity|]. split; [exact Hname|exact Hdesc].
Qed.

Lemma loader_dataset_witness :
  ∃ st' h ds,
    run_loader WorldBank (Some sample_cluster) sample_env empty_storage
    = (st', inr h) ∧
    ld_datasource h = Some ds ∧
    datasource_name_of ds = "example-wb_health_population" ∧
    description_of ds = Some "World Bank data".
Proof.
  apply (loader_dataset WorldBank (Some sample_cluster) sample_env empty_storage
           "countries.json.gz" "wb_health_population" "World Bank data"
           (list_to_map [("year", DateTime); ("country_code", String_ 3);
                         ("country_name", String_ 255); ("region", String_ 255)])).
  - reflexivity.
  - intros n o. reflexivity.
  - cbn [ready]. unfold import_ready. split; [eexists; vm_compute; reflexivity|].
    eexists. vm_compute. reflexivity.
Defined.

(** ** A failure between the two calls to the cluster *)

(** X24: on the search-cluster path the index is deleted before it is
    filled again: when the bulk call fails, [import_data] ends with that
    failure, the index of the table is gone with what it held, the other
    indices are as they were and no dataset record was written. *)
Theorem import_data_bulk_failure file table_name description dtype cluster e st data f :
  gzip_json_loads e file = inr data →
  oracle e (clock st) EsIndicesDelete = None →
  oracle e (S (clock st)) EsBulk = Some f →
  ∃ st',
    import_data file table_name description dtype (Some cluster) e st = (st', inl f) ∧
    es_indices st' !! ("example-" +:+ table_name) = None ∧
    (∀ n, n ≠ "example-" +:+ table_name → es_indices st' !! n = es_indices st !! n) ∧
    datasource_table st' = datasource_table st.
Proof.
  intros Hread Hdel Hbulk. unfold import_data.
  unfold bind at 1. unfold ask at 1. rewrite Hread.
  unfold bind at 1. unfold lib at 1, ret at 1. cbv zeta.
  unfold bind at 1. unfold es_indices_delete at 1. rewrite Hdel.
  destruct (decide (is_Some (es_indices st !! ("example-" +:+ table_name))))
    as [Hsome|Hnone].
  - unfold bind at 1. unfold es_bulk at 1. unfold bind at 1.
    unfold ext at 1. cbn [clock tick set_clock set_es_indices]. rewrite Hbulk.
    eexists. split; [reflexivity|].
    unfold raise, tick. cbn. split; [apply lookup_delete_eq|].
    split; [|done]. intros n Hn. by apply lookup_delete_ne.
  - rewrite decide_True by (apply list_elem_of_singleton; reflexivity).
    unfold bind at 1. unfold es_bulk at 1. unfold bind at 1.
    unfold ext at 1. cbn [clock tick set_clock set_faults]. rewrite Hbulk.
    eexists. split; [reflexivity|].
    unfold raise, tick. cbn. split; [|done].
    by apply eq_None_not_Some.
Qed.

Lemma import_data_bulk_failure_witness :
  ∃ st',
    import_data "energy.json.gz" "energy_usage" "Energy consumption" ∅
      (Some sample_cluster) (failing_at 7 (HttpStatus 503) sample_env)
      (import_data "energy.json.gz" "energy_usage" "Energy consumption" ∅
         (Some sample_cluster) sample_env empty_storage).1
    = (st', inl (HttpStatus 503)) ∧
    es_indices st' !! "example-energy_usage" = None.
Proof.
  destruct (import_data_bulk_failure "energy.json.gz" "energy_usage"
              "Energy consumption" ∅ sample_cluster
              (failing_at 7 (HttpStatus 503) sample_env)
              (import_data "energy.json.gz" "energy_usage" "Energy consumption" ∅
                 (Some sample_cluster) sample_env empty_storage).1
              [JObj [("source", JStr "Coal"); ("target", JStr "Power");
                     ("value", JInt 7)]]
              (HttpStatus 503))
    as (st' & Hrun & Hgone & _).
  - vm_compute. reflexivity.
  - vm_compute. reflexivity.
  - vm_compute. reflexivity.
  - exists st'. exact (conj Hrun Hgone).
Defined.

(** ** The unicode loader's table *)

Lemma df_get_assign_eq c v (df : DataFrame) : df_get c (df_assign c v df) = Some v.
Proof.
  unfold df_assign. destruct (df_get c df) as [v0|] eqn:Hget.
  - by apply (df_get_set_eq c v0).
  - induction df as [|[c0 v0] df IH]; simpl in *; [by rewrite decide_True|].
    case_decide; [done|]. by apply IH.
Qed.

Lemma df_get_assign_ne c c' v (df : DataFrame) :
  c' ≠ c → df_get c' (df_assign c v df) = df_get c' df.
Proof.
  intros Hne. unfold df_assign. destruct (df_get c df) as [v0|].
  - by apply df_get_set_ne.
  - induction df as [|[c0 v0] df IH]; simpl; [by rewrite decide_False|].
    case_decide; [done|]. exact IH.
Qed.

Lemma df_len_assign c v (df : DataFrame) :
  length v = df_len df → df_len (df_assign c v df) = df_len df.
Proof.
  intros Hlen. unfold df_assign. destruct (df_get c df) as [v0|] eqn:Hget.
  - destruct df as [|[c0 w] df]; [done|]. simpl. by case_decide.
  - by destruct df as [|[c0 w] df].
Qed.

(** X25: the table "unicode_test" the unicode loader writes is the file
    with two columns set: "date", the day of the run in every row, and
    "value", one draw of [random.randint(1, 100)] for each row, in order;
    every other column is as read.  Its record has the date column "date"
    and is not featured. *)
Theorem load_unicode_test_data_table es_cluster e st df :
  quiet e →
  pd_read_csv e "unicode_utf8_unixnl_test.csv" = inr df →
  ∃ st' h written dtype t,
    load_unicode_test_data es_cluster e st = (st', inr h) ∧
    sql_tables st' !! "unicode_test" = Some (written, dtype) ∧
    df_get "date" written = Some (replicate (df_len df) (today e)) ∧
    df_get "value" written
    = Some ((λ i, Raw (JInt (randint e 1 100 i))) <$> seq 0 (df_len df)) ∧
    (∀ c, c ≠ "date" → c ≠ "value" → df_get c written = df_get c df) ∧
    ld_datasource h = Some (TableDs t) ∧
    t ∈ rows (TBL_table st') ∧
    TBL.table_name t = "unicode_test" ∧
    TBL.main_dttm_col t = Some "date" ∧
    TBL.is_featured t = Some false.
Proof.
  intros Hq Hread.
  destruct (load_unicode_test_data_quiet es_cluster e st df Hq Hread)
    as (c & _ & Hrun).
  cbv zeta in Hrun. eexists _, _, _, _, _. split; [exact Hrun|].
  unfold with_dash, with_slices, unicode_imported.
  cbn [sql_tables TBL_table ld_datasource].
  split; [apply lookup_insert_eq|].
  unfold unicode_frame. cbv zeta.
  split.
  { rewrite df_get_assign_ne by done. apply df_get_assign_eq. }
  split.
  { rewrite df_get_assign_eq. by rewrite df_len_assign by apply length_replicate. }
  split.
  { intros k Hd Hv. by rewrite !df_get_assign_ne by done. }
  split; [reflexivity|].
  set (db := DB.id _).
  split.
  { apply (table_add_upsert_elem
             (λ t, bool_decide (TBL.table_name t = "unicode_test"))
             (TBL.mk None "unicode_test" None None None None)
             (λ t, TBL.set_is_featured false
                     (TBL.set_database db (TBL.set_main_dttm_col "date" t))));
      done. }
  assert (Hr : ∀ r : TBL.t,
            r = unicode_table_record (TBL_table st) db →
            TBL.table_name r = "unicode_test" ∧
            TBL.main_dttm_col r = Some "date" ∧ TBL.is_featured r = Some false).
  { intros r ->. unfold unicode_table_record.
    destruct (find _ (rows (TBL_table st))) as [x|] eqn:Hfind;
      cbn [default from_option id]; [|done].
    apply find_elem in Hfind as [_ Hp]. by apply bool_decide_eq_true in Hp. }
  destruct (table_add_snd_cases (unicode_table_record (TBL_table st) db)
              (TBL_table st)) as [-> | ->]; exact (Hr _ eq_refl).
Qed.

Lemma load_unicode_test_data_table_witness :
  ∃ st' h written dtype,
    load_unicode_test_data None sample_env empty_storage = (st', inr h) ∧
    sql_tables st' !! "unicode_test" = Some (written, dtype) ∧
    df_get "date" written = Some [Timestamp 0; Timestamp 0].
Proof.
  destruct (load_unicode_test_data_table None sample_env empty_storage
              [("phrase", [Raw (JStr "a"); Raw (JStr "b")]);
               ("short_phrase", [Raw (JStr "a"); Raw (JStr "b")]);
               ("with_missing", [Raw (JStr "x"); Raw JNull])])
    as (st' & h & written & dtype & t & Hrun & Hw & Hdate & _).
  - intros n o. reflexivity.
  - reflexivity.
  - exists st', h, written, dtype. exact (conj Hrun (conj Hw Hdate)).
Defined.

(** ** Filling in the layout *)

(** X26: writing the slice identifiers into a layout, slot by slot, takes
    one slice for each slot: with enough slices the result is the layout
    with the identifiers of the first slices, as strings, and nothing
    else happens; with fewer slices than slots it ends with an index
    error, before anything is written. *)
Theorem set_slice_ids_bounds (l : list dict) (slices : list Slice.t) e st :
  (length l ≤ length slices →
   set_slice_ids 0 l slices e st = (st, inr (filled_layout l slices)) ∧
   length (filled_layout l slices) = length l) ∧
  (length slices < length l →
   set_slice_ids 0 l slices e st
   = (set_faults (faults st ++ [(GetItem, IndexError)]) st, inl IndexError)).
Proof.
  split.
  - intros Hlen. split.
    + by rewrite set_slice_ids_ok by (simpl; lia).
    + unfold filled_layout. rewrite length_zip_with. lia.
  - assert (Hgen : ∀ i, i ≤ length slices → length slices < i + length l →
              set_slice_ids i l slices e st
              = (set_faults (faults st ++ [(GetItem, IndexError)]) st, inl IndexError)).
    { induction l as [|pos l IH]; intros i Hi Hlen; cbn [length] in Hlen; [lia|].
      cbn [set_slice_ids]. unfold bind at 1, getitem at 1.
      destruct (slices !! i) as [s|] eqn:Hs.
      - apply lookup_lt_Some in Hs.
        unfold ret at 1. unfold bind at 1. rewrite IH by lia. reflexivity.
      - reflexivity. }
    intros Hlen. apply Hgen; simpl; lia.
Qed.

Lemma set_slice_ids_bounds_witness :
  set_slice_ids 0 [slot 4 2 1 "22" 1; slot 4 2 3 "23" 1]
    [Slice.mk (Some 5) "Girls" "table" "table" (Some 1) None JNull]
    sample_env empty_storage
  = (set_faults [(GetItem, IndexError)] empty_storage, inl IndexError).
Proof.
  destruct (set_slice_ids_bounds [slot 4 2 1 "22" 1; slot 4 2 3 "23" 1]
              [Slice.mk (Some 5) "Girls" "table" "table" (Some 1) None JNull]
              sample_env empty_storage) as [_ H].
  apply H. simpl. lia.
Defined.

(** * Idempotence of the loaders *)








